(** * QueryArc result renderer: a shallow embedding of [script.js] and
      [backup/script.js]

    The repository is a browser script.  It reads a URL from a text input,
    posts it to [/analyze], and writes the fields of the JSON answer into
    fixed DOM containers.  Two versions of the script exist: the current one
    (schema A, module [A] below) and the one kept under [backup/] (schema B,
    module [B]).

    Layout of this file:
    - [Js]: the part of the language runtime the script relies on: numbers
      (IEEE binary64, as primitive floats), values as [JSON.parse] builds
      them, truthiness, [typeof], property reads, string conversion,
      [Number.prototype.toString], [toFixed], [Math.min], [Math.max],
      [Math.round], [String.prototype.trim], exceptions;
    - [Html]: the markup a template literal writes, as the tree of its tags
      with the substitutions it carries, and what is known of how the browser
      reads it; [Template]: how values become markup;
    - [Dom]: the elements the script looks up once at load time;
    - [Script]: statements that write to the page and may throw, and the
      network as the script sees it;
    - [A], [B]: the functions of the two scripts, in source order;
    - [Spec]: the vocabulary of the specification;
    - the properties proved about the two scripts. *)

From Stdlib Require Import Bool List String Ascii ZArith QArith Qround Lia.
From Stdlib Require Import Floats Uint63.
From Stdlib Require DecimalString.
Import ListNotations.

#[local] Set Warnings "-inexact-float,-register-all".

Local Open Scope list_scope.
Local Open Scope string_scope.

(* ================================================================== *)
(** * The language runtime *)
(* ================================================================== *)

Module Js.

(** ** Numbers

    A JavaScript Number is an IEEE 754 binary64 value: [PrimFloat.float].
    Arithmetic and comparison are the primitive ones.  Conversions to text
    are specified by ECMAScript on the exact real value of the number, so
    they are written here over [Q], from the mantissa and exponent that
    [Prim2SF] returns. *)

Definition number := PrimFloat.float.

Definition num_of_Z (z : Z) : number :=
  if (z <? 0)%Z then PrimFloat.opp (PrimFloat.of_uint63 (Uint63.of_Z (- z)))
  else PrimFloat.of_uint63 (Uint63.of_Z z).

Definition pow2Q (e : Z) : Q :=
  if (0 <=? e)%Z then inject_Z (2 ^ e) else Qmake 1 (Z.to_pos (2 ^ (- e))).

Definition pow10Q (e : Z) : Q :=
  if (0 <=? e)%Z then inject_Z (10 ^ e) else Qmake 1 (Z.to_pos (10 ^ (- e))).

(** The exact value of the finite number with mantissa [m] and exponent [e]. *)
Definition realQ (m : positive) (e : Z) : Q := Qred (inject_Z (Zpos m) * pow2Q e).

Definition Qltb (a b : Q) : bool :=
  match (a ?= b)%Q with Lt => true | _ => false end.
Definition Qleb (a b : Q) : bool :=
  match (a ?= b)%Q with Gt => false | _ => true end.
(** Decimal digits of a natural number, most significant first. *)
Definition digits (z : Z) : string :=
  DecimalString.NilZero.string_of_uint (N.to_uint (Z.to_N z)).

Fixpoint zeros (n : nat) : string :=
  match n with O => EmptyString | S n' => String "0" (zeros n') end.

Fixpoint take (n : nat) (s : string) : string :=
  match n, s with
  | S n', String c s' => String c (take n' s')
  | _, _ => EmptyString
  end.

Fixpoint drop (n : nat) (s : string) : string :=
  match n, s with
  | S n', String _ s' => drop n' s'
  | _, _ => s
  end.

(** *** Number::toString (radix 10)

    ECMAScript: for a finite positive [x], take integers [n], [k], [s] with
    [k >= 1], [10^(k-1) <= s < 10^k], such that [s * 10^(n-k)] converts back
    to [x], and [k] as small as possible; among several [s], the one closest
    to [x]. *)

(** Whether the real [c] rounds to the binary64 number [m * 2^e]
    (round to nearest, ties to even mantissa). *)
Definition rounds_to (m : positive) (e : Z) (c : Q) : bool :=
  let lo :=
    if (Zpos m =? 2 ^ 52)%Z && (-1074 <? e)%Z
    then inject_Z (4 * Zpos m - 1) * pow2Q (e - 2)
    else inject_Z (2 * Zpos m - 1) * pow2Q (e - 1) in
  let hi := inject_Z (2 * Zpos m + 1) * pow2Q (e - 1) in
  if Z.even (Zpos m)
  then Qleb lo c && Qleb c hi
  else Qltb lo c && Qltb c hi.

(** The least [n], searching upwards from [n], with [x < 10^n]. *)
Fixpoint magnitude_from (fuel : nat) (x : Q) (n : Z) : Z :=
  match fuel with
  | O => n
  | S fuel' => if Qltb x (pow10Q n) then n else magnitude_from fuel' x (n + 1)
  end.

(** [n] with [10^(n-1) <= x < 10^n], for [x = m * 2^e]. *)
Definition magnitude (m : positive) (e : Z) : Z :=
  let est := ((Z.log2 (Zpos m) + e) * 30103 / 100000)%Z in
  magnitude_from 8 (realQ m e) (est - 2).

(** The shortest digit string: [(s, n)] of the specification. *)
Fixpoint shortest_from (fuel : nat) (m : positive) (e : Z) (n0 : Z) (k : Z)
  : Z * Z :=
  let x := realQ m e in
  let scale := pow10Q (n0 - k) in
  let s := Qfloor (x / scale) in
  let c1 := inject_Z s * scale in
  let c2 := inject_Z (s + 1) * scale in
  let ok1 := rounds_to m e c1 in
  let ok2 := rounds_to m e c2 in
  let up := if (s + 1 =? 10 ^ k)%Z then (10 ^ (k - 1), n0 + 1)%Z
            else (s + 1, n0)%Z in
  match fuel with
  | O => (s, n0)
  | S fuel' =>
      if ok1 && ok2 then
        match ((x - c1) ?= (c2 - x))%Q with
        | Lt => (s, n0)
        | Gt => up
        | Eq => if Z.even s then (s, n0) else up
        end
      else if ok1 then (s, n0)
      else if ok2 then up
      else shortest_from fuel' m e n0 (k + 1)
  end.

Definition shortest (m : positive) (e : Z) : Z * Z :=
  shortest_from 17 m e (magnitude m e) 1.

Definition format_positive (s n : Z) : string :=
  let ds := digits s in
  let k := Z.of_nat (String.length ds) in
  if (k <=? n)%Z && (n <=? 21)%Z then
    ds ++ zeros (Z.to_nat (n - k))
  else if (0 <? n)%Z && (n <=? 21)%Z then
    take (Z.to_nat n) ds ++ "." ++ drop (Z.to_nat n) ds
  else if (-6 <? n)%Z && (n <=? 0)%Z then
    "0." ++ zeros (Z.to_nat (- n)) ++ ds
  else
    let ex := (if (n - 1 <? 0)%Z then "-" else "+") ++ digits (Z.abs (n - 1)) in
    if (k =? 1)%Z then ds ++ "e" ++ ex
    else take 1 ds ++ "." ++ drop 1 ds ++ "e" ++ ex.

Definition Number_toString (x : number) : string :=
  match Prim2SF x with
  | S754_nan => "NaN"
  | S754_zero _ => "0"
  | S754_infinity false => "Infinity"
  | S754_infinity true => "-Infinity"
  | S754_finite sg m e =>
      let '(s, n) := shortest m e in
      (if sg then "-" else EmptyString) ++ format_positive s n
  end.

(** *** Number.prototype.toFixed(f) *)

Definition toFixed (x : number) (f : nat) : string :=
  match Prim2SF x with
  | S754_finite sg m e =>
      let r := realQ m e in
      if Qleb (pow10Q 21) r then Number_toString x
      else
        let n := Qfloor (r * pow10Q (Z.of_nat f) + (1 # 2)) in
        let ds := digits n in
        let ds := if (String.length ds <=? f)%nat
                  then zeros (f + 1 - String.length ds) ++ ds else ds in
        let k := String.length ds in
        (if sg then "-" else EmptyString) ++
        (if (f =? 0)%nat then ds
         else take (k - f) ds ++ "." ++ drop (k - f) ds)
  | S754_zero _ =>
      if (f =? 0)%nat then "0" else "0." ++ zeros f
  | _ => Number_toString x
  end.

(** *** Math.max, Math.min, Math.round, isNaN *)

Definition isNaN (x : number) : bool := PrimFloat.is_nan x.

Definition is_pos_zero (x : number) : bool :=
  PrimFloat.is_zero x && negb (PrimFloat.get_sign x).
Definition is_neg_zero (x : number) : bool :=
  PrimFloat.is_zero x && PrimFloat.get_sign x.

(** [Math.max(...)]: start from [-Infinity]; a [NaN] argument gives [NaN];
    [+0] replaces a highest of [-0]; a greater argument replaces the
    highest. *)
Fixpoint max_from (highest : number) (args : list number) : number :=
  match args with
  | [] => highest
  | x :: rest =>
      if PrimFloat.is_nan x then PrimFloat.nan
      else if is_pos_zero x && is_neg_zero highest then max_from PrimFloat.zero rest
      else if PrimFloat.ltb highest x then max_from x rest
      else max_from highest rest
  end.
Definition Math_max (args : list number) : number :=
  max_from PrimFloat.neg_infinity args.

Fixpoint min_from (lowest : number) (args : list number) : number :=
  match args with
  | [] => lowest
  | x :: rest =>
      if PrimFloat.is_nan x then PrimFloat.nan
      else if is_neg_zero x && is_pos_zero lowest then min_from PrimFloat.neg_zero rest
      else if PrimFloat.ltb x lowest then min_from x rest
      else min_from lowest rest
  end.
Definition Math_min (args : list number) : number :=
  min_from PrimFloat.infinity args.

(** [Math.round(x)]: the integer closest to [x], ties towards [+Infinity];
    [-0] for [-0.5 <= x < 0]; [x] itself when it is an integer, a zero, an
    infinity or [NaN]. *)
Definition Math_round (x : number) : number :=
  match Prim2SF x with
  | S754_finite sg m e =>
      if (0 <=? e)%Z then x
      else
        let r := realQ m e in
        let r := if sg then Qopp r else r in
        let n := Qfloor (r + (1 # 2)) in
        if (n =? 0)%Z && sg then PrimFloat.neg_zero else num_of_Z n
  | _ => x
  end.

(** ** Values

    What [JSON.parse] builds, and [undefined] for what is absent.  An object
    is the list of its own properties, in order. *)

Inductive val : Type :=
| Undefined
| Null
| Bool (b : bool)
| Num (x : number)
| Str (s : string)
| Arr (elems : list val)
| Obj (fields : list (string * val)).

Fixpoint lookup (k : string) (fields : list (string * val)) : option val :=
  match fields with
  | [] => None
  | (k', v) :: rest => if String.eqb k k' then Some v else lookup k rest
  end.

Definition truthy (v : val) : bool :=
  match v with
  | Undefined | Null => false
  | Bool b => b
  | Num x => negb (PrimFloat.is_zero x || PrimFloat.is_nan x)
  | Str s => negb (String.eqb s EmptyString)
  | Arr _ | Obj _ => true
  end.

Definition typeof (v : val) : string :=
  match v with
  | Undefined => "undefined"
  | Null | Arr _ | Obj _ => "object"
  | Bool _ => "boolean"
  | Num _ => "number"
  | Str _ => "string"
  end.

(** [typeof v === 'number'] and [typeof v === 'string'] *)
Definition is_number (v : val) : bool := String.eqb (typeof v) "number".
Definition is_string (v : val) : bool := String.eqb (typeof v) "string".

Definition isArray (v : val) : bool :=
  match v with Arr _ => true | _ => false end.

(** [a || b] and [a && b], both operands already evaluated. *)
Definition oror (a b : val) : val := if truthy a then a else b.
Definition andand (a b : val) : val := if truthy a then b else a.

(** The value of a binding with a default: [{ k = d } = ...]. *)
Definition with_default (x d : val) : val :=
  match x with Undefined => d | _ => x end.

(** Number of UTF-16 code units of a string held as UTF-8 bytes: one per
    leading byte, two for the leading byte of a four-byte sequence. *)
Fixpoint utf16_length (s : string) : nat :=
  match s with
  | EmptyString => O
  | String c s' =>
      let b := nat_of_ascii c in
      ((if (b <? 128)%nat then 1
        else if (b <? 192)%nat then 0
        else if (b <? 240)%nat then 1 else 2) + utf16_length s')%nat
  end.

(** [v.k] for a [v] other than [undefined] and [null].  The names the
    scripts read are data names; none of them is defined on a built-in
    prototype, so on a value other than an object only [length] (of a
    string or an array) is defined. *)
Definition get (v : val) (k : string) : val :=
  match v with
  | Obj fields => match lookup k fields with Some x => x | None => Undefined end
  | Arr elems =>
      if String.eqb k "length" then Num (num_of_Z (Z.of_nat (List.length elems)))
      else Undefined
  | Str s =>
      if String.eqb k "length" then Num (num_of_Z (Z.of_nat (utf16_length s)))
      else Undefined
  | _ => Undefined
  end.

(** ** Exceptions *)

Record error : Type := mkError { name : string; message : string }.

(** [new Error(msg)] *)
Definition Error (msg : string) : error := mkError "Error" msg.

Inductive completion (A : Type) : Type :=
| Normal (a : A)
| Throw (e : error).
Arguments Normal {A} a.
Arguments Throw {A} e.

Definition bind {A B} (c : completion A) (k : A -> completion B) : completion B :=
  match c with
  | Normal a => k a
  | Throw e => Throw e
  end.

Declare Scope js_scope.
Delimit Scope js_scope with js.
Notation "x <- c ;; k" := (bind c (fun x => k))
  (at level 61, c at next level, right associativity) : js_scope.
Local Open Scope js_scope.

(** What the engine itself throws.  The wording of these messages differs
    between engines; [fault_message] stands for the engine's. *)
Inductive fault : Type :=
| NullishRead (key : string)     (* a property read on undefined or null *)
| NotCallable (callee : string)  (* a call of something not a function *)
| NotPrimitive.                  (* an object with no usable toString *)

Section Engine.

Variable fault_message : fault -> string.
(** [StringToNumber] of ECMAScript: the number a string denotes. *)
Variable StringToNumber : string -> number.

Definition TypeError (f : fault) : error := mkError "TypeError" (fault_message f).

(** [v.k], for any [v]. *)
Definition read (v : val) (k : string) : completion val :=
  match v with
  | Undefined | Null => Throw (TypeError (NullishRead k))
  | _ => Normal (get v k)
  end.

(** The source of an object pattern [const { a, b = d } = v]: [v] must not
    be [undefined] or [null]. *)
Definition destructure (v : val) (first_key : string) : completion val :=
  match v with
  | Undefined | Null => Throw (TypeError (NullishRead first_key))
  | _ => Normal v
  end.

(** [ToString].  An array joins its elements with a comma, [undefined] and
    [null] elements giving the empty string.  An object parsed from JSON
    inherits [Object.prototype.toString] unless it has an own property of
    that name, which is then not a function: the conversion throws. *)
Fixpoint ToString (v : val) : completion string :=
  match v with
  | Undefined => Normal "undefined"
  | Null => Normal "null"
  | Bool b => Normal (if b then "true" else "false")
  | Num x => Normal (Number_toString x)
  | Str s => Normal s
  | Arr elems =>
      (fix join (l : list val) : completion string :=
         match l with
         | [] => Normal EmptyString
         | x :: rest =>
             a <- match x with
                  | Undefined | Null => Normal EmptyString
                  | _ => ToString x
                  end ;;
             match rest with
             | [] => Normal a
             | _ => b <- join rest ;; Normal (a ++ "," ++ b)
             end
         end) elems
  | Obj fields =>
      match lookup "toString" fields with
      | Some _ => Throw (TypeError NotPrimitive)
      | None => Normal "[object Object]"
      end
  end.

(** [Array.prototype.join(sep)] on the elements of an array. *)
Fixpoint join (sep : string) (l : list val) : completion string :=
  match l with
  | [] => Normal EmptyString
  | x :: rest =>
      a <- match x with
           | Undefined | Null => Normal EmptyString
           | _ => ToString x
           end ;;
      match rest with
      | [] => Normal a
      | _ => b <- join sep rest ;; Normal (a ++ sep ++ b)
      end
  end.

(** [xs.join(sep)] for any [xs]: only an array has the method. *)
Definition call_join (callee : string) (xs : val) (sep : string)
  : completion string :=
  match xs with
  | Undefined | Null => Throw (TypeError (NullishRead "join"))
  | Arr elems => join sep elems
  | _ => Throw (TypeError (NotCallable callee))
  end.

(** [ToNumber].  An array or object is first made primitive, which for a
    value parsed from JSON is its string conversion. *)
Definition ToNumber (v : val) : completion number :=
  match v with
  | Undefined => Normal PrimFloat.nan
  | Null => Normal PrimFloat.zero
  | Bool b => Normal (if b then PrimFloat.one else PrimFloat.zero)
  | Num x => Normal x
  | Str s => Normal (StringToNumber s)
  | Arr _ | Obj _ => s <- ToString v ;; Normal (StringToNumber s)
  end.

(** [a >= b] with a number on the right. *)
Definition ge (a : val) (b : number) : completion bool :=
  x <- ToNumber a ;; Normal (PrimFloat.leb b x).

(** [a * b] with a number on the right. *)
Definition times (a : val) (b : number) : completion number :=
  x <- ToNumber a ;; Normal (PrimFloat.mul x b).

End Engine.

(** ** String.prototype.trim

    Strings are held as UTF-8 bytes.  The white space that [trim] removes is
    the code points U+0009 to U+000D, U+0020, U+00A0, U+1680, U+2000 to
    U+200A, U+2028, U+2029, U+202F, U+205F, U+3000 and U+FEFF. *)

Definition is_ws1 (c : ascii) : bool :=
  let b := nat_of_ascii c in
  ((9 <=? b) && (b <=? 13) || (b =? 32))%nat.

Definition is_ws2 (c1 c2 : ascii) : bool :=
  ((nat_of_ascii c1 =? 194) && (nat_of_ascii c2 =? 160))%nat.

Definition is_ws3 (c1 c2 c3 : ascii) : bool :=
  let b1 := nat_of_ascii c1 in
  let b2 := nat_of_ascii c2 in
  let b3 := nat_of_ascii c3 in
  ((b1 =? 225) && (b2 =? 154) && (b3 =? 128)
   || (b1 =? 226) && (b2 =? 128)
      && ((128 <=? b3) && (b3 <=? 138) || (b3 =? 168) || (b3 =? 169) || (b3 =? 175))
   || (b1 =? 226) && (b2 =? 129) && (b3 =? 159)
   || (b1 =? 227) && (b2 =? 128) && (b3 =? 128)
   || (b1 =? 239) && (b2 =? 187) && (b3 =? 191))%nat.

Fixpoint trimStart (s : string) : string :=
  match s with
  | EmptyString => EmptyString
  | String c1 s1 =>
      if is_ws1 c1 then trimStart s1
      else
        match s1 with
        | EmptyString => s
        | String c2 s2 =>
            if is_ws2 c1 c2 then trimStart s2
            else
              match s2 with
              | EmptyString => s
              | String c3 s3 => if is_ws3 c1 c2 c3 then trimStart s3 else s
              end
        end
  end.

Fixpoint rev_onto (s acc : string) : string :=
  match s with
  | EmptyString => acc
  | String c s' => rev_onto s' (String c acc)
  end.
Definition reverse (s : string) : string := rev_onto s EmptyString.

(** [trimStart] on the reversed string: the bytes of a character come in
    the opposite order. *)
Fixpoint trimStart_reversed (s : string) : string :=
  match s with
  | EmptyString => EmptyString
  | String c1 s1 =>
      if is_ws1 c1 then trimStart_reversed s1
      else
        match s1 with
        | EmptyString => s
        | String c2 s2 =>
            if is_ws2 c2 c1 then trimStart_reversed s2
            else
              match s2 with
              | EmptyString => s
              | String c3 s3 =>
                  if is_ws3 c3 c2 c1 then trimStart_reversed s3 else s
              end
        end
  end.

Definition trimEnd (s : string) : string :=
  reverse (trimStart_reversed (reverse s)).

Definition trim (s : string) : string := trimEnd (trimStart s).

End Js.
(* ================================================================== *)
(** * Markup *)
(* ================================================================== *)

(** The scripts build markup with template literals and assign the string to
    [innerHTML], which the browser parses.  A template is held here as the
    tree its own tags denote: one [Element] per tag of the template, in
    order, one [Text] per run of text of the template, and one [Subst] per
    substitution [${e}] that stands for text.  White space between tags is
    not kept, and a line break inside a sentence counts as one space.

    A [Subst] holds the characters of the string conversion of [e].  The
    scripts write them into the string as they are, with no escaping, so how
    the browser reads them depends on what they are.  Characters without
    [<] and [&] are text.  Others are markup of their own: they may open a
    tag or a comment, and what the browser builds from them, and from the
    tags of the template that follow, is not described here.  [known] tells
    what the markup is known to hold: it reads the tree in document order and
    stops at the first substitution that is not [plain].

    An attribute is its name and the characters between the double quotes,
    whether the template spells them or substitutes them.  A substitution
    that stands for markup is the list of nodes of that markup, the empty
    list for the empty string. *)

Module Html.

Inductive node : Type :=
| Text (s : string)
| Subst (s : string)
| Element (tag : string) (attrs : list (string * string)) (children : list node).

Definition fragment := list node.

(** [<tag class="cls">children</tag>] *)
Definition el (tag cls : string) (children : fragment) : node :=
  Element tag [("class", cls)] children.

Fixpoint attr (k : string) (attrs : list (string * string)) : option string :=
  match attrs with
  | [] => None
  | (k', v) :: rest => if String.eqb k k' then Some v else attr k rest
  end.

Definition class_of (n : node) : option string :=
  match n with
  | Element _ attrs _ => attr "class" attrs
  | _ => None
  end.

Definition style_of (n : node) : option string :=
  match n with
  | Element _ attrs _ => attr "style" attrs
  | _ => None
  end.

(** ** Characters that are read as they are *)

Fixpoint every (ok : ascii -> bool) (s : string) : bool :=
  match s with
  | EmptyString => true
  | String c s' => ok c && every ok s'
  end.

(** In text, [<] (code 60) opens a tag and [&] (38) a character reference;
    NUL (0) is dropped or replaced, and CR (13) becomes a line feed.  Every
    other character is text. *)
Definition text_char (c : ascii) : bool :=
  negb (Ascii.eqb c "060" || Ascii.eqb c "038" || Ascii.eqb c "000"
        || Ascii.eqb c "013")%char.

(** In an attribute value between double quotes, the double quote (34) ends
    the value, and [<] is a character like any other. *)
Definition value_char (c : ascii) : bool :=
  negb (Ascii.eqb c "034" || Ascii.eqb c "038" || Ascii.eqb c "000"
        || Ascii.eqb c "013")%char.

(** A substitution that the browser reads as the text it is, and an
    attribute value that it reads as the value it is. *)
Definition plain (s : string) : bool := every text_char s.
Definition plain_attribute (s : string) : bool := every value_char s.

(** No substitution of the node carries markup: the browser builds this
    node, with these attributes and children. *)
Fixpoint clean (n : node) : bool :=
  match n with
  | Text _ => true
  | Subst s => plain s
  | Element _ attrs children =>
      List.forallb (fun a => plain_attribute (snd a)) attrs
      && List.forallb clean children
  end.

(** The text inside a node, as [textContent] reads it from a node that is
    [clean]. *)
Fixpoint text_of (n : node) : string :=
  match n with
  | Text s => s
  | Subst s => s
  | Element _ _ children =>
      List.fold_right (fun c acc => text_of c ++ acc) EmptyString children
  end.

(** All elements of a tree for which [p] holds, in document order. *)
Fixpoint select (p : node -> bool) (n : node) : list node :=
  match n with
  | Element _ _ children =>
      ((if p n then [n] else []) ++ List.flat_map (select p) children)%list
  | _ => []
  end.

Definition select_all (p : node -> bool) (f : fragment) : list node :=
  List.flat_map (select p) f.

Definition has_class (c : string) (n : node) : bool :=
  match class_of n with
  | Some c' => String.eqb c c'
  | None => false
  end.

(** ** What the markup is known to hold

    Reading in document order: the elements found for which [p] holds, and
    whether the markup was read to its end.  Reading stops at the first
    substitution, or attribute value, that is not plain; what was found
    before it stays found. *)

Definition then_ (a b : list node * bool) : list node * bool :=
  if snd a then (fst a ++ fst b, snd b)%list else (fst a, false).

Fixpoint scan (p : node -> bool) (n : node) : list node * bool :=
  match n with
  | Text _ => ([], true)
  | Subst s => ([], plain s)
  | Element _ attrs children =>
      if List.forallb (fun a => plain_attribute (snd a)) attrs then
        then_ (if p n then [n] else [], true)
          (List.fold_right (fun c rest => then_ (scan p c) rest) ([], true)
             children)
      else ([], false)
  end.

Definition scan_all (p : node -> bool) (f : fragment) : list node * bool :=
  List.fold_right (fun c rest => then_ (scan p c) rest) ([], true) f.

(** The elements with [p] that the markup is known to hold, in order.  The
    tag and the attributes of each are as the model has them; its text is
    [text_of] when the element is [clean]. *)
Definition known (p : node -> bool) (f : fragment) : list node :=
  fst (scan_all p f).

End Html.

(** Building markup from values. *)

Module Template.
Import Js Html.
Local Open Scope js_scope.

Section Engine.

Variable fault_message : fault -> string.

(** A text substitution [${v}]: the string conversion of [v], written into
    the markup as it is. *)
Definition text (v : val) : completion node :=
  s <- ToString fault_message v ;; Normal (Subst s).

Fixpoint mapM {A B : Type} (f : A -> completion B) (l : list A)
  : completion (list B) :=
  match l with
  | [] => Normal []
  | x :: rest => y <- f x ;; ys <- mapM f rest ;; Normal (y :: ys)
  end.

(** [xs.map(f).join('')] where [f] returns markup: only an array has
    [map]. *)
Definition map_join (callee : string) (xs : val)
    (f : val -> completion fragment) : completion fragment :=
  match xs with
  | Undefined | Null => Throw (TypeError fault_message (NullishRead "map"))
  | Arr elems => parts <- mapM f elems ;; Normal (List.concat parts)
  | _ => Throw (TypeError fault_message (NotCallable callee))
  end.

(** [xs.length] as a condition. *)
Definition has_length (xs : val) : completion bool :=
  n <- read fault_message xs "length" ;; Normal (truthy n).

(** [<li>• ${x}</li>] *)
Definition bullet (x : val) : completion fragment :=
  s <- text x ;; Normal [Element "li" [] [Text "• "; s]].

End Engine.
End Template.

(* ================================================================== *)
(** * The page *)
(* ================================================================== *)

Module Dom.
Import Html.

(** The properties of an element that the scripts read or write. *)
Record element : Type := mkElement {
  value : string;
  disabled : bool;
  textContent : string;
  title : string;
  classList : list string;
  color : string;                (* style.color *)
  innerHTML : fragment             (* the markup last assigned *)
}.

Definition set_disabled (b : bool) (e : element) : element :=
  mkElement (value e) b (textContent e) (title e) (classList e) (color e) (innerHTML e).
Definition set_textContent (s : string) (e : element) : element :=
  mkElement (value e) (disabled e) s (title e) (classList e) (color e) (innerHTML e).
Definition set_title (s : string) (e : element) : element :=
  mkElement (value e) (disabled e) (textContent e) s (classList e) (color e) (innerHTML e).
Definition set_classList (l : list string) (e : element) : element :=
  mkElement (value e) (disabled e) (textContent e) (title e) l (color e) (innerHTML e).
Definition set_color (s : string) (e : element) : element :=
  mkElement (value e) (disabled e) (textContent e) (title e) (classList e) s (innerHTML e).
Definition set_innerHTML (f : fragment) (e : element) : element :=
  mkElement (value e) (disabled e) (textContent e) (title e) (classList e) (color e) f.

Definition contains (c : string) (l : list string) : bool :=
  List.existsb (String.eqb c) l.

(** [classList.add(c)] and [classList.remove(c)] *)
Definition classList_add (c : string) (e : element) : element :=
  if contains c (classList e) then e
  else set_classList (classList e ++ [c])%list e.
Definition classList_remove (c : string) (e : element) : element :=
  set_classList (List.filter (fun c' => negb (String.eqb c c')) (classList e)) e.

(** The constants of the script that hold the result of
    [document.getElementById]. *)
Inductive ref : Type :=
| urlInput | analyzeBtn | loader | statusText | resultsWrapper
| llmViewContent | evaluationContent | summaryBlockEl | definitionsBlockEl
| faqBlockEl | canonicalBlockEl
| arcScoreEl | scoreAioEl | scoreAeoEl | scoreGeoEl
| downloadPdfBtn.

Definition ref_eqb (a b : ref) : bool :=
  match a, b with
  | urlInput, urlInput | analyzeBtn, analyzeBtn | loader, loader
  | statusText, statusText | resultsWrapper, resultsWrapper
  | llmViewContent, llmViewContent | evaluationContent, evaluationContent
  | summaryBlockEl, summaryBlockEl | definitionsBlockEl, definitionsBlockEl
  | faqBlockEl, faqBlockEl | canonicalBlockEl, canonicalBlockEl
  | arcScoreEl, arcScoreEl | scoreAioEl, scoreAioEl | scoreAeoEl, scoreAeoEl
  | scoreGeoEl, scoreGeoEl | downloadPdfBtn, downloadPdfBtn => true
  | _, _ => false
  end.

(** A page gives each constant its element, or [None] for [null]. *)
Definition page := ref -> option element.

(** An assignment to a property of the element that [r] holds. *)
Definition assign (r : ref) (e : element) (p : page) : page :=
  fun r' => if ref_eqb r r' then Some e else p r'.

End Dom.

(** Statements that act on the page and may throw. *)

Module Script.
Import Js Html Dom.

Definition script := page -> completion unit * page.

(** [a; b]: when [a] throws, [b] does not run; what [a] wrote stays. *)
Definition seq (a b : script) : script :=
  fun p =>
    match a p with
    | (Normal _, p') => b p'
    | (Throw e, p') => (Throw e, p')
    end.

(** [if (r) { r.prop = ...; }] where the right-hand sides cannot throw. *)
Definition update (r : ref) (f : element -> element) (p : page) : page :=
  match p r with
  | Some e => assign r (f e) p
  | None => p
  end.

(** [r.innerHTML = `...`;] for an element [e] held by [r]: the template is
    evaluated first, and nothing is assigned when it throws.  The element
    then holds the markup that was assigned, with its substitutions as they
    were written; what the browser builds from it is read with
    [Html.known]. *)
Definition write_innerHTML (r : ref) (e : element) (tpl : completion fragment)
  : script :=
  fun p =>
    match tpl with
    | Normal html => (Normal tt, assign r (set_innerHTML html e) p)
    | Throw err => (Throw err, p)
    end.

(** [if (r) { r.innerHTML = `...`; }] *)
Definition fill (r : ref) (tpl : completion fragment) : script :=
  fun p =>
    match p r with
    | Some e => write_innerHTML r e tpl p
    | None => (Normal tt, p)
    end.

(** [v === s] for a string literal [s]. *)
Definition strict_eq (v : val) (s : string) : bool :=
  match v with
  | Str s' => String.eqb s' s
  | _ => false
  end.

(** [typeof v === 'number' ? v : 0] *)
Definition number_or_zero (v : val) : number :=
  match v with
  | Num x => x
  | _ => PrimFloat.zero
  end.

(** [x ? x.toFixed(1) : '—'] for a number [x]. *)
Definition fixed_or_dash (x : number) : string :=
  if truthy (Num x) then toFixed x 1 else "—".

(** The network, as the script sees it. *)

Record request : Type := mkRequest {
  endpoint : string;
  method : string;
  headers : list (string * string);
  body : val                      (* the argument of JSON.stringify *)
}.

(** What [response.json()] settles to. *)
Inductive payload : Type :=
| NotJson (e : error)             (* rejected: the body is not JSON text *)
| Json (v : val).

(** What [fetch] settles to. *)
Inductive reply : Type :=
| Rejected (e : error)
| Response (status : Z) (data : payload).

(** [response.ok] *)
Definition ok (status : Z) : bool := ((200 <=? status) && (status <=? 299))%Z.

(** The page, the requests sent so far (latest first) and what was passed to
    [console.error]. *)
Record world : Type := mkWorld {
  dom : page;
  sent : list request;
  console : list error
}.

Definition on_dom (f : page -> page) (w : world) : world :=
  mkWorld (f (dom w)) (sent w) (console w).

End Script.

(* ================================================================== *)
(** * The current script (schema A) *)
(* ================================================================== *)

Module A.
Import Js Html Template Dom Script.
Local Open Scope js_scope.

Definition API_BASE : string := "http://127.0.0.1:8000".

Definition setLoading (isLoading : bool) (p : page) : page :=
  match p analyzeBtn, p loader with
  | Some btn, Some ld =>
      if isLoading then
        assign analyzeBtn
          (set_textContent "Analyzing…" (set_disabled true btn))
          (assign loader (classList_remove "hidden" ld) p)
      else
        assign analyzeBtn
          (set_textContent "Run analysis" (set_disabled false btn))
          (assign loader (classList_add "hidden" ld) p)
  | _, _ => p
  end.

Definition setStatus (message : string) (isError : bool) (p : page) : page :=
  update statusText
    (fun e => set_color (if isError then "#f97373" else "var(--muted)")
                (set_textContent message e)) p.

(** ** renderArcRank *)

Definition renderArcRank (scoreMatrix clarityBlock faqBlock fanoutBlock : val)
  : script :=
  fun p =>
    if negb (truthy scoreMatrix) then (Normal tt, p)
    else
      let overall := number_or_zero (get scoreMatrix "final_score") in
      let aio :=
        if truthy clarityBlock then number_or_zero (get clarityBlock "score")
        else PrimFloat.zero in
      let aeo :=
        if truthy faqBlock then number_or_zero (get faqBlock "score")
        else PrimFloat.zero in
      let geo :=
        if truthy fanoutBlock
        then number_or_zero (get fanoutBlock "coverage_score")
        else PrimFloat.zero in
      let p :=
        update arcScoreEl
          (set_textContent (if isNaN overall then "—" else Number_toString overall))
          p in
      let p :=
        update scoreAioEl
          (fun e =>
             set_title "AIO – AI Index Optimization: clarity and readability of your content for AI models."
               (set_textContent (fixed_or_dash aio) e)) p in
      let p :=
        update scoreAeoEl
          (fun e =>
             set_title "AEO – Answer Engine Optimization: how well your FAQs and answers cover user questions."
               (set_textContent (fixed_or_dash aeo) e)) p in
      let p :=
        update scoreGeoEl
          (fun e =>
             set_title "GEO – Generative Engine Optimization: how much topical depth and coverage the page provides."
               (set_textContent (fixed_or_dash geo) e)) p in
      (Normal tt, p).

Section Engine.

Variable fault_message : fault -> string.
Variable StringToNumber : string -> number.

Local Abbreviation read := (Js.read fault_message).
Local Abbreviation destructure := (Js.destructure fault_message).
Local Abbreviation text := (Template.text fault_message).
Local Abbreviation map_join := (Template.map_join fault_message).
Local Abbreviation has_length := (Template.has_length fault_message).
Local Abbreviation bullet := (Template.bullet fault_message).
Local Abbreviation call_join := (Js.call_join fault_message).
Local Abbreviation ge := (Js.ge fault_message StringToNumber).
Local Abbreviation TypeError := (Js.TypeError fault_message).

(** [${cond ? `markup` : ''}] with the condition already evaluated. *)
Definition when (cond : bool) (markup : completion fragment)
  : completion fragment :=
  if cond then markup else Normal [].

(** [xs && xs.length] as a condition. *)
Definition nonempty (xs : val) : completion bool :=
  if truthy xs then has_length xs else Normal false.

(** ** renderLlmView *)

Definition llm_view_template (view : val) : completion fragment :=
  let primary_topic := get view "primary_topic" in
  let secondary_topics := with_default (get view "secondary_topics") (Arr []) in
  let detected_intent := get view "detected_intent" in
  let summary_llm_generated := get view "summary_llm_generated" in
  let key_claims_llm_detected :=
    with_default (get view "key_claims_llm_detected") (Arr []) in
  let confidence_level := get view "confidence_level" in
  topic <- text (oror primary_topic (Str "—")) ;;
  intent <- text (oror detected_intent (Str "—")) ;;
  confidence <- text (oror confidence_level (Str "—")) ;;
  has_secondary <- has_length secondary_topics ;;
  secondary <-
    when has_secondary
      (tags <- map_join "secondary_topics.map" secondary_topics
                 (fun t => s <- text t ;; Normal [el "span" "tag" [s]]) ;;
       Normal [el "h4" "llm-subheading" [Text "Secondary topics"];
               el "div" "tag-list" tags]) ;;
  summary <-
    when (truthy summary_llm_generated)
      (s <- text summary_llm_generated ;;
       Normal [el "h4" "llm-subheading" [Text "How AI summarizes this page"];
               el "p" "llm-summary" [s]]) ;;
  has_claims <- has_length key_claims_llm_detected ;;
  claims <-
    when has_claims
      (items <- map_join "key_claims_llm_detected.map" key_claims_llm_detected
                  bullet ;;
       Normal [el "h4" "llm-subheading" [Text "Key claims AI detects"];
               el "ul" "list" items]) ;;
  Normal
    ([el "div" "llm-kv"
        [el "div" "llm-kv-label" [Text "Primary topic"];
         el "div" "llm-kv-value" [topic];
         el "div" "llm-kv-label" [Text "Detected intent"];
         el "div" "llm-kv-value" [intent];
         el "div" "llm-kv-label" [Text "Confidence"];
         el "div" "llm-kv-value" [confidence]]]
     ++ secondary ++ summary ++ claims
     ++ [el "p" "llm-help-text"
           [Text "This view is a snapshot of how an LLM might interpret your page. Compare it with your intent to see if the page is telling the right story."]])%list.

Definition renderLlmView (view : val) : script :=
  fun p =>
    if negb (truthy view) then (Normal tt, p)
    else fill llmViewContent (llm_view_template view) p.

(** ** renderEvaluation *)

Definition verdictClass (verdict : val) : string :=
  if strict_eq verdict "Ready" || strict_eq verdict "Partially Ready"
  then "verdict-pill verdict-pill--good"
  else "verdict-pill verdict-pill--poor".

(** The percentage of a score bar: [Math.min(10, Math.max(0, value)) * 10]. *)
Definition pct (value : number) : number :=
  PrimFloat.mul (Math_min [10%float; Math_max [0%float; value]]) 10%float.

(** One row of the score bars: the callback of [scoreRows.map]. *)
Definition scoreRow (row : string * val * string) : fragment :=
  let '(label, value, help) := row in
  match value with
  | Num v =>
      [el "div" "score-row"
         [Element "span" [("class", "score-label"); ("title", help)] [Subst label];
          el "div" "score-bar-track"
            [Element "div"
               [("class", "score-bar-fill");
                ("style", "width:" ++ Number_toString (pct v) ++ "%;")] []];
          el "span" "score-value" [Subst (toFixed v 1)]]]
  | _ => []                       (* typeof value !== 'number' *)
  end.

(** [${x.toFixed ? x.toFixed(1) : x}] *)
Definition toFixed_or_self (callee : string) (x : val) : completion node :=
  match x with
  | Undefined | Null => Throw (TypeError (NullishRead "toFixed"))
  | Num n => Normal (Subst (toFixed n 1))
  | Obj _ =>
      if truthy (get x "toFixed") then Throw (TypeError (NotCallable callee))
      else text x
  | _ => text x
  end.

(** A list of the fix roadmap, with the item shown when the list is empty. *)
Definition roadmap_items (callee : string) (xs : val) (fallback : string)
  : completion fragment :=
  b <- has_length xs ;;
  if b then map_join callee xs bullet
  else Normal [Element "li" [] [Text fallback]].

(** [${xs && xs.length ? `<h4>heading</h4> ... <ul>items</ul>` : ''}] *)
Definition bullet_section (callee : string) (xs : val) (heading : fragment)
  : completion fragment :=
  b <- nonempty xs ;;
  when b (items <- map_join callee xs bullet ;;
          Normal (heading ++ [el "ul" "list" items])%list).

(** [${x ? `<li><strong>label</strong> ${x}</li>` : ''}] *)
Definition signal (label : string) (x : val) : completion fragment :=
  when (truthy x)
    (s <- text x ;;
     Normal [Element "li" [] [Element "strong" [] [Text label]; Text " "; s]]).

Definition scoreRows (score_matrix : val) : list (string * val * string) :=
  let field k := with_default (get score_matrix k) (Num 0%float) in
  [("Summary block", field "summary_block",
    "Quality of the LLM summary block for quick retrieval.");
   ("Definitions", field "definitions",
    "Coverage and clarity of key term definitions.");
   ("FAQ", field "faq", "How well FAQs cover real user questions.");
   ("Fanout coverage", field "fanout_match",
    "How well content answers the model's sub-questions.");
   ("Canonical resources", field "canonical_resources",
    "Internal + external anchors for context.");
   ("Structure", field "structure", "Heading hierarchy and section layout.");
   ("Clarity / readability", field "clarity",
    "Language clarity, flow, and examples.");
   ("EEAT", field "eeat",
    "Expertise, experience, authority, and trust signals.")].

(** The verdict pill: the first element of the card. *)
Definition verdict_pill (verdict final_score : val) : completion fragment :=
  shown <- text (oror verdict (Str "—")) ;;
  ready <- ge final_score 60%float ;;
  Normal
    [el "div" (verdictClass verdict)
       [Element "span" [] [Text "Verdict: "; Element "strong" [] [shown]];
        Element "span"
          [("class", "llm-ready-flag");
           ("title", "If 'Yes', this page is in a decent state for AI-powered search.")]
          [Text "LLM-ready: "; Subst (if ready then "Yes" else "No")]]].

Definition score_bars (score_matrix : val) : fragment :=
  [el "div" "score-bars" (List.flat_map scoreRow (scoreRows score_matrix))].

(** What follows the verdict pill and comes before the score bars. *)
Definition evaluation_head (url main_issue top_3_fixes
    overall_llm_readiness_score coverage_score eeat_score : val)
  : completion fragment :=
  where_ <- text (oror url (Str "this page")) ;;
  issue <-
    when (truthy main_issue)
      (s <- text main_issue ;;
       Normal [el "p" "main-issue"
                 [Element "strong" [] [Text "Main issue:"]; Text " "; s]]) ;;
  fixes <-
    bullet_section "top_3_fixes.map" top_3_fixes
      [el "h4" "eval-subheading" [Text "Top 3 fixes"]] ;;
  overall <- text overall_llm_readiness_score ;;
  coverage <- toFixed_or_self "coverage_score.toFixed" coverage_score ;;
  eeat <- text eeat_score ;;
  Normal
    ([el "p" "eval-help-text"
        [Text "This report estimates how ready "; where_;
         Text " is for LLMs, answer engines, and generative search. Focus first on the weakest scores and the 24-hour fixes."]]
     ++ issue ++ fixes
     ++ [el "div" "score-badges-row"
           [Element "span"
              [("class", "score-pill");
               ("title", "Overall Arc Rank on a 0–100 scale.")]
              [Text "Overall score: "; Element "strong" [] [overall];
               Text "/100"];
            Element "span"
              [("class", "score-pill");
               ("title", "Fanout coverage: how well content answers the model's sub-questions.")]
              [Text "Fanout coverage: "; Element "strong" [] [coverage];
               Text "/10"];
            Element "span"
              [("class", "score-pill");
               ("title", "EEAT signals: expertise, experience, authority, and trust.")]
              [Text "EEAT: "; Element "strong" [] [eeat]; Text "/10"]]])%list.

(** What follows the score bars. *)
Definition evaluation_tail (fix_roadmap main_gaps clarity_issues clarity_fixes
    author_info_found expertise_visibility experience_signals trust_signals
    missing_elements : val) : completion fragment :=
  let immediate_fixes_next_24h :=
    with_default (get fix_roadmap "immediate_fixes_next_24h") (Arr []) in
  let medium_priority_next_7_days :=
    with_default (get fix_roadmap "medium_priority_next_7_days") (Arr []) in
  let long_term_next_30_days :=
    with_default (get fix_roadmap "long_term_next_30_days") (Arr []) in
  now <- roadmap_items "immediate_fixes_next_24h.map" immediate_fixes_next_24h
           "• Add substantial article content and key sections." ;;
  week <- roadmap_items "medium_priority_next_7_days.map"
            medium_priority_next_7_days
            "• Add FAQ, definitions, and improve internal linking." ;;
  month <- roadmap_items "long_term_next_30_days.map" long_term_next_30_days
             "• Strengthen EEAT with author info, case studies, and references." ;;
  gaps <-
    bullet_section "main_gaps.map" main_gaps
      [el "h4" "eval-subheading" [Text "Fanout coverage gaps"]] ;;
  issues <-
    bullet_section "clarity_issues.map" clarity_issues
      [el "h4" "eval-subheading" [Text "Clarity & readability"];
       Element "p" [] [Element "strong" [] [Text "Issues:"]]] ;;
  fixes <-
    bullet_section "clarity_fixes.map" clarity_fixes
      [Element "p" [] [Element "strong" [] [Text "Suggested fixes:"]]] ;;
  expertise <- signal "Expertise visibility:" expertise_visibility ;;
  experience <- signal "Experience signals:" experience_signals ;;
  trust <- signal "Trust signals:" trust_signals ;;
  has_missing <- nonempty missing_elements ;;
  missing <-
    when has_missing
      (s <- call_join "missing_elements.join" missing_elements ", " ;;
       Normal [Element "li" []
                 [Element "strong" [] [Text "Missing elements:"];
                  Text " "; Subst s]]) ;;
  Normal
    ([el "h4" "eval-subheading" [Text "Fix roadmap"];
      el "div" "fix-roadmap-grid"
        [el "div" "fix-card fix-card--now"
           [Element "h5" [] [Text "Next 24 hours"]; el "ul" "list" now];
         el "div" "fix-card fix-card--week"
           [Element "h5" [] [Text "Next 7 days"]; el "ul" "list" week];
         el "div" "fix-card fix-card--month"
           [Element "h5" [] [Text "Next 30 days"]; el "ul" "list" month]]]
     ++ gaps ++ issues ++ fixes
     ++ [el "h4" "eval-subheading" [Text "EEAT signals"];
         el "ul" "list"
           ([Element "li" []
               [Element "strong" [] [Text "Author info present:"];
                Text " ";
                Subst (if truthy author_info_found then "Yes" else "No")]]
            ++ expertise ++ experience ++ trust ++ missing)])%list.

Definition evaluation_template (ctx : val) : completion fragment :=
  let ctx := oror ctx (Obj []) in
  let page_metadata := with_default (get ctx "page_metadata") (Obj []) in
  let executive_summary := with_default (get ctx "executive_summary") (Obj []) in
  let score_matrix := with_default (get ctx "score_matrix") (Obj []) in
  let fanout_query_analysis :=
    with_default (get ctx "fanout_query_analysis") (Obj []) in
  let clarity_readability :=
    with_default (get ctx "clarity_readability") (Obj []) in
  let eeat_block := with_default (get ctx "eeat_block") (Obj []) in
  let fix_roadmap := with_default (get ctx "fix_roadmap") (Obj []) in
  executive_summary <-
    destructure executive_summary "overall_llm_readiness_score" ;;
  let overall_llm_readiness_score :=
    with_default (get executive_summary "overall_llm_readiness_score")
      (Num 0%float) in
  let verdict := with_default (get executive_summary "verdict") (Str EmptyString) in
  let main_issue :=
    with_default (get executive_summary "main_issue") (Str EmptyString) in
  let top_3_fixes := with_default (get executive_summary "top_3_fixes") (Arr []) in
  score_matrix <- destructure score_matrix "summary_block" ;;
  let final_score := with_default (get score_matrix "final_score") (Num 0%float) in
  fanout_query_analysis <-
    destructure fanout_query_analysis "sub_questions_generated" ;;
  let coverage_score :=
    with_default (get fanout_query_analysis "coverage_score") (Num 0%float) in
  let main_gaps := with_default (get fanout_query_analysis "main_gaps") (Arr []) in
  clarity_readability <- destructure clarity_readability "issues" ;;
  let clarity_issues := with_default (get clarity_readability "issues") (Arr []) in
  let clarity_fixes := with_default (get clarity_readability "fixes") (Arr []) in
  eeat_block <- destructure eeat_block "score" ;;
  let eeat_score := with_default (get eeat_block "score") (Num 0%float) in
  let author_info_found :=
    with_default (get eeat_block "author_info_found") (Bool false) in
  let expertise_visibility :=
    with_default (get eeat_block "expertise_visibility") (Str EmptyString) in
  let experience_signals :=
    with_default (get eeat_block "experience_signals") (Str EmptyString) in
  let trust_signals :=
    with_default (get eeat_block "trust_signals") (Str EmptyString) in
  let missing_elements :=
    with_default (get eeat_block "missing_elements") (Arr []) in
  fix_roadmap <- destructure fix_roadmap "immediate_fixes_next_24h" ;;
  url <- read page_metadata "url" ;;
  let url := oror url (Str EmptyString) in
  pill <- verdict_pill verdict final_score ;;
  head <- evaluation_head url main_issue top_3_fixes
            overall_llm_readiness_score coverage_score eeat_score ;;
  tail <- evaluation_tail fix_roadmap main_gaps clarity_issues clarity_fixes
            author_info_found expertise_visibility experience_signals
            trust_signals missing_elements ;;
  Normal (pill ++ head ++ score_bars score_matrix ++ tail)%list.

Definition renderEvaluation (ctx : val) : script :=
  fill evaluationContent (evaluation_template ctx).

(** ** renderBlocks *)

(** [b && typeof b.score === 'number' ? b.score : 0] *)
Definition block_score (b : val) : number :=
  if truthy b then number_or_zero (get b "score") else PrimFloat.zero.

(** [b && Array.isArray(b.k) ? b.k : []] *)
Definition block_array (b : val) (k : string) : val :=
  if truthy b && isArray (get b k) then get b k else Arr [].

(** [b && b.k ? b.k : d] *)
Definition block_field (b : val) (k : string) (d : val) : val :=
  if truthy (andand b (get b k)) then get b k else d.

Definition summary_template (summary : val) : completion fragment :=
  let score := block_score summary in
  let quality := block_field summary "quality" (Str "not_applicable") in
  let recommended := andand summary (get summary "recommended_summary_block") in
  shown <-
    text (oror recommended
            (Str "No recommended summary. Add a concise 120–150 word summary at the top of the page that clearly states what the page is about, who it is for, and the main outcome.")) ;;
  q <- text quality ;;
  Normal
    [el "div" "block-section"
       [Element "p" []
          [Element "strong" []
             [Text "Recommended LLM summary (place near the top of the page):"]];
        Element "p" [] [shown];
        el "p" "block-meta"
          [Text "Summary score: "; Subst (Number_toString score);
           Text "/10 · Current summary quality: "; q];
        el "p" "block-help-text"
          [Text "This summary is designed for fast LLM consumption. Keep it concise, specific, and placed high on the page."]]].

Definition definition_item (d : val) : completion fragment :=
  term <- read d "term" ;;
  term <- text term ;;
  definition <- read d "definition" ;;
  definition <- text definition ;;
  Normal [Element "li" []
            [Element "strong" [] [term; Text ":"]; Text " "; definition]].

Definition definitions_template (defs : val) : completion fragment :=
  let recDefs := block_array defs "recommended_definitions" in
  let missing := block_field defs "missing_critical_terms" (Arr []) in
  let score := block_score defs in
  has_defs <- has_length recDefs ;;
  listed <-
    (if has_defs
     then items <- map_join "recDefs.map" recDefs definition_item ;;
          Normal [el "ul" "list" items]
     else Normal [Element "p" [] [Text "No recommended definitions."]]) ;;
  has_missing <- nonempty missing ;;
  lacking <-
    when has_missing
      (s <- call_join "missing.join" missing ", " ;;
       Normal [el "p" "block-meta" [Text "Missing critical terms: "; Subst s]]) ;;
  Normal
    [el "div" "block-section"
       (listed ++ lacking
        ++ [el "p" "block-meta"
              [Text "Definitions score: "; Subst (Number_toString score);
               Text "/10"];
            el "p" "block-help-text"
              [Text "Add these definitions near the first mention of each term so AI systems clearly understand your key concepts."]])%list].

Definition faq_item (f : val) : completion fragment :=
  q <- read f "q" ;;
  q <- text q ;;
  a <- read f "a" ;;
  a <- text a ;;
  Normal [Element "li" []
            [Element "strong" [] [Text "Q:"]; Text " "; q;
             Element "br" [] [];
             Element "strong" [] [Text "A:"]; Text " "; a]].

Definition faq_template (faq : val) : completion fragment :=
  let recFaqs := block_array faq "recommended_faqs" in
  let score := block_score faq in
  has_faqs <- has_length recFaqs ;;
  listed <-
    (if has_faqs
     then items <- map_join "recFaqs.map" recFaqs faq_item ;;
          Normal [el "ul" "list" items]
     else Normal [Element "p" [] [Text "No FAQ suggestions generated."]]) ;;
  Normal
    [el "div" "block-section"
       (listed
        ++ [el "p" "block-meta"
              [Text "FAQ score: "; Subst (Number_toString score); Text "/10"];
            el "p" "block-help-text"
              [Text "Use these FAQs to improve answerability and capture long-tail questions asked in AI chat and search."]])%list].

Definition resource_item (c : val) : completion fragment :=
  url <- read c "url" ;;
  href <- ToString fault_message url ;;
  title <- read c "title" ;;
  url <- read c "url" ;;
  label <- text (oror title url) ;;
  Normal [Element "li" []
            [Element "a"
               [("href", href); ("target", "_blank");
                ("rel", "noopener noreferrer")]
               [label]]].

Definition canonical_template (canon : val) : completion fragment :=
  let recRes := block_array canon "recommended_resources" in
  let score := block_score canon in
  let why := block_field canon "why_it_matters" (Str EmptyString) in
  has_res <- has_length recRes ;;
  listed <-
    (if has_res
     then items <- map_join "recRes.map" recRes resource_item ;;
          Normal [el "ul" "list" items]
     else Normal [Element "p" [] [Text "No canonical resources recommended."]]) ;;
  reason <-
    text (oror why
            (Str "Canonical resources help AI models place your page in a trusted context. Include core internal pillar pages and 1–2 authoritative external sources where relevant.")) ;;
  Normal
    [el "div" "block-section"
       (listed
        ++ [el "p" "block-meta"
              [Text "Canonical resources score: ";
               Subst (Number_toString score); Text "/10"];
            el "p" "block-help-text" [reason]])%list].

Definition renderBlocks (summary defs faq canon : val) : script :=
  seq (fill summaryBlockEl (summary_template summary))
    (seq (fill definitionsBlockEl (definitions_template defs))
       (seq (fill faqBlockEl (faq_template faq))
          (fill canonicalBlockEl (canonical_template canon)))).

(** ** renderResults *)

Definition renderResults (data : val) : script :=
  fun p =>
    if negb (truthy data) then (Normal tt, p)
    else
      let page_metadata := get data "page_metadata" in
      let executive_summary := get data "executive_summary" in
      let llm_interpretation := get data "llm_interpretation" in
      let summary_block := get data "summary_block" in
      let definitions_block := get data "definitions_block" in
      let faq_block := get data "faq_block" in
      let canonical_resources_block := get data "canonical_resources_block" in
      let score_matrix := get data "score_matrix" in
      let fanout_query_analysis := get data "fanout_query_analysis" in
      let clarity_readability := get data "clarity_readability" in
      let eeat_block := get data "eeat_block" in
      let fix_roadmap := get data "fix_roadmap" in
      seq (renderArcRank score_matrix clarity_readability faq_block
             fanout_query_analysis)
        (seq (renderLlmView llm_interpretation)
           (seq (renderEvaluation
                   (Obj [("page_metadata", page_metadata);
                         ("executive_summary", executive_summary);
                         ("score_matrix", score_matrix);
                         ("fanout_query_analysis", fanout_query_analysis);
                         ("clarity_readability", clarity_readability);
                         ("eeat_block", eeat_block);
                         ("fix_roadmap", fix_roadmap)]))
              (renderBlocks summary_block definitions_block faq_block
                 canonical_resources_block))) p.

(** ** analyzeUrl

    [net] answers the request: what [fetch], and then [response.json()],
    settle to.  The function is the whole run of one call, from the click to
    the end of the [finally] block. *)

Definition analyze_request (url : string) : request :=
  mkRequest (API_BASE ++ "/analyze") "POST"
    [("Content-Type", "application/json")]
    (Obj [("url", Str url)]).

(** The [try] block after the request is sent. *)
Definition on_reply (r : reply) : script :=
  fun p =>
    match r with
    | Rejected e => (Throw e, p)
    | Response status data =>
        if negb (ok status) then
          let err := match data with Json v => v | NotJson _ => Obj [] end in
          (detail <- read err "detail" ;;
           msg <- (if truthy detail then ToString fault_message detail
                   else Normal ("Request failed: " ++
                                Number_toString (num_of_Z status))) ;;
           Throw (Error msg), p)
        else
          match data with
          | NotJson e => (Throw e, p)
          | Json data =>
              seq (renderResults data)
                (fun p => (Normal tt, setStatus "Analysis complete." false p)) p
          end
    end.

Definition analyzeUrl (net : request -> reply) (w : world) : world :=
  let url :=
    trim (match dom w urlInput with
          | Some input => value input
          | None => EmptyString
          end) in
  if String.eqb url EmptyString then
    on_dom (setStatus "Enter a full page URL to analyze." true) w
  else
    let p := setStatus "Sending page to LLM engine…" false (dom w) in
    let p := setLoading true p in
    let req := analyze_request url in
    let '(outcome, p) := on_reply (net req) p in
    let '(p, logged) :=
      match outcome with
      | Normal _ => (p, console w)
      | Throw err =>
          (setStatus (if String.eqb (message err) EmptyString
                      then "Something went wrong." else message err) true p,
           err :: console w)
      end in
    mkWorld (setLoading false p) (req :: sent w) logged.

End Engine.
End A.

(* ================================================================== *)
(** * The script under backup/ (schema B) *)
(* ================================================================== *)

Module B.
Import Js Html Template Dom Script.
Local Open Scope js_scope.

Definition API_BASE : string := "http://127.0.0.1:8000".

Definition setLoading (isLoading : bool) (p : page) : page :=
  match p analyzeBtn, p loader with
  | Some btn, Some ld =>
      if isLoading then
        assign analyzeBtn
          (set_textContent "Analyzing…" (set_disabled true btn))
          (assign loader (classList_remove "hidden" ld) p)
      else
        assign analyzeBtn
          (set_textContent "Analyze" (set_disabled false btn))
          (assign loader (classList_add "hidden" ld) p)
  | _, _ => p
  end.

Definition setStatus (message : string) (isError : bool) (p : page) : page :=
  update statusText
    (fun e => set_color (if isError then "#f97373" else "var(--muted)")
                (set_textContent message e)) p.

Section Engine.

Variable fault_message : fault -> string.
Variable StringToNumber : string -> number.

Local Abbreviation read := (Js.read fault_message).
Local Abbreviation text := (Template.text fault_message).
Local Abbreviation map_join := (Template.map_join fault_message).
Local Abbreviation has_length := (Template.has_length fault_message).
Local Abbreviation bullet := (Template.bullet fault_message).
Local Abbreviation times := (Js.times fault_message StringToNumber).
Local Abbreviation TypeError := (Js.TypeError fault_message).

Definition when (cond : bool) (markup : completion fragment)
  : completion fragment :=
  if cond then markup else Normal [].

(** ** renderArcRank *)

(** [x ? x.toFixed(1) : '—'] for any [x]: only a number has [toFixed]. *)
Definition fixed_or_dash (callee : string) (x : val) : completion string :=
  if truthy x then
    match x with
    | Num n => Normal (toFixed n 1)
    | _ => Throw (TypeError (NotCallable callee))
    end
  else Normal "—".

(** [if (r) { r.textContent = ...; r.title = t; }] where the first
    right-hand side may throw. *)
Definition write_score (r : ref) (shown : completion string) (t : string)
  : script :=
  fun p =>
    match p r with
    | None => (Normal tt, p)
    | Some e =>
        match shown with
        | Normal s => (Normal tt, assign r (set_title t (set_textContent s e)) p)
        | Throw err => (Throw err, p)
        end
    end.

Definition arc_score_text (overall : val) : completion string :=
  x <- times (oror overall (Num 0%float)) 10%float ;;
  let arcNumeric := Math_round x in
  Normal (if isNaN arcNumeric then "—" else Number_toString arcNumeric).

Definition write_arc_score (overall : val) : script :=
  fun p =>
    match p arcScoreEl with
    | None => (Normal tt, p)
    | Some e =>
        match arc_score_text overall with
        | Normal s => (Normal tt, assign arcScoreEl (set_textContent s e) p)
        | Throw err => (Throw err, p)
        end
    end.

Definition renderArcRank (evaluation : val) : script :=
  fun p =>
    if negb (truthy evaluation) || negb (truthy (get evaluation "scores"))
    then (Normal tt, p)
    else
      let scores := get evaluation "scores" in
      let field k := with_default (get scores k) (Num 0%float) in
      let intent_clarity := field "intent_clarity" in
      let coverage := field "coverage" in
      let answerability := field "answerability" in
      let overall := field "overall" in
      let aio := intent_clarity in
      let aeo := answerability in
      let geo := coverage in
      seq (write_arc_score overall)
        (seq (write_score scoreAioEl (fixed_or_dash "aio.toFixed" aio)
                "AIO – AI Index Optimization: how clearly the page expresses its main topic and purpose for AI models.")
           (seq (write_score scoreAeoEl (fixed_or_dash "aeo.toFixed" aeo)
                   "AEO – Answer Engine Optimization: how well your content directly answers user questions.")
              (write_score scoreGeoEl (fixed_or_dash "geo.toFixed" geo)
                 "GEO – Generative Engine Optimization: how much topical depth is available for generative engines to work with."))) p.

(** ** renderLlmView *)

(** [${xs.length ? `<h4>heading</h4><ul>items</ul>` : ''}] *)
Definition bullet_section (callee : string) (xs : val) (heading : string)
    (cls : string) : completion fragment :=
  b <- has_length xs ;;
  when b (items <- map_join callee xs bullet ;;
          Normal [el "h4" cls [Text heading]; el "ul" "list" items]).

Definition llm_view_template (view : val) : completion fragment :=
  let primary_topic := get view "primary_topic" in
  let primary_intent := get view "primary_intent" in
  let audience := get view "audience" in
  let user_questions_answered :=
    with_default (get view "user_questions_answered") (Arr []) in
  let user_questions_missing :=
    with_default (get view "user_questions_missing") (Arr []) in
  let key_facts := with_default (get view "key_facts") (Arr []) in
  let important_entities :=
    with_default (get view "important_entities") (Arr []) in
  topic <- text (oror primary_topic (Str "—")) ;;
  intent <- text (oror primary_intent (Str "—")) ;;
  who <- text (oror audience (Str "—")) ;;
  has_entities <- has_length important_entities ;;
  entities <-
    when has_entities
      (tags <- map_join "important_entities.map" important_entities
                 (fun e => s <- text e ;; Normal [el "span" "tag" [s]]) ;;
       Normal [el "h4" "llm-subheading" [Text "Important entities"];
               el "div" "tag-list" tags]) ;;
  facts <- bullet_section "key_facts.map" key_facts
             "Key facts AI detects" "llm-subheading" ;;
  answered <- bullet_section "user_questions_answered.map"
                user_questions_answered
                "Questions this page already answers" "llm-subheading" ;;
  missing <- bullet_section "user_questions_missing.map"
               user_questions_missing
               "Questions still missing (opportunities)" "llm-subheading" ;;
  Normal
    ([el "div" "llm-kv"
        [el "div" "llm-kv-label" [Text "Primary topic"];
         el "div" "llm-kv-value" [topic];
         el "div" "llm-kv-label" [Text "Intent"];
         el "div" "llm-kv-value" [intent];
         el "div" "llm-kv-label" [Text "Audience"];
         el "div" "llm-kv-value" [who]]]
     ++ entities ++ facts ++ answered ++ missing
     ++ [el "p" "llm-help-text"
           [Text "This view is a simplified snapshot of how an LLM might summarize and reason about your page. Use it to see if the page is telling the right story."]])%list.

Definition renderLlmView (view : val) : script :=
  fun p =>
    if negb (truthy view) then (Normal tt, p)
    else fill llmViewContent (llm_view_template view) p.

(** ** renderEvaluation *)

Definition verdictClass (verdict : val) : string :=
  if strict_eq verdict "excellent" || strict_eq verdict "good"
  then "verdict-pill verdict-pill--good"
  else "verdict-pill verdict-pill--poor".

Definition pct (value : number) : number :=
  PrimFloat.mul (Math_min [10%float; Math_max [0%float; value]]) 10%float.

Definition scoreRow (row : string * val * string) : fragment :=
  let '(label, value, help) := row in
  match value with
  | Num v =>
      [el "div" "score-row"
         [Element "span" [("class", "score-label"); ("title", help)] [Subst label];
          el "div" "score-bar-track"
            [Element "div"
               [("class", "score-bar-fill");
                ("style", "width:" ++ Number_toString (pct v) ++ "%;")] []];
          el "span" "score-value" [Subst (toFixed v 1)]]]
  | _ => []                       (* typeof value !== 'number' *)
  end.

Definition scoreRows (scores canonical_score : val)
  : list (string * val * string) :=
  let field k := with_default (get scores k) (Num 0%float) in
  [("Intent clarity", field "intent_clarity",
    "How clearly the page expresses its purpose and main topic.");
   ("Coverage", field "coverage",
    "How completely the page covers the topic and related subtopics.");
   ("Structure", field "structure",
    "How well the headings, sections, and layout support AI parsing.");
   ("Definitions", field "definitions",
    "Whether key concepts and entities are clearly defined for AI.");
   ("Answerability", field "answerability",
    "How well the page answers concrete questions users ask.");
   ("Trust", field "trust",
    "Signals of expertise, accuracy, and reliability.");
   ("Canonical", canonical_score,
    "Internal + external resources that help AI place this page in context.")].

Definition verdict_pill (verdict llm_ready : val) : completion fragment :=
  shown <- text (oror verdict (Str "—")) ;;
  Normal
    [el "div" (verdictClass verdict)
       [Element "span" [] [Text "Verdict: "; Element "strong" [] [shown]];
        Element "span"
          [("class", "llm-ready-flag");
           ("title", "If 'Yes', this page is in a decent state for AI-powered search.")]
          [Text "LLM-ready: "; Subst (if truthy llm_ready then "Yes" else "No")]]].

Definition score_bars (scores canonical_score : val) : fragment :=
  [el "div" "score-bars" (List.flat_map scoreRow (scoreRows scores canonical_score))].

Definition evaluation_head (overall canonical_score : val)
  : completion fragment :=
  shown <- text overall ;;
  Normal
    [el "p" "eval-help-text"
       [Text "Each score reflects a dimension that affects whether AI systems will trust and reuse this page in answers. Focus on the lowest scores first for the fastest improvements."];
     el "div" "score-badges-row"
       ([Element "span"
           [("class", "score-pill");
            ("title", "Overall Arc Rank on a 0–10 scale.")]
           [Text "Overall score: ";
            Element "strong" [] [shown; Text "/10"]]]
        ++ match canonical_score with
           | Num c =>
               [Element "span"
                  [("class", "score-pill");
                   ("title", "How solid your canonical resources are for this page.")]
                  [Text "Canonical score: ";
                   Element "strong" []
                     [Subst (Number_toString c); Text "/10"]]]
           | _ => []
           end)%list].

Definition evaluation_tail (priority_fixes issues recommendations
    canonical_issues canonical_recommendations : val) : completion fragment :=
  priority <- bullet_section "priority_fixes.map" priority_fixes
                "Priority fixes (do these first)" "eval-subheading" ;;
  detected <- bullet_section "issues.map" issues
                "Issues detected" "eval-subheading" ;;
  advised <- bullet_section "recommendations.map" recommendations
               "Recommended improvements" "eval-subheading" ;;
  any_issue <- has_length canonical_issues ;;
  any_note <-
    (if any_issue then Normal true else has_length canonical_recommendations) ;;
  notes <-
    when any_note
      (a <- map_join "canonical_issues.map" canonical_issues bullet ;;
       b <- map_join "canonical_recommendations.map" canonical_recommendations
              bullet ;;
       Normal [el "h4" "eval-subheading" [Text "Canonical resource notes"];
               el "ul" "list" (a ++ b)%list]) ;;
  Normal (priority ++ detected ++ advised ++ notes)%list.

Definition evaluation_template (ev : val) : completion fragment :=
  let scores := oror (get ev "scores") (Obj []) in
  let overall := with_default (get scores "overall") (Num 0%float) in
  let verdict := get ev "verdict" in
  let issues := with_default (get ev "issues") (Arr []) in
  let recommendations := with_default (get ev "recommendations") (Arr []) in
  let priority_fixes := with_default (get ev "priority_fixes") (Arr []) in
  let canonical_score := get ev "canonical_score" in
  let canonical_issues := with_default (get ev "canonical_issues") (Arr []) in
  let canonical_recommendations :=
    with_default (get ev "canonical_recommendations") (Arr []) in
  let llm_ready := get ev "llm_ready" in
  pill <- verdict_pill verdict llm_ready ;;
  head <- evaluation_head overall canonical_score ;;
  tail <- evaluation_tail priority_fixes issues recommendations
            canonical_issues canonical_recommendations ;;
  Normal (pill ++ head ++ score_bars scores canonical_score ++ tail)%list.

Definition renderEvaluation (ev : val) : script :=
  fun p =>
    if negb (truthy ev) then (Normal tt, p)
    else fill evaluationContent (evaluation_template ev) p.

(** ** renderBlocks *)

Definition summary_template (summary : val) : completion fragment :=
  purpose <- text (oror (get summary "purpose") (Str "—")) ;;
  audience <- text (oror (get summary "audience") (Str "—")) ;;
  let key_points := get summary "key_points" in
  has_points <-
    (if truthy key_points then has_length key_points else Normal false) ;;
  points <-
    when has_points
      (items <- map_join "summary.key_points.map" key_points bullet ;;
       Normal [Element "p" [] [Element "strong" [] [Text "Key points:"]];
               el "ul" "list" items]) ;;
  Normal
    [el "div" "block-section"
       ([Element "p" []
           [Element "strong" [] [Text "Purpose:"]; Text " "; purpose];
         Element "p" []
           [Element "strong" [] [Text "Audience:"]; Text " "; audience]]
        ++ points
        ++ [el "p" "block-help-text"
              [Text "Use this summary as the canonical, LLM-ready description of this page in internal tools, docs, or RAG systems."]])%list].

Definition definition_item (d : val) : completion fragment :=
  term <- read d "term" ;;
  term <- text term ;;
  definition <- read d "definition" ;;
  definition <- text definition ;;
  context <- read d "context" ;;
  context <- text (oror context (Str EmptyString)) ;;
  Normal [Element "li" []
            [Element "strong" [] [term; Text ":"];
             Text " "; definition; Text " ";
             Element "span" [("style", "color:var(--muted)")]
               [Text "("; context; Text ")"]]].

Definition definitions_template (defs : val) : completion fragment :=
  has_defs <- has_length defs ;;
  listed <-
    (if has_defs
     then items <- map_join "defs.map" defs definition_item ;;
          Normal [el "ul" "list" items]
     else Normal [Element "p" [] [Text "No definitions generated."]]) ;;
  Normal
    [el "div" "block-section"
       (listed
        ++ [el "p" "block-help-text"
              [Text "Add these definitions near the first mention of each term so AI models clearly understand your key concepts."]])%list].

Definition faq_item (f : val) : completion fragment :=
  q <- read f "question" ;;
  q <- text q ;;
  a <- read f "answer" ;;
  a <- text a ;;
  Normal [Element "li" []
            [Element "strong" [] [Text "Q:"]; Text " "; q;
             Element "br" [] [];
             Element "strong" [] [Text "A:"]; Text " "; a]].

Definition faq_template (faq : val) : completion fragment :=
  has_faqs <- has_length faq ;;
  listed <-
    (if has_faqs
     then items <- map_join "faq.map" faq faq_item ;;
          Normal [el "ul" "list" items]
     else Normal [Element "p" [] [Text "No FAQ generated."]]) ;;
  Normal
    [el "div" "block-section"
       (listed
        ++ [el "p" "block-help-text"
              [Text "Use these FAQs to improve answerability and capture long-tail questions asked in AI chat and search."]])%list].

Definition resource_item (c : val) : completion fragment :=
  url <- read c "url" ;;
  href <- ToString fault_message url ;;
  title <- read c "title" ;;
  url <- read c "url" ;;
  label <- text (oror title url) ;;
  Normal [Element "li" []
            [Element "a"
               [("href", href); ("target", "_blank");
                ("rel", "noopener noreferrer")]
               [label]]].

Definition canonical_template (canon : val) : completion fragment :=
  has_res <- has_length canon ;;
  listed <-
    (if has_res
     then items <- map_join "canon.map" canon resource_item ;;
          Normal [el "ul" "list" items]
     else Normal [Element "p" [] [Text "No canonical resources."]]) ;;
  Normal
    [el "div" "block-section"
       (listed
        ++ [el "p" "block-help-text"
              [Text "Canonical resources help AI models place this page in a wider, trusted context. Include your best internal pillar pages and 1–2 authoritative external sources."]])%list].

Definition renderBlocks (blocks : val) : script :=
  fun p =>
    if negb (truthy blocks) then (Normal tt, p)
    else
      let summary := oror (get blocks "summary_block") (Obj []) in
      let defs := oror (get blocks "definitions_block") (Arr []) in
      let faq := oror (get blocks "faq_block") (Arr []) in
      let canon := oror (get blocks "canonical_resources") (Arr []) in
      seq (fill summaryBlockEl (summary_template summary))
        (seq (fill definitionsBlockEl (definitions_template defs))
           (seq (fill faqBlockEl (faq_template faq))
              (fill canonicalBlockEl (canonical_template canon)))) p.

(** ** renderResults *)

Definition renderResults (data : val) : script :=
  let data := oror data (Obj []) in
  let llm_view := get data "llm_view" in
  let evaluation := get data "evaluation" in
  let blocks := get data "blocks" in
  seq (renderArcRank evaluation)
    (seq (renderLlmView llm_view)
       (seq (renderEvaluation evaluation) (renderBlocks blocks))).

(** ** analyzeUrl *)

Definition analyze_request (url : string) : request :=
  mkRequest (API_BASE ++ "/analyze") "POST"
    [("Content-Type", "application/json")]
    (Obj [("url", Str url)]).

(** The [try] block after the request is sent. *)
Definition on_reply (r : reply) : script :=
  fun p =>
    match r with
    | Rejected e => (Throw e, p)
    | Response status data =>
        if negb (ok status) then
          let err := match data with Json v => v | NotJson _ => Obj [] end in
          (detail <- read err "detail" ;;
           msg <- (if truthy detail then ToString fault_message detail
                   else Normal ("Request failed: " ++
                                Number_toString (num_of_Z status))) ;;
           Throw (Error msg), p)
        else
          match data with
          | NotJson e => (Throw e, p)
          | Json data =>
              seq (renderResults data)
                (fun p =>
                   let p := update resultsWrapper (classList_remove "hidden") p in
                   (Normal tt, setStatus "Analysis complete." false p)) p
          end
    end.

Definition analyzeUrl (net : request -> reply) (w : world) : world :=
  let url :=
    trim (match dom w urlInput with
          | Some input => value input
          | None => EmptyString
          end) in
  if String.eqb url EmptyString then
    on_dom (setStatus "Enter a URL to analyze." true) w
  else
    let p := setStatus "Sending page to LLM engine…" false (dom w) in
    let p := setLoading true p in
    let p := update resultsWrapper (classList_add "hidden") p in
    let req := analyze_request url in
    let '(outcome, p) := on_reply (net req) p in
    let '(p, logged) :=
      match outcome with
      | Normal _ => (p, console w)
      | Throw err =>
          (setStatus (if String.eqb (message err) EmptyString
                      then "Something went wrong." else message err) true p,
           err :: console w)
      end in
    mkWorld (setLoading false p) (req :: sent w) logged.

End Engine.
End B.

(* ================================================================== *)
(** * What the specification speaks of *)
(* ================================================================== *)

Module Spec.
Import Js Html Dom Script.

(** ** Numbers and strings *)

(** [clamp(v, lo, hi)]: [lo] below [lo], [hi] above [hi], [v] between. *)
Definition clamp (v lo hi : number) : number :=
  if PrimFloat.ltb v lo then lo
  else if PrimFloat.ltb hi v then hi
  else v.

(** A string made of white space only (the empty string included). *)
Fixpoint only_white_space (s : string) : bool :=
  match s with
  | EmptyString => true
  | String c1 s1 =>
      if is_ws1 c1 then only_white_space s1
      else
        match s1 with
        | EmptyString => false
        | String c2 s2 =>
            if is_ws2 c1 c2 then only_white_space s2
            else
              match s2 with
              | EmptyString => false
              | String c3 s3 => is_ws3 c1 c2 c3 && only_white_space s3
              end
        end
  end.

(** ** What the page shows *)

(** The text typed into the URL field. *)
Definition typed_url (p : page) : string :=
  match p urlInput with
  | Some input => value input
  | None => EmptyString
  end.

(** The text an element shows, and the markup a container holds. *)
Definition shown (r : ref) (p : page) : option string :=
  option_map textContent (p r).
Definition markup (r : ref) (p : page) : option fragment :=
  option_map innerHTML (p r).

(** The status line: its text and its colour. *)
Definition status_line (p : page) : option (string * string) :=
  option_map (fun e => (textContent e, color e)) (p statusText).

(** The loading indicator is on: the loader is visible or the button is
    disabled. *)
Definition loading (p : page) : bool :=
  match p analyzeBtn, p loader with
  | Some btn, Some ld => disabled btn || negb (contains "hidden" (classList ld))
  | _, _ => false
  end.

(** Idle: the button can be pressed and the loader is hidden. *)
Definition idle (p : page) : Prop :=
  exists btn ld,
    p analyzeBtn = Some btn /\ p loader = Some ld /\
    disabled btn = false /\ contains "hidden" (classList ld) = true.

(** The four elements of the score header. *)
Definition header (r : ref) : bool :=
  match r with
  | arcScoreEl | scoreAioEl | scoreAeoEl | scoreGeoEl => true
  | _ => false
  end.

(** The elements that the renderers never write: the form and its status. *)
Definition chrome (r : ref) : bool :=
  match r with
  | urlInput | analyzeBtn | loader | statusText | resultsWrapper
  | downloadPdfBtn => true
  | _ => false
  end.

(** ** What a region holds *)

Definition has_tag (t : string) (n : node) : bool :=
  match n with
  | Element t' _ _ => String.eqb t t'
  | _ => false
  end.

(** The first element with [sel] that the markup is known to hold, when what
    is inside it is known too; its text; and the texts of all the elements
    with [sel] that are known with what is inside them. *)
Definition first_node (sel : node -> bool) (f : fragment) : option node :=
  match known sel f with
  | n :: _ => if clean n then Some n else None
  | [] => None
  end.
Definition first_text (sel : node -> bool) (f : fragment) : option string :=
  option_map text_of (first_node sel f).
Definition texts (sel : node -> bool) (f : fragment) : list string :=
  List.map text_of (List.filter clean (known sel f)).

(** In the evaluation card: the class of the verdict pill, the verdict it
    shows, the LLM-ready flag, the container of the score bars, the widths of
    the score bars and the values written next to them. *)
Definition verdict_class (f : fragment) : option string :=
  match f with
  | n :: _ => class_of n
  | [] => None
  end.
Definition verdict_text (f : fragment) : option string :=
  first_text (has_tag "strong") f.
Definition llm_ready_flag (f : fragment) : option string :=
  first_text (has_class "llm-ready-flag") f.
Definition score_bars_of (f : fragment) : option node :=
  first_node (has_class "score-bars") f.
Definition bar_styles (f : fragment) : list (option string) :=
  List.map style_of (known (has_class "score-bar-fill") f).
Definition bar_values (f : fragment) : list string :=
  texts (has_class "score-value") f.

(** In a block: the lines that give its score. *)
Definition meta_texts (f : fragment) : list string :=
  texts (has_class "block-meta") f.

(** The verdicts with the positive treatment, and the two treatments. *)
Definition positive_A : list string := ["Ready"; "Partially Ready"].
Definition positive_B : list string := ["excellent"; "good"].
Definition good : string := "verdict-pill verdict-pill--good".
Definition poor : string := "verdict-pill verdict-pill--poor".

(** ** The data model *)

(** A value that carries no markup: none of the strings in it has a
    character that text cannot have; and one that is fit for an attribute
    value as well. *)
Fixpoint strings_all (ok : ascii -> bool) (v : val) : bool :=
  match v with
  | Str s => every ok s
  | Arr elems => List.forallb (strings_all ok) elems
  | Obj fields => List.forallb (fun f => strings_all ok (snd f)) fields
  | _ => true
  end.
Definition plain_value (v : val) : bool := strings_all text_char v.
Definition plain_link (v : val) : bool :=
  strings_all text_char v && strings_all value_char v.

(** A field that is absent ([undefined] or [null]), or of the given type; an
    object whose listed fields are absent or of their type; an array of items
    of a type. *)
Definition absent_or (ty : val -> bool) (v : val) : bool :=
  match v with Undefined | Null => true | _ => ty v end.
Definition record_of (fields : list (string * (val -> bool))) (v : val) : bool :=
  match v with
  | Obj _ => List.forallb (fun f => absent_or (snd f) (get v (fst f))) fields
  | _ => false
  end.
Definition list_of (ty : val -> bool) (v : val) : bool :=
  match v with Arr l => List.forallb ty l | _ => false end.

(** The four blocks of schema A, as [renderBlocks] reads them.  The [score]
    of a block may be anything: only a number is read as the score. *)
Definition summary_block_type : val -> bool :=
  record_of [("quality", is_string); ("recommended_summary_block", is_string)].
Definition definitions_block_type : val -> bool :=
  record_of [("recommended_definitions",
              list_of (record_of [("term", is_string); ("definition", is_string)]));
             ("missing_critical_terms", list_of is_string)].
Definition faq_block_type : val -> bool :=
  record_of [("recommended_faqs",
              list_of (record_of [("q", is_string); ("a", is_string)]))].
Definition canonical_resources_block_type : val -> bool :=
  record_of [("recommended_resources",
              list_of (record_of [("url", is_string); ("title", is_string)]));
             ("why_it_matters", is_string)].

(** What the evaluation card shows before its score bars: in the current
    script the verdict, the URL, the main issue, the top fixes and the three
    scores of the badges; in the script under backup/ the verdict and the
    overall score. *)
Definition shown_before_bars_A (ctx : val) : list val :=
  [get (get ctx "executive_summary") "verdict";
   get (get ctx "page_metadata") "url";
   get (get ctx "executive_summary") "main_issue";
   get (get ctx "executive_summary") "top_3_fixes";
   get (get ctx "executive_summary") "overall_llm_readiness_score";
   get (get ctx "fanout_query_analysis") "coverage_score";
   get (get ctx "eeat_block") "score"].
Definition shown_before_bars_B (ev : val) : list val :=
  [get ev "verdict"; get (get ev "scores") "overall"].

(** The scores that have a bar in the card, in the order of the rows: for
    the current script eight fields of [score_matrix], each 0 when absent;
    for the script under backup/ six fields of [scores], each 0 when absent,
    and [canonical_score].  A score that is not a number has no row. *)
Definition bar_scores_A (score_matrix : val) : list val :=
  List.map (fun k => with_default (get score_matrix k) (Num 0%float))
    ["summary_block"; "definitions"; "faq"; "fanout_match";
     "canonical_resources"; "structure"; "clarity"; "eeat"].
Definition bar_scores_B (ev : val) : list val :=
  (List.map (fun k => with_default (get (get ev "scores") k) (Num 0%float))
     ["intent_clarity"; "coverage"; "structure"; "definitions";
      "answerability"; "trust"]
   ++ [get ev "canonical_score"])%list.

(** The width of the bar of a score [v]: [clamp(v, 0, 10) * 10] percent. *)
Definition bar_width (v : number) : string :=
  "width:" ++ Number_toString (PrimFloat.mul (clamp v 0%float 10%float) 10%float)
  ++ "%;".
Definition bar_widths (scores : list val) : list (option string) :=
  List.flat_map
    (fun v => match v with Num x => [Some (bar_width x)] | _ => [] end) scores.

(** ** Notions used in the proofs *)

(** The characters of the strings that the engine itself makes: the digits
    and signs of numbers, [NaN], [Infinity], [undefined], [null], [true],
    [false], [[object Object]] and the comma between the elements of an
    array. *)
Definition engine_char (c : ascii) : bool :=
  List.existsb (Ascii.eqb c)
    (list_ascii_of_string "0123456789.+-eNaInfity,[]objctOudlrs ").

(** A script leaves the element of [r] alone. *)
Definition preserves (r : ref) (s : script) : Prop :=
  forall p, snd (s p) r = p r.

(** [if (r) { r.innerHTML = html; }] *)
Definition put (r : ref) (html : fragment) (p : page) : page :=
  match p r with
  | Some e => assign r (set_innerHTML html e) p
  | None => p
  end.

(** [null] or [undefined]: what a property cannot be read from. *)
Definition nullish (v : val) : bool :=
  match v with Undefined | Null => true | _ => false end.

(** The status line after a submission, from how the [try] block ended. *)
Definition final_status (outcome : completion unit) : string * string :=
  match outcome with
  | Normal _ => ("Analysis complete.", "var(--muted)")
  | Throw err =>
      (if String.eqb (message err) EmptyString then "Something went wrong."
       else message err, "#f97373")
  end.

(** How the [try] block ends on a response that is not 2xx: it throws, with
    a message made from the parsed body, or from [{}] when the body did not
    parse. *)
Definition failure (fault_message : fault -> string) (status : Z)
    (data : payload) : completion unit :=
  let err := match data with Json v => v | NotJson _ => Obj [] end in
  bind (read fault_message err "detail") (fun detail =>
  bind (if truthy detail then ToString fault_message detail
        else Normal ("Request failed: " ++ Number_toString (num_of_Z status)))
       (fun msg => Throw (Error msg))).

(** ** Examples *)

(** An engine: its messages in the wording of V8, and a [StringToNumber]
    that knows no numeral, for runs in which no string is converted to a
    number. *)
Definition example_message (f : fault) : string :=
  match f with
  | NullishRead k =>
      "Cannot read properties of undefined (reading '" ++ k ++ "')"
  | NotCallable c => c ++ " is not a function"
  | NotPrimitive => "Cannot convert object to primitive value"
  end.
Definition example_StringToNumber (s : string) : number := PrimFloat.nan.

(** A page with every element, all empty, and the given text in the URL
    field. *)
Definition empty_element : element :=
  mkElement EmptyString false EmptyString EmptyString [] EmptyString [].
Definition page_with_url (url : string) : page :=
  fun r =>
    match r with
    | urlInput =>
        Some (mkElement url false EmptyString EmptyString [] EmptyString [])
    | _ => Some empty_element
    end.
Definition world_with_url (url : string) : world :=
  mkWorld (page_with_url url) [] [].
Definition sample_page : page := page_with_url "https://example.com".

(** A page on which a previous analysis left its scores. *)
Definition stale_element (s : string) : element :=
  mkElement EmptyString false s EmptyString [] EmptyString [].
Definition stale_page : page :=
  fun r =>
    match r with
    | arcScoreEl => Some (stale_element "82")
    | scoreAioEl => Some (stale_element "7.3")
    | scoreAeoEl => Some (stale_element "6.0")
    | scoreGeoEl => Some (stale_element "5.5")
    | _ => Some (stale_element EmptyString)
    end.

(** A context for [renderEvaluation] of the current script, and an
    evaluation for the script under backup/. *)
Definition sample_context : val :=
  Obj [("executive_summary", Obj [("verdict", Str "Ready")]);
       ("score_matrix", Obj [("final_score", Num 82%float)])].
Definition sample_evaluation : val :=
  Obj [("verdict", Str "good"); ("llm_ready", Bool true)].

(** A context and an evaluation with scores inside and outside the range
    of the bars. *)
Definition bars_context : val :=
  Obj [("executive_summary", Obj [("verdict", Str "Ready")]);
       ("score_matrix",
        Obj [("faq", Num (-3)%float); ("structure", Num 12%float);
             ("clarity", Num 7.3%float); ("eeat", Str "high")])].
Definition bars_evaluation : val :=
  Obj [("verdict", Str "good");
       ("scores", Obj [("coverage", Num 12%float); ("trust", Num 0.5%float)]);
       ("canonical_score", Num 4%float)].

(** An evaluation of schema B whose three sub-scores are zero. *)
Definition zero_evaluation : val :=
  Obj [("scores",
        Obj [("overall", Num 7.8%float); ("intent_clarity", Num 0%float);
             ("answerability", Num 0%float); ("coverage", Num 0%float)])].

(** Results of schema A: the one of the end-to-end property of the
    specification; the same with [score_matrix.clarity]; one with no field;
    one with [score_matrix] and nothing else; one with a zero sub-score and
    no [score_matrix]. *)
Definition end_to_end_result : val :=
  Obj [("score_matrix", Obj [("final_score", Num 82%float)]);
       ("clarity_readability", Obj [("score", Num 7.3%float)]);
       ("faq_block", Obj [("recommended_faqs", Arr [])])].
Definition end_to_end_result_with_clarity : val :=
  Obj [("score_matrix",
        Obj [("final_score", Num 82%float); ("clarity", Num 7.3%float)]);
       ("clarity_readability", Obj [("score", Num 7.3%float)]);
       ("faq_block", Obj [("recommended_faqs", Arr [])])].
Definition empty_result : val := Obj [].
Definition bare_result : val := Obj [("score_matrix", Obj [])].
Definition zero_clarity_result : val :=
  Obj [("clarity_readability", Obj [("score", Num 0%float)])].

End Spec.

(* ================================================================== *)
(** * Properties *)
(* ================================================================== *)

Import Js Html Template Dom Script Spec.

(** ** Numbers *)

Lemma truthy_zero (x : number) :
  PrimFloat.eqb x 0%float = true -> truthy (Num x) = false.
Proof.
  intros H. unfold truthy, PrimFloat.is_zero.
  change PrimFloat.zero with 0%float. rewrite H. reflexivity.
Qed.

(** ** Pages *)

Lemma ref_eqb_refl (r : ref) : ref_eqb r r = true.
Proof. destruct r; reflexivity. Qed.

Lemma assign_same (r : ref) (e : element) (p : page) : assign r e p r = Some e.
Proof. unfold assign. now rewrite ref_eqb_refl. Qed.

Lemma assign_other (r r' : ref) (e : element) (p : page) :
  ref_eqb r r' = false -> assign r e p r' = p r'.
Proof. unfold assign. now intros ->. Qed.

Lemma update_same (r : ref) (f : element -> element) (p : page) (e : element) :
  p r = Some e -> update r f p r = Some (f e).
Proof. unfold update. intros ->. apply assign_same. Qed.

Lemma update_other (r r' : ref) (f : element -> element) (p : page) :
  ref_eqb r r' = false -> update r f p r' = p r'.
Proof.
  unfold update. intros H. destruct (p r); [now apply assign_other|reflexivity].
Qed.

Lemma preserves_seq (r : ref) (a b : script) :
  preserves r a -> preserves r b -> preserves r (seq a b).
Proof.
  intros Ha Hb p. unfold seq. specialize (Ha p).
  destruct (a p) as [[u|e] p']; simpl in *.
  - now rewrite Hb.
  - exact Ha.
Qed.

Lemma preserves_fill (r r' : ref) (tpl : completion fragment) :
  ref_eqb r' r = false -> preserves r (fill r' tpl).
Proof.
  intros H p. unfold fill, write_innerHTML.
  destruct (p r'); [|reflexivity].
  destruct tpl; simpl; [now apply assign_other|reflexivity].
Qed.

Lemma preserves_guard (r : ref) (b : bool) (s : script) :
  preserves r s -> preserves r (fun p => if b then (Normal tt, p) else s p).
Proof. intros H p. destruct b; [reflexivity|apply H]. Qed.

Lemma seq_normal (a b : script) (p p' : page) :
  seq a b p = (Normal tt, p') ->
  exists p1, a p = (Normal tt, p1) /\ b p1 = (Normal tt, p').
Proof.
  unfold seq. destruct (a p) as [[[]|err] p1]; [eauto|discriminate].
Qed.

Lemma preserved (r : ref) (s : script) (p : page) (c : completion unit) (p' : page) :
  preserves r s -> s p = (c, p') -> p' r = p r.
Proof. intros P E. specialize (P p). now rewrite E in P. Qed.

(** ** The renderers write only to their own regions *)

Ltac frame :=
  repeat first
    [ apply preserves_seq
    | apply preserves_fill; reflexivity
    | apply preserves_guard ].

Lemma A_renderArcRank_preserves (r : ref) (sm cb fb fo : val) :
  ref_eqb arcScoreEl r = false -> ref_eqb scoreAioEl r = false ->
  ref_eqb scoreAeoEl r = false -> ref_eqb scoreGeoEl r = false ->
  preserves r (A.renderArcRank sm cb fb fo).
Proof.
  intros H1 H2 H3 H4 p. unfold A.renderArcRank.
  destruct (negb (truthy sm)); simpl; [reflexivity|].
  now rewrite !update_other.
Qed.

Section Frames.

Variable fault_message : fault -> string.
Variable StringToNumber : string -> number.

Lemma A_renderResults_preserves (r : ref) (data : val) :
  chrome r = true ->
  preserves r (A.renderResults fault_message StringToNumber data).
Proof.
  intros Hr. unfold A.renderResults.
  apply preserves_guard.
  apply preserves_seq.
  { destruct r; try discriminate; now apply A_renderArcRank_preserves. }
  unfold A.renderLlmView, A.renderEvaluation, A.renderBlocks.
  destruct r; try discriminate; frame.
Qed.

Lemma B_write_score_preserves (r r' : ref) (c : completion string) (t : string) :
  ref_eqb r' r = false -> preserves r (B.write_score r' c t).
Proof.
  intros H p. unfold B.write_score. destruct (p r'); [|reflexivity].
  destruct c; simpl; [now apply assign_other|reflexivity].
Qed.

Lemma B_write_arc_score_preserves (r : ref) (overall : val) :
  ref_eqb arcScoreEl r = false ->
  preserves r (B.write_arc_score fault_message StringToNumber overall).
Proof.
  intros H p. unfold B.write_arc_score. destruct (p arcScoreEl); [|reflexivity].
  destruct (B.arc_score_text _ _ _); simpl; [now apply assign_other|reflexivity].
Qed.

Lemma B_renderResults_preserves (r : ref) (data : val) :
  chrome r = true ->
  preserves r (B.renderResults fault_message StringToNumber data).
Proof.
  intros Hr. unfold B.renderResults, B.renderArcRank, B.renderLlmView,
    B.renderEvaluation, B.renderBlocks.
  destruct r; try discriminate;
    repeat first
      [ apply preserves_seq
      | apply preserves_fill; reflexivity
      | apply preserves_guard
      | apply B_write_score_preserves; reflexivity
      | apply B_write_arc_score_preserves; reflexivity ].
Qed.

End Frames.

(** ** Submission: the form around the request *)

Lemma contains_add (c : string) (e : element) :
  contains c (classList (classList_add c e)) = true.
Proof.
  unfold classList_add. destruct (contains c (classList e)) eqn:E; [exact E|].
  simpl. unfold contains. rewrite existsb_app. simpl.
  rewrite String.eqb_refl. now rewrite orb_true_r.
Qed.

Lemma A_setStatus_other (m : string) (b : bool) (p : page) (r : ref) :
  ref_eqb statusText r = false -> A.setStatus m b p r = p r.
Proof. intros H. unfold A.setStatus. now apply update_other. Qed.

Lemma B_setStatus_other (m : string) (b : bool) (p : page) (r : ref) :
  ref_eqb statusText r = false -> B.setStatus m b p r = p r.
Proof. intros H. unfold B.setStatus. now apply update_other. Qed.

Lemma A_setStatus_shown (m : string) (b : bool) (p : page) (e : element) :
  p statusText = Some e ->
  A.setStatus m b p statusText =
    Some (set_color (if b then "#f97373" else "var(--muted)")
            (set_textContent m e)).
Proof. intros H. unfold A.setStatus. now rewrite (update_same _ _ _ _ H). Qed.

Lemma B_setStatus_shown (m : string) (b : bool) (p : page) (e : element) :
  p statusText = Some e ->
  B.setStatus m b p statusText =
    Some (set_color (if b then "#f97373" else "var(--muted)")
            (set_textContent m e)).
Proof. intros H. unfold B.setStatus. now rewrite (update_same _ _ _ _ H). Qed.

Lemma A_setLoading_other (b : bool) (p : page) (r : ref) :
  ref_eqb analyzeBtn r = false -> ref_eqb loader r = false ->
  A.setLoading b p r = p r.
Proof.
  intros H1 H2. unfold A.setLoading.
  destruct (p analyzeBtn), (p loader), b; try reflexivity;
    now rewrite !assign_other.
Qed.

Lemma B_setLoading_other (b : bool) (p : page) (r : ref) :
  ref_eqb analyzeBtn r = false -> ref_eqb loader r = false ->
  B.setLoading b p r = p r.
Proof.
  intros H1 H2. unfold B.setLoading.
  destruct (p analyzeBtn), (p loader), b; try reflexivity;
    now rewrite !assign_other.
Qed.

Lemma A_setLoading_present (b : bool) (p : page) (btn ld : element) :
  p analyzeBtn = Some btn -> p loader = Some ld ->
  exists btn' ld',
    A.setLoading b p analyzeBtn = Some btn' /\ A.setLoading b p loader = Some ld'.
Proof.
  intros Hb Hl. unfold A.setLoading. rewrite Hb, Hl.
  destruct b; eexists; eexists; split;
    first [ apply assign_same | rewrite assign_other by reflexivity; apply assign_same ].
Qed.

Lemma B_setLoading_present (b : bool) (p : page) (btn ld : element) :
  p analyzeBtn = Some btn -> p loader = Some ld ->
  exists btn' ld',
    B.setLoading b p analyzeBtn = Some btn' /\ B.setLoading b p loader = Some ld'.
Proof.
  intros Hb Hl. unfold B.setLoading. rewrite Hb, Hl.
  destruct b; eexists; eexists; split;
    first [ apply assign_same | rewrite assign_other by reflexivity; apply assign_same ].
Qed.

Lemma A_setLoading_false_idle (p : page) (btn ld : element) :
  p analyzeBtn = Some btn -> p loader = Some ld -> idle (A.setLoading false p).
Proof.
  intros Hb Hl. unfold idle, A.setLoading. rewrite Hb, Hl.
  eexists; eexists. split; [apply assign_same|].
  split; [rewrite assign_other by reflexivity; apply assign_same|].
  split; [reflexivity|apply contains_add].
Qed.

Lemma B_setLoading_false_idle (p : page) (btn ld : element) :
  p analyzeBtn = Some btn -> p loader = Some ld -> idle (B.setLoading false p).
Proof.
  intros Hb Hl. unfold idle, B.setLoading. rewrite Hb, Hl.
  eexists; eexists. split; [apply assign_same|].
  split; [rewrite assign_other by reflexivity; apply assign_same|].
  split; [reflexivity|apply contains_add].
Qed.

Section Submission.

Variable fault_message : fault -> string.
Variable StringToNumber : string -> number.

Lemma A_on_reply_preserves (r : ref) (rp : reply) :
  chrome r = true -> ref_eqb statusText r = false ->
  preserves r (A.on_reply fault_message StringToNumber rp).
Proof.
  intros Hr Hs p. unfold A.on_reply.
  destruct rp as [e|status data]; [reflexivity|].
  destruct (negb (ok status)); [reflexivity|].
  destruct data as [e|data]; [reflexivity|].
  apply preserves_seq; [now apply A_renderResults_preserves|].
  intros q. simpl. now apply A_setStatus_other.
Qed.

Lemma B_on_reply_preserves (r : ref) (rp : reply) :
  chrome r = true -> ref_eqb statusText r = false ->
  ref_eqb resultsWrapper r = false ->
  preserves r (B.on_reply fault_message StringToNumber rp).
Proof.
  intros Hr Hs Hw p. unfold B.on_reply.
  destruct rp as [e|status data]; [reflexivity|].
  destruct (negb (ok status)); [reflexivity|].
  destruct data as [e|data]; [reflexivity|].
  apply preserves_seq; [now apply B_renderResults_preserves|].
  intros q. simpl. rewrite B_setStatus_other by assumption.
  now apply update_other.
Qed.

Lemma A_analyzeUrl_idle (net : request -> reply) (w : world) (btn ld : element) :
  dom w analyzeBtn = Some btn -> dom w loader = Some ld ->
  trim (typed_url (dom w)) <> EmptyString ->
  idle (dom (A.analyzeUrl fault_message StringToNumber net w)).
Proof.
  intros Hb Hl Hu. unfold A.analyzeUrl. fold (typed_url (dom w)).
  destruct (String.eqb_spec (trim (typed_url (dom w))) EmptyString) as [E|_];
    [contradiction|].
  set (p0 := A.setLoading true _).
  destruct (A_setLoading_present true
              (A.setStatus "Sending page to LLM engine…" false (dom w)) btn ld)
    as (btn1 & ld1 & Hb1 & Hl1).
  { now rewrite A_setStatus_other. }
  { now rewrite A_setStatus_other. }
  fold p0 in Hb1, Hl1.
  pose proof (A_on_reply_preserves analyzeBtn
                (net (A.analyze_request (trim (typed_url (dom w)))))
                eq_refl eq_refl p0) as Pb.
  pose proof (A_on_reply_preserves loader
                (net (A.analyze_request (trim (typed_url (dom w)))))
                eq_refl eq_refl p0) as Pl.
  destruct (A.on_reply _ _ _ p0) as [outcome p1]. simpl in Pb, Pl.
  destruct outcome as [u|err]; simpl.
  - apply (A_setLoading_false_idle _ btn1 ld1); congruence.
  - apply (A_setLoading_false_idle _ btn1 ld1);
      rewrite A_setStatus_other by reflexivity; congruence.
Qed.

Lemma B_analyzeUrl_idle (net : request -> reply) (w : world) (btn ld : element) :
  dom w analyzeBtn = Some btn -> dom w loader = Some ld ->
  trim (typed_url (dom w)) <> EmptyString ->
  idle (dom (B.analyzeUrl fault_message StringToNumber net w)).
Proof.
  intros Hb Hl Hu. unfold B.analyzeUrl. fold (typed_url (dom w)).
  destruct (String.eqb_spec (trim (typed_url (dom w))) EmptyString) as [E|_];
    [contradiction|].
  set (p0 := update resultsWrapper _ _).
  destruct (B_setLoading_present true
              (B.setStatus "Sending page to LLM engine…" false (dom w)) btn ld)
    as (btn1 & ld1 & Hb1 & Hl1).
  { now rewrite B_setStatus_other. }
  { now rewrite B_setStatus_other. }
  assert (Hb0 : p0 analyzeBtn = Some btn1)
    by (unfold p0; now rewrite update_other).
  assert (Hl0 : p0 loader = Some ld1)
    by (unfold p0; now rewrite update_other).
  pose proof (B_on_reply_preserves analyzeBtn
                (net (B.analyze_request (trim (typed_url (dom w)))))
                eq_refl eq_refl eq_refl p0) as Pb.
  pose proof (B_on_reply_preserves loader
                (net (B.analyze_request (trim (typed_url (dom w)))))
                eq_refl eq_refl eq_refl p0) as Pl.
  destruct (B.on_reply _ _ _ p0) as [outcome p1]. simpl in Pb, Pl.
  destruct outcome as [u|err]; simpl.
  - apply (B_setLoading_false_idle _ btn1 ld1); congruence.
  - apply (B_setLoading_false_idle _ btn1 ld1);
      rewrite B_setStatus_other by reflexivity; congruence.
Qed.

(** C8.  A submission with a URL that is not empty after trimming ends
    idle, whatever the network answers and whether or not rendering throws:
    the button is enabled again and the loader is hidden.  This holds for
    the current script and for the one under backup/. *)
Theorem submission_ends_idle (net : request -> reply) (w : world)
    (btn ld : element) :
  dom w analyzeBtn = Some btn -> dom w loader = Some ld ->
  trim (typed_url (dom w)) <> EmptyString ->
  idle (dom (A.analyzeUrl fault_message StringToNumber net w)) /\
  loading (dom (A.analyzeUrl fault_message StringToNumber net w)) = false /\
  idle (dom (B.analyzeUrl fault_message StringToNumber net w)) /\
  loading (dom (B.analyzeUrl fault_message StringToNumber net w)) = false.
Proof.
  intros Hb Hl Hu.
  pose proof (A_analyzeUrl_idle net w btn ld Hb Hl Hu) as IA.
  pose proof (B_analyzeUrl_idle net w btn ld Hb Hl Hu) as IB.
  assert (L : forall p, idle p -> loading p = false).
  { intros p (b' & l' & H1 & H2 & H3 & H4). unfold loading.
    now rewrite H1, H2, H3, H4. }
  auto.
Qed.

End Submission.

(** ** Submission: validation *)

Lemma trimStart_white_space_bounded (n : nat) (s : string) :
  (String.length s <= n)%nat ->
  only_white_space s = true -> trimStart s = EmptyString.
Proof.
  revert s. induction n as [|n IH]; intros s Hlen Hws.
  - destruct s; [reflexivity|simpl in Hlen; lia].
  - destruct s as [|c1 s1]; [reflexivity|].
    simpl in Hlen, Hws |- *.
    destruct (is_ws1 c1).
    + apply IH; [lia|exact Hws].
    + destruct s1 as [|c2 s2]; [discriminate|].
      simpl in Hlen.
      destruct (is_ws2 c1 c2).
      * apply IH; [lia|exact Hws].
      * destruct s2 as [|c3 s3]; [discriminate|].
        simpl in Hlen.
        apply andb_true_iff in Hws as [H3 Hws]. rewrite H3.
        apply IH; [lia|exact Hws].
Qed.

Lemma trim_white_space (s : string) :
  only_white_space s = true -> trim s = EmptyString.
Proof.
  intros H. unfold trim.
  rewrite (trimStart_white_space_bounded (String.length s) s (le_n _) H).
  reflexivity.
Qed.

Section Validation.

Variable fault_message : fault -> string.
Variable StringToNumber : string -> number.

(** C1.  When the URL field is empty or holds white space only, a
    submission sends no request, whatever the network would answer, and the
    status line shows the validation message as an error.  This holds for
    the current script and for the one under backup/, each with its own
    wording. *)
Theorem blank_url_is_rejected (net : request -> reply) (w : world)
    (status : element) :
  only_white_space (typed_url (dom w)) = true ->
  dom w statusText = Some status ->
  let wa := A.analyzeUrl fault_message StringToNumber net w in
  let wb := B.analyzeUrl fault_message StringToNumber net w in
  sent wa = sent w /\
  dom wa statusText =
    Some (set_color "#f97373"
            (set_textContent "Enter a full page URL to analyze." status)) /\
  loading (dom wa) = loading (dom w) /\
  sent wb = sent w /\
  dom wb statusText =
    Some (set_color "#f97373"
            (set_textContent "Enter a URL to analyze." status)) /\
  loading (dom wb) = loading (dom w).
Proof.
  intros Hws Hst wa wb. subst wa wb.
  unfold A.analyzeUrl, B.analyzeUrl. fold (typed_url (dom w)).
  rewrite (trim_white_space _ Hws).
  change (String.eqb EmptyString EmptyString) with true.
  cbv iota. unfold on_dom, loading. cbn [dom sent].
  rewrite (A_setStatus_shown _ true _ _ Hst), (B_setStatus_shown _ true _ _ Hst).
  rewrite ?A_setStatus_other, ?B_setStatus_other by reflexivity.
  repeat split; reflexivity.
Qed.

End Validation.

(** ** The score header *)

Lemma shown_update (r : ref) (f : element -> element) (p : page) :
  shown r (update r f p) = option_map (fun e => textContent (f e)) (p r).
Proof.
  unfold shown, update. destruct (p r) eqn:E; [now rewrite assign_same|now rewrite E].
Qed.

Lemma shown_update_other (r r' : ref) (f : element -> element) (p : page) :
  ref_eqb r' r = false -> shown r (update r' f p) = shown r p.
Proof. intros H. unfold shown. now rewrite update_other. Qed.

(** What [renderArcRank] of the current script leaves in the header when
    [score_matrix] is there. *)
Lemma A_renderArcRank_writes (sm cb fb fo : val) (p : page) :
  truthy sm = true ->
  let p' := snd (A.renderArcRank sm cb fb fo p) in
  shown arcScoreEl p' =
    option_map (fun _ =>
        let overall := number_or_zero (get sm "final_score") in
        if isNaN overall then "—" else Number_toString overall)
      (p arcScoreEl) /\
  shown scoreAioEl p' =
    option_map (fun _ =>
        fixed_or_dash (if truthy cb then number_or_zero (get cb "score")
                       else PrimFloat.zero))
      (p scoreAioEl) /\
  shown scoreAeoEl p' =
    option_map (fun _ =>
        fixed_or_dash (if truthy fb then number_or_zero (get fb "score")
                       else PrimFloat.zero))
      (p scoreAeoEl) /\
  shown scoreGeoEl p' =
    option_map (fun _ =>
        fixed_or_dash (if truthy fo then number_or_zero (get fo "coverage_score")
                       else PrimFloat.zero))
      (p scoreGeoEl).
Proof.
  intros Hsm p'. subst p'. unfold A.renderArcRank. rewrite Hsm.
  cbn [negb snd].
  repeat split;
    rewrite ?shown_update_other by reflexivity;
    rewrite shown_update;
    rewrite ?update_other by reflexivity;
    now destruct (p _).
Qed.

Lemma A_renderArcRank_normal (sm cb fb fo : val) (p : page) :
  fst (A.renderArcRank sm cb fb fo p) = Normal tt.
Proof. unfold A.renderArcRank. now destruct (negb (truthy sm)). Qed.

Lemma number_or_zero_missing (v : val) :
  is_number v = false -> number_or_zero v = PrimFloat.zero.
Proof. now destruct v. Qed.

Lemma fixed_or_dash_zero (x : number) :
  PrimFloat.eqb x 0%float = true -> fixed_or_dash x = "—".
Proof. intros H. unfold fixed_or_dash. now rewrite (truthy_zero x H). Qed.

Lemma block_number_missing (b : val) (k : string) :
  truthy b = false \/ is_number (get b k) = false ->
  (if truthy b then number_or_zero (get b k) else PrimFloat.zero) = PrimFloat.zero.
Proof.
  intros [H|H]; [now rewrite H|].
  rewrite (number_or_zero_missing _ H). now destruct (truthy b).
Qed.

Lemma A_renderArcRank_skips (sm cb fb fo : val) (p : page) :
  truthy sm = false -> A.renderArcRank sm cb fb fo p = (Normal tt, p).
Proof. intros H. unfold A.renderArcRank. now rewrite H. Qed.

Section Header.

Variable fault_message : fault -> string.
Variable StringToNumber : string -> number.

Lemma B_renderArcRank_skips (ev : val) (p : page) :
  truthy ev = false \/ truthy (get ev "scores") = false ->
  B.renderArcRank fault_message StringToNumber ev p = (Normal tt, p).
Proof.
  intros H. unfold B.renderArcRank.
  destruct H as [H|H]; rewrite H; [reflexivity|].
  now rewrite orb_true_r.
Qed.

Lemma A_renderResults_keeps_header (data : val) (p : page) (r : ref) :
  header r = true -> truthy (get data "score_matrix") = false ->
  snd (A.renderResults fault_message StringToNumber data p) r = p r.
Proof.
  intros Hr Hsm. revert p.
  change (preserves r (A.renderResults fault_message StringToNumber data)).
  unfold A.renderResults. apply preserves_guard. apply preserves_seq.
  { intros p. now rewrite A_renderArcRank_skips. }
  unfold A.renderLlmView, A.renderEvaluation, A.renderBlocks.
  destruct r; try discriminate; frame.
Qed.

Lemma B_renderResults_keeps_header (data : val) (p : page) (r : ref) :
  header r = true ->
  truthy (get (oror data (Obj [])) "evaluation") = false \/
  truthy (get (get (oror data (Obj [])) "evaluation") "scores") = false ->
  snd (B.renderResults fault_message StringToNumber data p) r = p r.
Proof.
  intros Hr Hev. revert p.
  change (preserves r (B.renderResults fault_message StringToNumber data)).
  unfold B.renderResults. apply preserves_seq.
  { intros p. now rewrite B_renderArcRank_skips. }
  unfold B.renderLlmView, B.renderEvaluation, B.renderBlocks.
  destruct r; try discriminate; frame.
Qed.

(** C10.  When [score_matrix] is absent, or is there but falsy,
    [renderArcRank] of the current script returns the page it was given:
    nothing is written.  After the whole of [renderResults] the overall
    score and the AIO, AEO and GEO elements still hold what they held
    before.  The script under backup/ does the same when [evaluation] or
    [evaluation.scores] is absent. *)
Theorem header_untouched_without_scores (data datab : val) (p : page) :
  truthy (get data "score_matrix") = false ->
  truthy (get (oror datab (Obj [])) "evaluation") = false \/
  truthy (get (get (oror datab (Obj [])) "evaluation") "scores") = false ->
  A.renderArcRank (get data "score_matrix") (get data "clarity_readability")
    (get data "faq_block") (get data "fanout_query_analysis") p
  = (Normal tt, p) /\
  (forall r, header r = true ->
     snd (A.renderResults fault_message StringToNumber data p) r = p r) /\
  B.renderArcRank fault_message StringToNumber
    (get (oror datab (Obj [])) "evaluation") p
  = (Normal tt, p) /\
  (forall r, header r = true ->
     snd (B.renderResults fault_message StringToNumber datab p) r = p r).
Proof.
  intros Ha Hb. split; [now apply A_renderArcRank_skips|].
  split; [intros r Hr; now apply A_renderResults_keeps_header|].
  split; [now apply B_renderArcRank_skips|].
  intros r Hr. now apply B_renderResults_keeps_header.
Qed.

Lemma B_fixed_or_dash_zero (callee : string) (x : number) :
  PrimFloat.eqb x 0%float = true ->
  B.fixed_or_dash fault_message callee (Num x) = Normal "—".
Proof. intros H. unfold B.fixed_or_dash. now rewrite (truthy_zero x H). Qed.

Lemma B_write_score_shown (r : ref) (s t : string) (p : page) :
  B.write_score r (Normal s) t p
  = (Normal tt, update r (fun e => set_title t (set_textContent s e)) p).
Proof. unfold B.write_score, update. now destruct (p r). Qed.

(** The sub-scores of the script under backup/, when [renderArcRank]
    completes and they are zero. *)
Lemma B_zero_sub_score (ev : val) (x : number) (q q' : page) :
  truthy ev = true -> truthy (get ev "scores") = true ->
  PrimFloat.eqb x 0%float = true ->
  B.renderArcRank fault_message StringToNumber ev q = (Normal tt, q') ->
  (get (get ev "scores") "intent_clarity" = Num x ->
     shown scoreAioEl q' = option_map (fun _ => "—") (q scoreAioEl)) /\
  (get (get ev "scores") "answerability" = Num x ->
     shown scoreAeoEl q' = option_map (fun _ => "—") (q scoreAeoEl)) /\
  (get (get ev "scores") "coverage" = Num x ->
     shown scoreGeoEl q' = option_map (fun _ => "—") (q scoreGeoEl)).
Proof.
  intros Tev Tsc Hx H. unfold B.renderArcRank in H. rewrite Tev, Tsc in H.
  cbn [negb orb] in H.
  apply seq_normal in H as (q1 & H0 & H).
  apply seq_normal in H as (q2 & H1 & H).
  apply seq_normal in H as (q3 & H2 & H3).
  pose proof (fun r E => preserved r _ _ _ _
                (B_write_arc_score_preserves fault_message StringToNumber r _ E) H0)
    as P0.
  pose proof (fun r E => preserved r _ _ _ _
                (B_write_score_preserves r scoreAioEl _ _ E) H1) as P1.
  pose proof (fun r E => preserved r _ _ _ _
                (B_write_score_preserves r scoreAeoEl _ _ E) H2) as P2.
  pose proof (fun r E => preserved r _ _ _ _
                (B_write_score_preserves r scoreGeoEl _ _ E) H3) as P3.
  split; [|split]; intros E; rewrite E in *; cbn [with_default] in *.
  - rewrite (B_fixed_or_dash_zero _ x Hx), B_write_score_shown in H1.
    injection H1 as <-. unfold shown.
    rewrite (P3 scoreAioEl eq_refl), (P2 scoreAioEl eq_refl).
    fold (shown scoreAioEl (update scoreAioEl
            (fun e => set_title "AIO – AI Index Optimization: how clearly the page expresses its main topic and purpose for AI models."
                        (set_textContent "—" e)) q1)).
    rewrite shown_update, (P0 scoreAioEl eq_refl). now destruct (q scoreAioEl).
  - rewrite (B_fixed_or_dash_zero _ x Hx), B_write_score_shown in H2.
    injection H2 as <-. unfold shown.
    rewrite (P3 scoreAeoEl eq_refl).
    fold (shown scoreAeoEl (update scoreAeoEl
            (fun e => set_title "AEO – Answer Engine Optimization: how well your content directly answers user questions."
                        (set_textContent "—" e)) q2)).
    rewrite shown_update, (P1 scoreAeoEl eq_refl), (P0 scoreAeoEl eq_refl).
    now destruct (q scoreAeoEl).
  - rewrite (B_fixed_or_dash_zero _ x Hx), B_write_score_shown in H3.
    injection H3 as <-.
    rewrite shown_update, (P2 scoreGeoEl eq_refl), (P1 scoreGeoEl eq_refl),
      (P0 scoreGeoEl eq_refl).
    now destruct (q scoreGeoEl).
Qed.

(** C9, as amended.  With [score_matrix] present, a sub-score that is
    there and equal to zero is shown as a dash: the AIO element for
    [clarity_readability.score], the AEO element for [faq_block.score], the
    GEO element for [fanout_query_analysis.coverage_score].  The page is then
    the one that the same result without that field gives: zero is treated as
    absent.  The script under backup/ does the same for its own sub-scores
    ([intent_clarity], [answerability], [coverage]) when [evaluation.scores]
    is present and [renderArcRank] completes. *)
Theorem zero_sub_score_shows_dash (sm cb fb fo ev : val) (x : number)
    (p q q' : page) :
  truthy sm = true ->
  PrimFloat.eqb x 0%float = true ->
  truthy ev = true -> truthy (get ev "scores") = true ->
  B.renderArcRank fault_message StringToNumber ev q = (Normal tt, q') ->
  (get cb "score" = Num x ->
     shown scoreAioEl (snd (A.renderArcRank sm cb fb fo p))
       = option_map (fun _ => "—") (p scoreAioEl)) /\
  (get fb "score" = Num x ->
     shown scoreAeoEl (snd (A.renderArcRank sm cb fb fo p))
       = option_map (fun _ => "—") (p scoreAeoEl)) /\
  (get fo "coverage_score" = Num x ->
     shown scoreGeoEl (snd (A.renderArcRank sm cb fb fo p))
       = option_map (fun _ => "—") (p scoreGeoEl)) /\
  A.renderArcRank sm (Obj [("score", Num x)]) (Obj [("score", Num x)])
    (Obj [("coverage_score", Num x)]) p
  = A.renderArcRank sm (Obj []) (Obj []) (Obj []) p /\
  (get (get ev "scores") "intent_clarity" = Num x ->
     shown scoreAioEl q' = option_map (fun _ => "—") (q scoreAioEl)) /\
  (get (get ev "scores") "answerability" = Num x ->
     shown scoreAeoEl q' = option_map (fun _ => "—") (q scoreAeoEl)) /\
  (get (get ev "scores") "coverage" = Num x ->
     shown scoreGeoEl q' = option_map (fun _ => "—") (q scoreGeoEl)).
Proof.
  intros Hsm Hx Tev Tsc HB.
  destruct (A_renderArcRank_writes sm cb fb fo p Hsm) as (_ & Ha & He & Hg).
  split.
  { intros E. rewrite Ha, E. simpl number_or_zero.
    destruct (truthy cb); now rewrite ?(fixed_or_dash_zero x Hx). }
  split.
  { intros E. rewrite He, E. simpl number_or_zero.
    destruct (truthy fb); now rewrite ?(fixed_or_dash_zero x Hx). }
  split.
  { intros E. rewrite Hg, E. simpl number_or_zero.
    destruct (truthy fo); now rewrite ?(fixed_or_dash_zero x Hx). }
  split.
  { unfold A.renderArcRank. rewrite Hsm. cbn [negb truthy get lookup String.eqb].
    simpl number_or_zero. now rewrite !(fixed_or_dash_zero x Hx). }
  exact (B_zero_sub_score ev x q q' Tev Tsc Hx HB).
Qed.

End Header.

(** ** Submission: what the status line ends with *)

Lemma status_line_setStatus (m : string) (b : bool) (p : page) (e : element) :
  p statusText = Some e ->
  status_line (A.setStatus m b p) =
    Some (m, if b then "#f97373" else "var(--muted)").
Proof.
  intros H. unfold status_line. rewrite (A_setStatus_shown _ _ _ _ H).
  now destruct b.
Qed.

Section Outcome.

Variable fault_message : fault -> string.
Variable StringToNumber : string -> number.


Lemma A_on_reply_status (rp : reply) (p : page) (e : element) :
  p statusText = Some e ->
  let r := A.on_reply fault_message StringToNumber rp p in
  exists e', snd r statusText = Some e' /\
    (fst r = Normal tt -> status_line (snd r) = Some (final_status (fst r))).
Proof.
  intros He r. subst r. unfold A.on_reply.
  destruct rp as [err|status data].
  { exists e. split; [exact He|discriminate]. }
  destruct (negb (ok status)).
  { exists e. split; [exact He|].
    cbn [fst]. destruct (read _ _ _) as [d|?]; [|discriminate]. cbn [bind].
    destruct (if truthy d then _ else _); discriminate. }
  destruct data as [err|data].
  { exists e. split; [exact He|discriminate]. }
  unfold seq.
  pose proof (A_renderResults_preserves fault_message StringToNumber
                statusText data eq_refl p) as P.
  destruct (A.renderResults _ _ data p) as [[u|err] p1]; cbn [fst snd] in *.
  - rewrite He in P.
    eexists. split; [apply (A_setStatus_shown _ _ _ _ P)|].
    intros _. now rewrite (status_line_setStatus _ false _ _ P).
  - exists e. split; [congruence|discriminate].
Qed.

Lemma B_on_reply_status (rp : reply) (p : page) (e : element) :
  p statusText = Some e ->
  let r := B.on_reply fault_message StringToNumber rp p in
  exists e', snd r statusText = Some e' /\
    (fst r = Normal tt -> status_line (snd r) = Some (final_status (fst r))).
Proof.
  intros He r. subst r. unfold B.on_reply.
  destruct rp as [err|status data].
  { exists e. split; [exact He|discriminate]. }
  destruct (negb (ok status)).
  { exists e. split; [exact He|].
    cbn [fst]. destruct (read _ _ _) as [d|?]; [|discriminate]. cbn [bind].
    destruct (if truthy d then _ else _); discriminate. }
  destruct data as [err|data].
  { exists e. split; [exact He|discriminate]. }
  unfold seq.
  pose proof (B_renderResults_preserves fault_message StringToNumber
                statusText data eq_refl p) as P.
  destruct (B.renderResults _ _ data p) as [[u|err] p1]; cbn [fst snd] in *.
  - rewrite He in P.
    assert (P' : update resultsWrapper (classList_remove "hidden") p1 statusText
                 = Some e) by now rewrite update_other.
    eexists. split; [apply (B_setStatus_shown _ _ _ _ P')|].
    intros _. change B.setStatus with A.setStatus.
    now rewrite (status_line_setStatus _ false _ _ P').
  - exists e. split; [congruence|discriminate].
Qed.

(** After a submission with a URL, the status line tells how the [try]
    block ended: completion, or the message of what was thrown. *)
Lemma A_analyzeUrl_status (net : request -> reply) (w : world) (e : element) :
  dom w statusText = Some e ->
  trim (typed_url (dom w)) <> EmptyString ->
  status_line (dom (A.analyzeUrl fault_message StringToNumber net w)) =
    Some (final_status
            (fst (A.on_reply fault_message StringToNumber
                    (net (A.analyze_request (trim (typed_url (dom w)))))
                    (A.setLoading true
                       (A.setStatus "Sending page to LLM engine…" false (dom w)))))).
Proof.
  intros He Hu. unfold A.analyzeUrl. fold (typed_url (dom w)).
  destruct (String.eqb_spec (trim (typed_url (dom w))) EmptyString) as [E|_];
    [contradiction|].
  set (p0 := A.setLoading true _).
  assert (H0 : exists e0, p0 statusText = Some e0).
  { unfold p0. rewrite A_setLoading_other by reflexivity.
    rewrite (A_setStatus_shown _ _ _ _ He). eauto. }
  destruct H0 as [e0 H0].
  destruct (A_on_reply_status
              (net (A.analyze_request (trim (typed_url (dom w))))) p0 e0 H0)
    as (e1 & H1 & H2).
  destruct (A.on_reply _ _ _ p0) as [[[]|err] p1]; cbn [fst snd dom] in *.
  - unfold status_line in *. rewrite A_setLoading_other by reflexivity.
    now apply H2.
  - unfold status_line. rewrite A_setLoading_other by reflexivity.
    now rewrite (A_setStatus_shown _ _ _ _ H1).
Qed.

Lemma B_analyzeUrl_status (net : request -> reply) (w : world) (e : element) :
  dom w statusText = Some e ->
  trim (typed_url (dom w)) <> EmptyString ->
  status_line (dom (B.analyzeUrl fault_message StringToNumber net w)) =
    Some (final_status
            (fst (B.on_reply fault_message StringToNumber
                    (net (B.analyze_request (trim (typed_url (dom w)))))
                    (update resultsWrapper (classList_add "hidden")
                       (B.setLoading true
                          (B.setStatus "Sending page to LLM engine…" false
                             (dom w))))))).
Proof.
  intros He Hu. unfold B.analyzeUrl. fold (typed_url (dom w)).
  destruct (String.eqb_spec (trim (typed_url (dom w))) EmptyString) as [E|_];
    [contradiction|].
  set (p0 := update resultsWrapper _ _).
  assert (H0 : exists e0, p0 statusText = Some e0).
  { unfold p0. rewrite update_other by reflexivity.
    rewrite B_setLoading_other by reflexivity.
    rewrite (B_setStatus_shown _ _ _ _ He). eauto. }
  destruct H0 as [e0 H0].
  destruct (B_on_reply_status
              (net (B.analyze_request (trim (typed_url (dom w))))) p0 e0 H0)
    as (e1 & H1 & H2).
  destruct (B.on_reply _ _ _ p0) as [[[]|err] p1]; cbn [fst snd dom] in *.
  - unfold status_line in *. rewrite B_setLoading_other by reflexivity.
    now apply H2.
  - unfold status_line. rewrite B_setLoading_other by reflexivity.
    now rewrite (B_setStatus_shown _ _ _ _ H1).
Qed.


Lemma A_on_reply_failure (status : Z) (data : payload) (p : page) :
  ok status = false ->
  fst (A.on_reply fault_message StringToNumber (Response status data) p)
  = failure fault_message status data.
Proof. intros H. unfold A.on_reply. now rewrite H. Qed.

Lemma B_on_reply_failure (status : Z) (data : payload) (p : page) :
  ok status = false ->
  fst (B.on_reply fault_message StringToNumber (Response status data) p)
  = failure fault_message status data.
Proof. intros H. unfold B.on_reply. now rewrite H. Qed.

Lemma failure_throws (status : Z) (data : payload) :
  exists err, failure fault_message status data = Throw err.
Proof.
  unfold failure. destruct (read _ _ _) as [d|err]; cbn [bind]; [|eauto].
  destruct (if truthy d then _ else _); cbn [bind]; eauto.
Qed.

Lemma failure_detail (status : Z) (v : val) (d : string) :
  get v "detail" = Str d -> d <> EmptyString ->
  failure fault_message status (Json v) = Throw (Error d).
Proof.
  intros Hd Hne. unfold failure, read.
  destruct v; try discriminate; cbn [bind]; rewrite Hd; cbn [truthy];
    destruct (String.eqb_spec d EmptyString); try contradiction; reflexivity.
Qed.

Lemma failure_no_detail (status : Z) (v : val) :
  nullish v = false -> truthy (get v "detail") = false ->
  failure fault_message status (Json v)
  = Throw (Error ("Request failed: " ++ Number_toString (num_of_Z status))).
Proof.
  intros H Hd. unfold failure, read.
  destruct v; try discriminate; cbn [bind]; now rewrite Hd.
Qed.

Lemma failure_nullish (status : Z) (v : val) :
  nullish v = true ->
  failure fault_message status (Json v)
  = Throw (TypeError fault_message (NullishRead "detail")).
Proof. intros H. now destruct v. Qed.

Lemma failure_no_json (status : Z) (e : error) :
  failure fault_message status (NotJson e)
  = Throw (Error ("Request failed: " ++ Number_toString (num_of_Z status))).
Proof. reflexivity. Qed.

End Outcome.

Section FailedRequest.

Variable fault_message : fault -> string.
Variable StringToNumber : string -> number.

(** C5, as amended.  On a response that is not 2xx the status line shows, as
    an error: the [detail] of the JSON body when it is a string that is not
    empty; [Request failed: <status>] when the body is JSON other than
    [null] and has no [detail], or one that is empty or otherwise falsy, and
    when the body is absent or is not JSON; and, when the body is the JSON
    value [null], the message of the [TypeError] that the engine throws on
    reading [detail] from it ([Something went wrong.] should that message be
    empty).  In every case some message that is not empty is shown in the
    error colour.  This holds for the current script and for the one under
    backup/.  ([nullish] holds of [null] and of [undefined]; no JSON text
    gives the latter.) *)
Theorem failed_request_is_reported (net : request -> reply) (w : world)
    (e : element) (status : Z) (data : payload) :
  dom w statusText = Some e ->
  trim (typed_url (dom w)) <> EmptyString ->
  net (A.analyze_request (trim (typed_url (dom w)))) = Response status data ->
  ok status = false ->
  let la := status_line (dom (A.analyzeUrl fault_message StringToNumber net w)) in
  let lb := status_line (dom (B.analyzeUrl fault_message StringToNumber net w)) in
  let failed := "Request failed: " ++ Number_toString (num_of_Z status) in
  let thrown :=
    if String.eqb (fault_message (NullishRead "detail")) EmptyString
    then "Something went wrong."
    else fault_message (NullishRead "detail") in
  (forall v d, data = Json v -> get v "detail" = Str d -> d <> EmptyString ->
     la = Some (d, "#f97373") /\ lb = Some (d, "#f97373")) /\
  (forall v, data = Json v -> nullish v = false ->
     truthy (get v "detail") = false ->
     la = Some (failed, "#f97373") /\ lb = Some (failed, "#f97373")) /\
  (forall v, data = Json v -> nullish v = true ->
     la = Some (thrown, "#f97373") /\ lb = Some (thrown, "#f97373")) /\
  (forall err, data = NotJson err ->
     la = Some (failed, "#f97373") /\ lb = Some (failed, "#f97373")) /\
  (exists m, m <> EmptyString /\ la = Some (m, "#f97373")) /\
  (exists m, m <> EmptyString /\ lb = Some (m, "#f97373")).
Proof.
  intros He Hu Hnet Hok la lb failed thrown. subst la lb failed thrown.
  rewrite (A_analyzeUrl_status _ _ net w e He Hu).
  rewrite (B_analyzeUrl_status _ _ net w e He Hu).
  change (B.analyze_request (trim (typed_url (dom w))))
    with (A.analyze_request (trim (typed_url (dom w)))).
  rewrite Hnet.
  rewrite (A_on_reply_failure _ _ status data _ Hok).
  rewrite (B_on_reply_failure _ _ status data _ Hok).
  assert (Shown : forall msg,
            final_status (@Throw unit (Error msg))
            = (if String.eqb msg EmptyString then "Something went wrong." else msg,
               "#f97373")) by reflexivity.
  repeat split.
  - subst data. rewrite (failure_detail _ status v d H0 H1), Shown.
    now destruct (String.eqb_spec d EmptyString).
  - subst data. rewrite (failure_detail _ status v d H0 H1), Shown.
    now destruct (String.eqb_spec d EmptyString).
  - subst data. now rewrite (failure_no_detail _ status v H0 H1).
  - subst data. now rewrite (failure_no_detail _ status v H0 H1).
  - subst data. now rewrite (failure_nullish _ status v H0).
  - subst data. now rewrite (failure_nullish _ status v H0).
  - subst data. now rewrite failure_no_json.
  - subst data. now rewrite failure_no_json.
  - destruct (failure_throws fault_message status data) as [err ->].
    cbn [final_status]. eexists. split; [|reflexivity].
    now destruct (String.eqb_spec (message err) EmptyString).
  - destruct (failure_throws fault_message status data) as [err ->].
    cbn [final_status]. eexists. split; [|reflexivity].
    now destruct (String.eqb_spec (message err) EmptyString).
Qed.

End FailedRequest.

(** C5 at a response 400 with body [{"detail":"bad url"}]. *)
Lemma failed_request_is_reported_witness :
  status_line
    (dom (A.analyzeUrl example_message example_StringToNumber
            (fun _ => Response 400 (Json (Obj [("detail", Str "bad url")])))
            (world_with_url "https://example.com")))
  = Some ("bad url", "#f97373") /\
  status_line
    (dom (B.analyzeUrl example_message example_StringToNumber
            (fun _ => Response 400 (Json (Obj [("detail", Str "bad url")])))
            (world_with_url "https://example.com")))
  = Some ("bad url", "#f97373").
Proof.
  refine (proj1 (failed_request_is_reported example_message
                   example_StringToNumber
                   (fun _ => Response 400 (Json (Obj [("detail", Str "bad url")])))
                   (world_with_url "https://example.com") empty_element 400
                   (Json (Obj [("detail", Str "bad url")])) _ _ _ _)
            (Obj [("detail", Str "bad url")]) "bad url" _ _ _).
  - reflexivity.
  - vm_compute. discriminate.
  - reflexivity.
  - reflexivity.
  - reflexivity.
  - reflexivity.
  - discriminate.
Defined.

(** C5 as stated fails on a [detail] that is the empty string: the status
    line shows [Request failed: 400], and with no engine does it show the
    empty [detail]. *)
Lemma empty_detail_counterexample :
  status_line
    (dom (A.analyzeUrl example_message example_StringToNumber
            (fun _ => Response 400 (Json (Obj [("detail", Str EmptyString)])))
            (world_with_url "https://example.com")))
  = Some ("Request failed: 400", "#f97373") /\
  ~ (exists fault_message StringToNumber,
       status_line
         (dom (A.analyzeUrl fault_message StringToNumber
                 (fun _ => Response 400 (Json (Obj [("detail", Str EmptyString)])))
                 (world_with_url "https://example.com")))
       = Some (EmptyString, "#f97373")).
Proof.
  split; [vm_compute; reflexivity|].
  intros (fm & s2n & H).
  vm_compute in H. discriminate H.
Qed.

(** ** Completions *)

Lemma bind_normal {A B : Type} (c : completion A) (k : A -> completion B) (b : B) :
  bind c k = Normal b -> exists a, c = Normal a /\ k a = Normal b.
Proof. destruct c as [a|e]; [eauto|discriminate]. Qed.

Ltac invert_bind H :=
  let a := fresh "a" in
  let Ha := fresh "Ha" in
  apply bind_normal in H; destruct H as (a & Ha & H).

Lemma get_with_default_object (v : val) (k : string) :
  get (with_default v (Obj [])) k = get v k.
Proof. now destruct v. Qed.

Lemma get_oror_object (v : val) (k : string) :
  String.eqb k "length" = false -> get (oror v (Obj [])) k = get v k.
Proof.
  intros Hk. unfold oror. destruct (truthy v) eqn:T; [reflexivity|].
  destruct v; try reflexivity; try discriminate.
  cbn [get lookup]. now rewrite Hk.
Qed.

Lemma append_empty (s : string) : s ++ EmptyString = s.
Proof. induction s as [|c s IH]; [reflexivity|]. simpl. now rewrite IH. Qed.

(** ** Markup: what is known of it *)

Lemma node_induction (P : node -> Prop) :
  (forall s, P (Text s)) ->
  (forall s, P (Subst s)) ->
  (forall t attrs children,
     Forall P children -> P (Element t attrs children)) ->
  forall n, P n.
Proof.
  intros HT HS HE. fix IH 1. intros [s|s|t attrs children].
  - apply HT.
  - apply HS.
  - apply HE. induction children as [|c cs IHcs]; constructor.
    + apply IH.
    + exact IHcs.
Qed.

Lemma scan_all_cons (sel : node -> bool) (n : node) (f : fragment) :
  scan_all sel (n :: f) = then_ (scan sel n) (scan_all sel f).
Proof. reflexivity. Qed.

Lemma then_assoc (a b c : list node * bool) :
  then_ (then_ a b) c = then_ a (then_ b c).
Proof.
  destruct a as [a [|]], b as [b [|]], c as [c ok]; unfold then_; cbn;
    try reflexivity; now rewrite app_assoc.
Qed.

Lemma then_nil (a : list node * bool) : then_ ([], true) a = a.
Proof. now destruct a. Qed.

Lemma then_first (x : node) (l : list node) (ok : bool)
    (b : list node * bool) :
  exists rest, fst (then_ (x :: l, ok) b) = x :: rest.
Proof. unfold then_. destruct ok; cbn; eauto. Qed.

Lemma scan_all_app (sel : node -> bool) (f g : fragment) :
  scan_all sel (f ++ g)%list = then_ (scan_all sel f) (scan_all sel g).
Proof.
  induction f as [|n f IH]; cbn [app].
  - symmetry. apply then_nil.
  - now rewrite !scan_all_cons, IH, then_assoc.
Qed.

Lemma scan_element (sel : node -> bool) (t : string)
    (attrs : list (string * string)) (children : fragment) :
  scan sel (Element t attrs children)
  = if forallb (fun a => plain_attribute (snd a)) attrs
    then then_ (if sel (Element t attrs children)
                then [Element t attrs children] else [], true)
           (scan_all sel children)
    else ([], false).
Proof. reflexivity. Qed.

(** A node that is clean is read to its end, and what is found in it is what
    the tree holds. *)
Lemma scan_clean (sel : node -> bool) (n : node) :
  clean n = true -> scan sel n = (select sel n, true).
Proof.
  induction n as [s|s|t attrs children IH] using node_induction; intros C.
  - reflexivity.
  - cbn in *. now rewrite C.
  - cbn [clean] in C. apply andb_true_iff in C as [Ca Cc].
    rewrite scan_element, Ca. cbn [select].
    assert (E : scan_all sel children = (flat_map (select sel) children, true)).
    { clear Ca. induction children as [|c cs IHcs]; [reflexivity|].
      cbn [forallb] in Cc. apply andb_true_iff in Cc as [C1 C2].
      inversion IH as [|? ? H1 H2]; subst.
      rewrite scan_all_cons, (H1 C1), (IHcs H2 C2). reflexivity. }
    rewrite E. reflexivity.
Qed.

Lemma scan_all_clean (sel : node -> bool) (f : fragment) :
  forallb clean f = true -> scan_all sel f = (select_all sel f, true).
Proof.
  induction f as [|n f IH]; [reflexivity|]. cbn [forallb]. intros C.
  apply andb_true_iff in C as [C1 C2].
  now rewrite scan_all_cons, (scan_clean sel n C1), (IH C2).
Qed.

(** What is known of markup that begins with clean nodes. *)
Lemma known_app_clean (sel : node -> bool) (f g : fragment) :
  forallb clean f = true ->
  known sel (f ++ g)%list = (select_all sel f ++ known sel g)%list.
Proof.
  intros C. unfold known. rewrite scan_all_app, (scan_all_clean sel f C).
  reflexivity.
Qed.

Lemma known_clean (sel : node -> bool) (f : fragment) :
  forallb clean f = true -> known sel f = select_all sel f.
Proof. intros C. unfold known. now rewrite (scan_all_clean sel f C). Qed.

(** What is found in a clean node is clean. *)
Lemma select_clean (sel : node -> bool) (n : node) :
  clean n = true -> forallb clean (select sel n) = true.
Proof.
  induction n as [s|s|t attrs children IH] using node_induction; intros C.
  - reflexivity.
  - reflexivity.
  - cbn [select]. rewrite forallb_app. apply andb_true_iff. split.
    + destruct (sel _); [cbn [forallb]; now rewrite C|reflexivity].
    + cbn [clean] in C. apply andb_true_iff in C as [_ Cc].
      induction children as [|c cs IHcs]; [reflexivity|].
      cbn [forallb] in Cc. apply andb_true_iff in Cc as [C1 C2].
      inversion IH as [|? ? H1 H2]; subst.
      cbn [flat_map]. rewrite forallb_app, (H1 C1). now apply IHcs.
Qed.

Lemma select_all_clean (sel : node -> bool) (f : fragment) :
  forallb clean f = true -> forallb clean (select_all sel f) = true.
Proof.
  induction f as [|n f IH]; [reflexivity|]. cbn [forallb]. intros C.
  apply andb_true_iff in C as [C1 C2]. unfold select_all. cbn [flat_map].
  rewrite forallb_app, (select_clean sel n C1). now apply IH.
Qed.

Lemma filter_all {A : Type} (p : A -> bool) (l : list A) :
  forallb p l = true -> filter p l = l.
Proof.
  induction l as [|x l IH]; [reflexivity|]. cbn. intros H.
  apply andb_true_iff in H as [Hx Hl]. now rewrite Hx, IH.
Qed.

(** The texts of clean markup. *)
Lemma texts_clean (sel : node -> bool) (f : fragment) :
  forallb clean f = true -> texts sel f = map text_of (select_all sel f).
Proof.
  intros C. unfold texts. rewrite (known_clean sel f C).
  now rewrite (filter_all _ _ (select_all_clean sel f C)).
Qed.

Lemma clean_app (f g : fragment) :
  forallb clean (f ++ g)%list = forallb clean f && forallb clean g.
Proof. apply forallb_app. Qed.

(** Reading markup whose tags and classes are those of the template: the
    attribute values and the substitutions that the template spells are
    evaluated, the others are left as conditions. *)
Ltac eval_closed :=
  repeat match goal with
  | |- context [plain_attribute ?s] =>
      let v := eval vm_compute in (plain_attribute s) in
      match v with
      | true => change (plain_attribute s) with true
      | false => change (plain_attribute s) with false
      end
  | |- context [plain ?s] =>
      let v := eval vm_compute in (plain s) in
      match v with
      | true => change (plain s) with true
      | false => change (plain s) with false
      end
  end.
Ltac read_markup :=
  repeat (progress (cbn -[plain plain_attribute]; eval_closed)).

(** ** Texts that carry no markup *)

Lemma every_app (ok : ascii -> bool) (s t : string) :
  every ok (s ++ t) = every ok s && every ok t.
Proof.
  induction s as [|c s IH]; [reflexivity|]. cbn. now rewrite IH, andb_assoc.
Qed.

Lemma every_impl (ok ok' : ascii -> bool) (s : string) :
  (forall c, ok c = true -> ok' c = true) -> every ok s = true -> every ok' s = true.
Proof.
  intros H. induction s as [|c s IH]; [reflexivity|]. cbn. intros E.
  apply andb_true_iff in E as [E1 E2]. now rewrite (H c E1), IH.
Qed.

Lemma engine_char_plain (c : ascii) :
  engine_char c = true -> text_char c = true /\ value_char c = true.
Proof.
  destruct c as [[|] [|] [|] [|] [|] [|] [|] [|]]; vm_compute;
    intros H; try discriminate H; split; reflexivity.
Qed.

Lemma engine_text_plain (s : string) :
  every engine_char s = true -> plain s = true /\ plain_attribute s = true.
Proof.
  intros H. split; apply (every_impl engine_char); try exact H;
    intros c Hc; now apply engine_char_plain.
Qed.

Lemma string_of_uint_engine (d : Decimal.uint) :
  every engine_char (DecimalString.NilEmpty.string_of_uint d) = true.
Proof. induction d; cbn; auto. Qed.

Lemma digits_engine (z : Z) : every engine_char (digits z) = true.
Proof.
  unfold digits, DecimalString.NilZero.string_of_uint.
  destruct (N.to_uint (Z.to_N z)) eqn:E; try reflexivity;
    rewrite <- E; apply string_of_uint_engine.
Qed.

Lemma zeros_engine (n : nat) : every engine_char (zeros n) = true.
Proof. induction n; cbn; auto. Qed.

Lemma take_every (ok : ascii -> bool) (n : nat) (s : string) :
  every ok s = true -> every ok (take n s) = true.
Proof.
  revert s. induction n as [|n IH]; intros [|c s]; cbn; auto.
  intros H. apply andb_true_iff in H as [H1 H2]. now rewrite H1, IH.
Qed.

Lemma drop_every (ok : ascii -> bool) (n : nat) (s : string) :
  every ok s = true -> every ok (drop n s) = true.
Proof.
  revert s. induction n as [|n IH]; intros [|c s]; cbn; auto.
  intros H. apply andb_true_iff in H as [H1 H2]. now apply IH.
Qed.

Ltac engine_text :=
  repeat (rewrite every_app; apply andb_true_iff; split);
  first [ apply digits_engine | apply zeros_engine
        | apply take_every; apply digits_engine
        | apply drop_every; apply digits_engine
        | reflexivity ].

Lemma format_positive_engine (s n : Z) :
  every engine_char (format_positive s n) = true.
Proof.
  unfold format_positive.
  destruct (_ && _); [engine_text|].
  destruct (_ && _); [engine_text|].
  destruct (_ && _); [engine_text|].
  destruct (n - 1 <? 0)%Z; destruct (_ =? 1)%Z; engine_text.
Qed.

Lemma Number_toString_engine (x : number) :
  every engine_char (Number_toString x) = true.
Proof.
  unfold Number_toString. destruct (Prim2SF x) as [s|s| |s m e];
    try (now destruct s); try reflexivity.
  destruct (shortest m e) as [d n].
  rewrite every_app, format_positive_engine. now destruct s.
Qed.

Lemma toFixed_engine (x : number) (f : nat) :
  every engine_char (toFixed x f) = true.
Proof.
  unfold toFixed.
  pose proof (Number_toString_engine x) as N.
  destruct (Prim2SF x) as [s|s| |s m e]; try exact N.
  - destruct (f =? 0)%nat; [reflexivity|].
    change ("0." ++ zeros f) with (String "0" (String "." (zeros f))).
    cbn [every]. now rewrite zeros_engine.
  - destruct (Qleb _ _); [exact N|].
    set (ds0 := digits _).
    assert (D : every engine_char
                  (if (String.length ds0 <=? f)%nat
                   then zeros (f + 1 - String.length ds0) ++ ds0 else ds0) = true).
    { destruct (_ <=? _)%nat; [|apply digits_engine].
      rewrite every_app, zeros_engine. apply digits_engine. }
    set (ds := if (String.length ds0 <=? f)%nat then _ else _) in *.
    rewrite every_app. apply andb_true_iff. split; [now destruct s|].
    destruct (f =? 0)%nat; [exact D|].
    rewrite !every_app, (take_every _ _ _ D), (drop_every _ _ _ D). reflexivity.
Qed.

(** The text of a number carries no markup, in text and in an attribute. *)
Lemma Number_toString_plain (x : number) :
  plain (Number_toString x) = true.
Proof. apply engine_text_plain, Number_toString_engine. Qed.

Lemma Number_toString_plain_attribute (x : number) :
  plain_attribute (Number_toString x) = true.
Proof. apply engine_text_plain, Number_toString_engine. Qed.

Lemma toFixed_plain (x : number) (f : nat) : plain (toFixed x f) = true.
Proof. apply engine_text_plain, toFixed_engine. Qed.

(** ** Values that carry no markup *)

Lemma val_induction (P : val -> Prop) :
  P Undefined -> P Null -> (forall b, P (Bool b)) -> (forall x, P (Num x)) ->
  (forall s, P (Str s)) ->
  (forall elems, Forall P elems -> P (Arr elems)) ->
  (forall fields, Forall (fun f => P (snd f)) fields -> P (Obj fields)) ->
  forall v, P v.
Proof.
  intros HU HN HB HX HS HA HO. fix IH 1. intros [| |b|x|s|elems|fields].
  - exact HU.
  - exact HN.
  - apply HB.
  - apply HX.
  - apply HS.
  - apply HA. induction elems as [|c cs IHcs]; constructor; [apply IH|exact IHcs].
  - apply HO. induction fields as [|[k c] cs IHcs]; constructor;
      [apply IH|exact IHcs].
Qed.

Section PlainValues.

Variable fault_message : fault -> string.
Variable ok : ascii -> bool.
Hypothesis engine_ok : forall c, engine_char c = true -> ok c = true.

Lemma engine_every (s : string) : every engine_char s = true -> every ok s = true.
Proof. apply every_impl, engine_ok. Qed.

Lemma ToString_array (elems : list val) :
  ToString fault_message (Arr elems) = join fault_message "," elems.
Proof.
  cbn [ToString]. induction elems as [|x l IH]; [reflexivity|].
  cbn [join]. rewrite <- IH. reflexivity.
Qed.

Lemma join_every (sep : string) (l : list val) (s : string) :
  every ok sep = true ->
  Forall (fun v => forall s, ToString fault_message v = Normal s ->
                             every ok s = true) l ->
  join fault_message sep l = Normal s -> every ok s = true.
Proof.
  intros Hsep. revert s. induction l as [|x l IH]; intros s F J.
  - cbn in J. injection J as <-. reflexivity.
  - inversion F as [|? ? Fx Fl]; subst. cbn [join] in J.
    apply bind_normal in J as (a & Ja & J).
    assert (A : every ok a = true).
    { destruct x; try (now apply Fx);
        injection Ja as <-; reflexivity. }
    destruct l as [|y l].
    + injection J as <-. exact A.
    + apply bind_normal in J as (b & Jb & J). injection J as <-.
      rewrite !every_app, A, Hsep. now apply IH.
Qed.

(** The string conversion of a value whose strings are [ok] is [ok]. *)
Lemma ToString_every (v : val) (s : string) :
  strings_all ok v = true -> ToString fault_message v = Normal s ->
  every ok s = true.
Proof.
  revert s. induction v as [| |b|x|t|elems IH|fields IH] using val_induction;
    intros s P T.
  - injection T as <-. now apply engine_every.
  - injection T as <-. now apply engine_every.
  - injection T as <-. apply engine_every. now destruct b.
  - injection T as <-. apply engine_every, Number_toString_engine.
  - injection T as <-. exact P.
  - rewrite ToString_array in T.
    apply (join_every "," elems s); [now apply engine_every| |exact T].
    cbn [strings_all] in P. rewrite forallb_forall in P.
    rewrite Forall_forall in *. intros x Hx s' Hs'.
    apply (IH x Hx); [now apply P|exact Hs'].
  - cbn [ToString] in T. destruct (lookup "toString" fields); [discriminate|].
    injection T as <-. now apply engine_every.
Qed.

Lemma lookup_strings_all (k : string) (fields : list (string * val)) (x : val) :
  forallb (fun f => strings_all ok (snd f)) fields = true ->
  lookup k fields = Some x -> strings_all ok x = true.
Proof.
  induction fields as [|[k' v] fs IH]; [discriminate|]. cbn [forallb lookup snd].
  intros H L. apply andb_true_iff in H as [H1 H2].
  destruct (String.eqb k k'); [congruence|now apply IH].
Qed.

Lemma get_strings_all (v : val) (k : string) :
  strings_all ok v = true -> strings_all ok (get v k) = true.
Proof.
  destruct v; try reflexivity; cbn [get].
  - now destruct (String.eqb k "length").
  - now destruct (String.eqb k "length").
  - cbn [strings_all]. intros H. destruct (lookup k fields) eqn:L; [|reflexivity].
    now apply (lookup_strings_all k fields).
Qed.

Lemma oror_strings_all (a b : val) :
  strings_all ok a = true -> strings_all ok b = true ->
  strings_all ok (oror a b) = true.
Proof. intros. unfold oror. now destruct (truthy a). Qed.

Lemma andand_strings_all (a b : val) :
  strings_all ok a = true -> strings_all ok b = true ->
  strings_all ok (andand a b) = true.
Proof. intros. unfold andand. now destruct (truthy a). Qed.

Lemma with_default_strings_all (a b : val) :
  strings_all ok a = true -> strings_all ok b = true ->
  strings_all ok (with_default a b) = true.
Proof. intros. now destruct a. Qed.

End PlainValues.

Lemma text_char_engine (c : ascii) : engine_char c = true -> text_char c = true.
Proof. intros H. now apply engine_char_plain. Qed.

Lemma value_char_engine (c : ascii) : engine_char c = true -> value_char c = true.
Proof. intros H. now apply engine_char_plain. Qed.

Lemma plain_value_get (v : val) (k : string) :
  plain_value v = true -> plain_value (get v k) = true.
Proof. apply get_strings_all. Qed.

Lemma plain_value_oror (a b : val) :
  plain_value a = true -> plain_value b = true -> plain_value (oror a b) = true.
Proof. apply oror_strings_all. Qed.

Lemma plain_value_andand (a b : val) :
  plain_value a = true -> plain_value b = true -> plain_value (andand a b) = true.
Proof. apply andand_strings_all. Qed.

Lemma plain_value_default (a b : val) :
  plain_value a = true -> plain_value b = true ->
  plain_value (with_default a b) = true.
Proof. apply with_default_strings_all. Qed.

Ltac plain_values :=
  repeat first
    [ assumption | reflexivity
    | apply plain_value_oror | apply plain_value_andand
    | apply plain_value_default | apply plain_value_get ].

Section PlainMarkup.

Variable fault_message : fault -> string.

Lemma ToString_plain (v : val) (s : string) :
  plain_value v = true -> ToString fault_message v = Normal s -> plain s = true.
Proof. apply ToString_every, text_char_engine. Qed.

Lemma text_normal (v : val) (n : node) :
  Template.text fault_message v = Normal n ->
  exists s, ToString fault_message v = Normal s /\ n = Subst s.
Proof.
  unfold Template.text. intros H. apply bind_normal in H as (s & Hs & H).
  exists s. split; [exact Hs|congruence].
Qed.

(** A text substitution of a value that carries no markup is clean. *)
Lemma text_clean (v : val) (n : node) :
  plain_value v = true -> Template.text fault_message v = Normal n ->
  clean n = true.
Proof.
  intros P H. destruct (text_normal v n H) as (s & Hs & ->).
  exact (ToString_plain v s P Hs).
Qed.

Lemma mapM_parts {A B : Type} (f : A -> completion B) (Q : B -> Prop)
    (l : list A) (ys : list B) :
  (forall x y, In x l -> f x = Normal y -> Q y) ->
  mapM f l = Normal ys -> Forall Q ys.
Proof.
  revert ys. induction l as [|x l IH]; intros ys H M.
  - injection M as <-. constructor.
  - cbn [mapM] in M. apply bind_normal in M as (y & Hy & M).
    apply bind_normal in M as (ys' & Hys & M). injection M as <-.
    constructor.
    + apply (H x y); [now left|exact Hy].
    + apply IH; [|exact Hys]. intros x' y' I. apply H. now right.
Qed.

(** What holds of the markup of every item holds of the markup of the
    list. *)
Lemma map_join_parts (callee : string) (xs : val)
    (f : val -> completion fragment) (items : fragment)
    (R : fragment -> Prop) :
  R [] -> (forall a b, R a -> R b -> R (a ++ b)%list) ->
  (forall elems x y, xs = Arr elems -> In x elems -> f x = Normal y -> R y) ->
  Template.map_join fault_message callee xs f = Normal items -> R items.
Proof.
  intros R0 Rapp Rf M. unfold Template.map_join in M.
  destruct xs; try discriminate.
  apply bind_normal in M as (parts & Hp & M). injection M as <-.
  pose proof (mapM_parts f R elems parts
                (fun x y I => Rf elems x y eq_refl I) Hp) as F.
  clear Hp. induction F as [|y ys Hy F IH]; cbn [concat];
    [exact R0|apply Rapp; assumption].
Qed.

Lemma clean_parts :
  forallb clean [] = true /\
  (forall a b : fragment, forallb clean a = true -> forallb clean b = true ->
                          forallb clean (a ++ b)%list = true).
Proof. split; [reflexivity|]. intros a b A B. now rewrite clean_app, A, B. Qed.

Lemma none_parts (sel : node -> bool) :
  select_all sel [] = [] /\
  (forall a b : fragment, select_all sel a = [] -> select_all sel b = [] ->
                          select_all sel (a ++ b)%list = []).
Proof.
  split; [reflexivity|]. intros a b A B. unfold select_all in *.
  now rewrite flat_map_app, A, B.
Qed.

Lemma plain_array_item (elems : list val) (x : val) :
  plain_value (Arr elems) = true -> In x elems -> plain_value x = true.
Proof.
  unfold plain_value. cbn [strings_all]. rewrite forallb_forall. auto.
Qed.

(** The bullets of a list that carries no markup are clean, and none of
    them has a class. *)
Lemma bullets_clean (callee : string) (xs : val) (items : fragment) :
  plain_value xs = true ->
  Template.map_join fault_message callee xs (Template.bullet fault_message)
  = Normal items ->
  forallb clean items = true.
Proof.
  intros P.
  apply (map_join_parts callee xs _ items (fun f => forallb clean f = true));
    try apply clean_parts.
  intros elems x y -> I B. unfold Template.bullet in B.
  apply bind_normal in B as (n & Hn & B). injection B as <-.
  cbn. now rewrite (text_clean x n (plain_array_item elems x P I) Hn).
Qed.

Lemma bullets_classless (callee : string) (xs : val) (items : fragment)
    (c : string) :
  Template.map_join fault_message callee xs (Template.bullet fault_message)
  = Normal items ->
  select_all (has_class c) items = [].
Proof.
  apply (map_join_parts callee xs _ items
           (fun f => select_all (has_class c) f = []));
    try apply none_parts.
  intros elems x y -> I B. unfold Template.bullet in B.
  apply bind_normal in B as (n & Hn & B). injection B as <-.
  destruct (text_normal x n Hn) as (s & _ & ->). reflexivity.
Qed.

End PlainMarkup.
(** ** The score bars *)

(** Comparison of binary64 numbers, through their specification. *)

Lemma SFcompare_positive_antisym (m m' : positive) (e e' : Z) :
  SFcompare (S754_finite false m' e') (S754_finite false m e)
  = option_map CompOpp (SFcompare (S754_finite false m e) (S754_finite false m' e')).
Proof.
  simpl. f_equal. rewrite (Z.compare_antisym e e').
  destruct (e ?= e')%Z; simpl; try reflexivity.
  now rewrite (Pos.compare_cont_antisym m m' Eq).
Qed.

Lemma SFcompare_positive_eq (m m' : positive) (e e' : Z) :
  SFcompare (S754_finite false m e) (S754_finite false m' e') = Some Eq ->
  S754_finite false m e = S754_finite false m' e'.
Proof.
  simpl. intros H. injection H as H.
  destruct (Z.compare_spec e e') as [->| |]; try discriminate.
  apply (Pos.compare_eq m m') in H. now subst.
Qed.

Lemma Prim2SF_ten :
  Prim2SF 10%float = S754_finite false 5629499534213120 (-49).
Proof. vm_compute. reflexivity. Qed.
(** [Math.min(10, Math.max(0, v))] for a [v] that is not [NaN]. *)
Lemma min_max_not_nan (v : number) :
  PrimFloat.is_nan v = false ->
  Math_min [10%float; Math_max [0%float; v]]
  = if PrimFloat.ltb 0%float v
    then (if PrimFloat.ltb v 10%float then v else 10%float)
    else 0%float.
Proof.
  intros Hnan. unfold Math_max, Math_min.
  cbn [max_from].
  change (PrimFloat.is_nan 0%float) with false.
  change (is_neg_zero PrimFloat.neg_infinity) with false.
  change (PrimFloat.ltb PrimFloat.neg_infinity 0%float) with true.
  change (is_neg_zero 0%float) with false.
  rewrite Hnan, !andb_false_r. cbn iota.
  destruct (PrimFloat.ltb 0%float v) eqn:Hpos.
  - cbn [min_from].
    change (PrimFloat.is_nan 10%float) with false.
    change (is_neg_zero 10%float) with false.
    change (PrimFloat.ltb 10%float PrimFloat.infinity) with true.
    change (is_pos_zero 10%float) with false.
    rewrite Hnan, !andb_false_r. cbn [andb]. reflexivity.
  - vm_compute. reflexivity.
Qed.

Lemma float_of_spec (v : number) (s : spec_float) :
  Prim2SF v = s -> v = SF2Prim s.
Proof. intros <-. symmetry. apply FloatAxioms.SF2Prim_Prim2SF. Qed.

Lemma Prim2SF_zero : Prim2SF 0%float = S754_zero false.
Proof. vm_compute. reflexivity. Qed.

(** A number that differs from itself is [NaN]. *)
Lemma is_nan_nan (v : number) : PrimFloat.is_nan v = true -> v = PrimFloat.nan.
Proof.
  unfold PrimFloat.is_nan. rewrite FloatAxioms.eqb_spec. intros H.
  destruct (Prim2SF v) as [s|s| |s m e] eqn:E.
  - now destruct s.
  - now destruct s.
  - now apply float_of_spec in E.
  - exfalso. unfold SFeqb in H. cbn [SFcompare] in H.
    rewrite Z.compare_refl, Pos.compare_cont_refl in H. now destruct s.
Qed.

(** The percentage of a bar is ten times the clamped score. *)
Lemma pct_is_clamp (v : number) :
  Number_toString
    (PrimFloat.mul (Math_min [10%float; Math_max [0%float; v]]) 10%float)
  = Number_toString (PrimFloat.mul (clamp v 0%float 10%float) 10%float).
Proof.
  destruct (PrimFloat.is_nan v) eqn:Hnan.
  { apply is_nan_nan in Hnan. subst v. vm_compute. reflexivity. }
  rewrite (min_max_not_nan v Hnan). unfold clamp.
  rewrite !FloatAxioms.ltb_spec, Prim2SF_zero, Prim2SF_ten.
  destruct (Prim2SF v) as [s|s| |s m e] eqn:E.
  - apply float_of_spec in E. subst v. now destruct s; vm_compute.
  - apply float_of_spec in E. subst v. now destruct s; vm_compute.
  - apply float_of_spec in E. subst v. vm_compute in Hnan. discriminate.
  - destruct s.
    + reflexivity.
    + unfold SFltb at 1 3. cbn [SFcompare].
      unfold SFltb.
      rewrite (SFcompare_positive_antisym m 5629499534213120 e (-49)).
      destruct (SFcompare (S754_finite false m e)
                  (S754_finite false 5629499534213120 (-49)))
        as [[| |]|] eqn:C; cbn [option_map CompOpp].
      * apply SFcompare_positive_eq in C. rewrite C in E.
        rewrite <- Prim2SF_ten in E. apply FloatAxioms.Prim2SF_inj in E.
        now subst v.
      * reflexivity.
      * reflexivity.
      * cbn [SFcompare] in C. discriminate C.
Qed.

Lemma select_all_app (sel : node -> bool) (f g : fragment) :
  select_all sel (f ++ g)%list = (select_all sel f ++ select_all sel g)%list.
Proof. unfold select_all. apply flat_map_app. Qed.

Lemma select_all_cons (sel : node -> bool) (n : node) (f : fragment) :
  select_all sel (n :: f) = (select sel n ++ select_all sel f)%list.
Proof. reflexivity. Qed.

(** The row of a score: clean, and with one bar when the score is a
    number. *)
Lemma width_plain (x : number) :
  plain_attribute ("width:" ++ Number_toString x ++ "%;") = true.
Proof.
  unfold plain_attribute. rewrite !every_app.
  fold (plain_attribute (Number_toString x)).
  now rewrite Number_toString_plain_attribute.
Qed.

Lemma A_scoreRow_clean (label help : string) (v : val) :
  plain label = true -> plain_attribute help = true ->
  forallb clean (A.scoreRow (label, v, help)) = true.
Proof.
  intros L H. unfold A.scoreRow. destruct v; try reflexivity.
  cbn [forallb clean el snd]. now rewrite L, H, toFixed_plain, width_plain.
Qed.

Lemma A_scoreRow_bar (label help : string) (v : val) :
  map style_of (select_all (has_class "score-bar-fill") (A.scoreRow (label, v, help)))
  = bar_widths [v].
Proof.
  unfold A.scoreRow, bar_widths. destruct v; try reflexivity.
  cbn [flat_map app]. unfold bar_width, A.pct. rewrite (pct_is_clamp x).
  generalize (Number_toString (PrimFloat.mul (clamp x 0%float 10%float) 10%float)).
  generalize (toFixed x 1). intros t w. reflexivity.
Qed.

Lemma bar_widths_cons (v : val) (l : list val) :
  bar_widths (v :: l) = (bar_widths [v] ++ bar_widths l)%list.
Proof. unfold bar_widths. cbn [flat_map]. now rewrite app_nil_r. Qed.

(** The bars of a list of rows: one per score that is a number, each as
    wide as [clamp(v, 0, 10) * 10] percent. *)
Lemma rows_bars (rows : list (string * val * string)) :
  map style_of
    (select_all (has_class "score-bar-fill") (flat_map A.scoreRow rows))
  = bar_widths (map (fun row => snd (fst row)) rows).
Proof.
  induction rows as [|[[label v] help] rows IH]; [reflexivity|].
  cbn [flat_map map fst snd]. rewrite select_all_app, map_app, IH.
  rewrite A_scoreRow_bar. symmetry. apply bar_widths_cons.
Qed.

Lemma rows_clean (rows : list (string * val * string)) :
  forallb (fun row => plain (fst (fst row)) && plain_attribute (snd row)) rows
  = true ->
  forallb clean (flat_map A.scoreRow rows) = true.
Proof.
  induction rows as [|[[label v] help] rows IH]; [reflexivity|].
  cbn [forallb flat_map fst snd]. intros H. apply andb_true_iff in H as [H1 H2].
  apply andb_true_iff in H1 as [L H1].
  now rewrite clean_app, (A_scoreRow_clean label help v L H1), IH.
Qed.

Lemma bars_select (rows : fragment) :
  select_all (has_class "score-bar-fill") [el "div" "score-bars" rows]
  = select_all (has_class "score-bar-fill") rows.
Proof. unfold select_all at 1. cbn [flat_map]. now rewrite app_nil_r. Qed.

(** The container of the bars of the current script. *)
Lemma A_score_bars_clean (score_matrix : val) :
  forallb clean (A.score_bars score_matrix) = true.
Proof.
  unfold A.score_bars. cbn [forallb clean el snd]. rewrite rows_clean; reflexivity.
Qed.

Lemma A_score_bars_widths (score_matrix : val) :
  bar_styles (A.score_bars score_matrix) = bar_widths (bar_scores_A score_matrix).
Proof.
  unfold bar_styles. rewrite (known_clean _ _ (A_score_bars_clean score_matrix)).
  unfold A.score_bars. rewrite bars_select.
  rewrite rows_bars. reflexivity.
Qed.

Lemma B_score_bars_clean (scores canonical_score : val) :
  forallb clean (B.score_bars scores canonical_score) = true.
Proof.
  unfold B.score_bars. cbn [forallb clean el snd].
  change B.scoreRow with A.scoreRow. rewrite rows_clean; reflexivity.
Qed.

Lemma B_score_bars_widths (ev : val) :
  bar_styles (B.score_bars (oror (get ev "scores") (Obj [])) (get ev "canonical_score"))
  = bar_widths (bar_scores_B ev).
Proof.
  unfold bar_styles. rewrite (known_clean _ _ (B_score_bars_clean _ _)).
  unfold B.score_bars. rewrite bars_select.
  change B.scoreRow with A.scoreRow. rewrite rows_bars.
  unfold B.scoreRows, bar_scores_B. cbn [map fst snd app].
  rewrite !get_oror_object by reflexivity. reflexivity.
Qed.

(** ** The evaluation card *)

Section Evaluation.

Variable fault_message : fault -> string.
Variable StringToNumber : string -> number.

Lemma destructure_normal (v v' : val) (k : string) :
  destructure fault_message v k = Normal v' -> v' = v.
Proof. destruct v; simpl; congruence. Qed.

Lemma read_normal (v v' : val) (k : string) :
  read fault_message v k = Normal v' -> v' = get v k.
Proof. destruct v; simpl; congruence. Qed.

(** When the template of the current script completes, the card is the
    verdict pill, then the head, then the score bars, then the tail. *)
Lemma A_evaluation_template_normal (ctx : val) (html : fragment) :
  A.evaluation_template fault_message StringToNumber ctx = Normal html ->
  exists pill head tail,
    A.verdict_pill fault_message StringToNumber
      (with_default (get (get ctx "executive_summary") "verdict") (Str EmptyString))
      (with_default (get (get ctx "score_matrix") "final_score") (Num 0%float))
    = Normal pill /\
    A.evaluation_head fault_message
      (oror (get (get ctx "page_metadata") "url") (Str EmptyString))
      (with_default (get (get ctx "executive_summary") "main_issue")
         (Str EmptyString))
      (with_default (get (get ctx "executive_summary") "top_3_fixes") (Arr []))
      (with_default
         (get (get ctx "executive_summary") "overall_llm_readiness_score")
         (Num 0%float))
      (with_default (get (get ctx "fanout_query_analysis") "coverage_score")
         (Num 0%float))
      (with_default (get (get ctx "eeat_block") "score") (Num 0%float))
    = Normal head /\
    html = (pill ++ head ++
            A.score_bars (with_default (get ctx "score_matrix") (Obj [])) ++
            tail)%list.
Proof.
  unfold A.evaluation_template. intros H.
  rewrite !get_oror_object in H by reflexivity.
  repeat (let a := fresh "a" in
          let Ha := fresh "Ha" in
          apply bind_normal in H; destruct H as (a & Ha & H);
          try (apply destructure_normal in Ha; subst a)).
  apply read_normal in Ha. subst a.
  rewrite !get_with_default_object in *.
  exists a0, a1, a2. split; [exact Ha0|]. split; [exact Ha1|congruence].
Qed.

(** The verdict pill, when its template completes. *)
Lemma A_verdict_pill_normal (verdict final_score : val) (pill : fragment) :
  A.verdict_pill fault_message StringToNumber verdict final_score = Normal pill ->
  exists shown ready,
    ToString fault_message (oror verdict (Str "—")) = Normal shown /\
    ge fault_message StringToNumber final_score 60%float = Normal ready /\
    pill =
      [el "div" (A.verdictClass verdict)
         [Element "span" [] [Text "Verdict: "; Element "strong" [] [Subst shown]];
          Element "span"
            [("class", "llm-ready-flag");
             ("title", "If 'Yes', this page is in a decent state for AI-powered search.")]
            [Text "LLM-ready: "; Subst (if ready then "Yes" else "No")]]].
Proof.
  unfold A.verdict_pill. intros H.
  invert_bind H. invert_bind H.
  destruct (text_normal _ _ _ Ha) as (shown & S & ->).
  exists shown, a0. repeat split; try assumption.
  congruence.
Qed.

Lemma B_verdict_pill_normal (verdict llm_ready : val) (pill : fragment) :
  B.verdict_pill fault_message verdict llm_ready = Normal pill ->
  exists shown,
    ToString fault_message (oror verdict (Str "—")) = Normal shown /\
    pill =
      [el "div" (B.verdictClass verdict)
         [Element "span" [] [Text "Verdict: "; Element "strong" [] [Subst shown]];
          Element "span"
            [("class", "llm-ready-flag");
             ("title", "If 'Yes', this page is in a decent state for AI-powered search.")]
            [Text "LLM-ready: ";
             Subst (if truthy llm_ready then "Yes" else "No")]]].
Proof.
  unfold B.verdict_pill. intros H.
  invert_bind H. destruct (text_normal _ _ _ Ha) as (shown & S & ->).
  exists shown. split; [assumption|congruence].
Qed.

Lemma B_evaluation_template_normal (ev : val) (html : fragment) :
  B.evaluation_template fault_message ev = Normal html ->
  exists pill head tail,
    B.verdict_pill fault_message (get ev "verdict") (get ev "llm_ready")
    = Normal pill /\
    B.evaluation_head fault_message
      (with_default (get (get ev "scores") "overall") (Num 0%float))
      (get ev "canonical_score")
    = Normal head /\
    html = (pill ++ head ++
            B.score_bars (oror (get ev "scores") (Obj [])) (get ev "canonical_score") ++
            tail)%list.
Proof.
  unfold B.evaluation_template. intros H.
  invert_bind H. invert_bind H. invert_bind H.
  rewrite get_oror_object in Ha0 by reflexivity.
  exists a, a0, a1. split; [assumption|]. split; [assumption|congruence].
Qed.

Lemma select_class_element (c t cls : string) (children : fragment) :
  select (has_class c) (Element t [("class", cls)] children)
  = ((if String.eqb c cls then [Element t [("class", cls)] children] else [])
     ++ flat_map (select (has_class c)) children)%list.
Proof. reflexivity. Qed.

(** What the pill shows, whatever follows it in the card: its class; the
    verdict, when that is text; and the flag, when the verdict before it is
    text. *)
Lemma pill_first (cls shown answer : string) (rest : fragment) :
  cls = good \/ cls = poor ->
  let html :=
    (el "div" cls
       [Element "span" [] [Text "Verdict: "; Element "strong" [] [Subst shown]];
        Element "span"
          [("class", "llm-ready-flag");
           ("title", "If 'Yes', this page is in a decent state for AI-powered search.")]
          [Text "LLM-ready: "; Subst answer]] :: rest) in
  verdict_class html = Some cls /\
  verdict_text html = (if plain shown then Some shown else None) /\
  (plain shown = true -> plain answer = true ->
   llm_ready_flag html = Some ("LLM-ready: " ++ answer)).
Proof.
  intros Hc html. subst html.
  unfold verdict_class, verdict_text, llm_ready_flag, first_text, first_node,
    known.
  rewrite !scan_all_cons.
  split; [reflexivity|].
  destruct Hc as [-> | ->]; unfold good, poor, el;
    (split;
     [ read_markup; destruct (plain shown) eqn:P; read_markup;
       try (match goal with
            | |- context [fst (then_ (?x :: ?l, ?ok) ?b)] =>
                destruct (then_first x l ok b) as [r ->]
            end);
       read_markup; rewrite ?P; read_markup; rewrite ?append_empty;
       reflexivity
     | intros P Q; repeat (read_markup; rewrite ?P, ?Q);
       now rewrite append_empty ]).
Qed.

Lemma fill_normal (r : ref) (tpl : completion fragment) (p p' : page) (e : element) :
  p r = Some e -> fill r tpl p = (Normal tt, p') ->
  exists html, tpl = Normal html /\ p' = assign r (set_innerHTML html e) p /\
               markup r p' = Some html.
Proof.
  intros He. unfold fill, write_innerHTML. rewrite He.
  destruct tpl as [html|err]; [|discriminate].
  intros H. injection H as <-. exists html. repeat split.
  unfold markup. now rewrite assign_same.
Qed.

Lemma A_renderEvaluation_normal (ctx : val) (p p' : page) (e : element) :
  p evaluationContent = Some e ->
  A.renderEvaluation fault_message StringToNumber ctx p = (Normal tt, p') ->
  exists html,
    A.evaluation_template fault_message StringToNumber ctx = Normal html /\
    markup evaluationContent p' = Some html.
Proof.
  intros He H. unfold A.renderEvaluation in H.
  destruct (fill_normal _ _ _ _ _ He H) as (html & H1 & _ & H2). eauto.
Qed.

Lemma B_renderEvaluation_normal (ev : val) (p p' : page) (e : element) :
  p evaluationContent = Some e -> truthy ev = true ->
  B.renderEvaluation fault_message ev p = (Normal tt, p') ->
  exists html,
    B.evaluation_template fault_message ev = Normal html /\
    markup evaluationContent p' = Some html.
Proof.
  intros He Hev H. unfold B.renderEvaluation in H. rewrite Hev in H.
  destruct (fill_normal _ _ _ _ _ He H) as (html & H1 & _ & H2). eauto.
Qed.

Lemma A_verdictClass_cases (verdict : val) :
  A.verdictClass verdict = good \/ A.verdictClass verdict = poor.
Proof. unfold A.verdictClass. destruct (_ || _); auto. Qed.

Lemma B_verdictClass_cases (verdict : val) :
  B.verdictClass verdict = good \/ B.verdictClass verdict = poor.
Proof. unfold B.verdictClass. destruct (_ || _); auto. Qed.

Lemma A_verdictClass_string (v : string) :
  A.verdictClass (Str v) = if in_dec string_dec v positive_A then good else poor.
Proof.
  unfold A.verdictClass, strict_eq, positive_A.
  destruct (in_dec string_dec v ["Ready"; "Partially Ready"]) as [I|N].
  - destruct I as [<-|[<-|[]]]; reflexivity.
  - destruct (String.eqb_spec v "Ready") as [->|_]; [exfalso; apply N; now left|].
    destruct (String.eqb_spec v "Partially Ready") as [->|_];
      [exfalso; apply N; right; now left|reflexivity].
Qed.

Lemma B_verdictClass_string (v : string) :
  B.verdictClass (Str v) = if in_dec string_dec v positive_B then good else poor.
Proof.
  unfold B.verdictClass, strict_eq, positive_B.
  destruct (in_dec string_dec v ["excellent"; "good"]) as [I|N].
  - destruct I as [<-|[<-|[]]]; reflexivity.
  - destruct (String.eqb_spec v "excellent") as [->|_]; [exfalso; apply N; now left|].
    destruct (String.eqb_spec v "good") as [->|_];
      [exfalso; apply N; right; now left|reflexivity].
Qed.

Lemma answer_plain (b : bool) : plain (if b then "Yes" else "No") = true.
Proof. now destruct b. Qed.

(** The card of the current script: what its pill shows. *)
Lemma A_card_pill (ctx : val) (p p' : page) (e : element) :
  p evaluationContent = Some e ->
  A.renderEvaluation fault_message StringToNumber ctx p = (Normal tt, p') ->
  let verdict :=
    with_default (get (get ctx "executive_summary") "verdict") (Str EmptyString) in
  let final_score :=
    with_default (get (get ctx "score_matrix") "final_score") (Num 0%float) in
  exists card shown ready,
    markup evaluationContent p' = Some card /\
    ToString fault_message (oror verdict (Str "—")) = Normal shown /\
    ge fault_message StringToNumber final_score 60%float = Normal ready /\
    verdict_class card = Some (A.verdictClass verdict) /\
    verdict_text card = (if plain shown then Some shown else None) /\
    (plain shown = true ->
     llm_ready_flag card = Some ("LLM-ready: " ++ (if ready then "Yes" else "No"))).
Proof.
  intros He H verdict final_score.
  destruct (A_renderEvaluation_normal ctx p p' e He H) as (card & T & M).
  destruct (A_evaluation_template_normal ctx card T)
    as (pill & hd & tl & P & _ & ->).
  destruct (A_verdict_pill_normal _ _ _ P) as (shown & ready & S & R & ->).
  eexists. exists shown, ready. split; [exact M|]. split; [exact S|]. split; [exact R|].
  destruct (pill_first (A.verdictClass verdict) shown (if ready then "Yes" else "No")
              (hd ++ A.score_bars (with_default (get ctx "score_matrix") (Obj [])) ++ tl)%list
              (A_verdictClass_cases verdict)) as (C & V & F).
  split; [exact C|]. split; [exact V|].
  intros Ps. apply F; [exact Ps|apply answer_plain].
Qed.

Lemma B_card_pill (ev : val) (p p' : page) (e : element) :
  p evaluationContent = Some e -> truthy ev = true ->
  B.renderEvaluation fault_message ev p = (Normal tt, p') ->
  exists card shown,
    markup evaluationContent p' = Some card /\
    ToString fault_message (oror (get ev "verdict") (Str "—")) = Normal shown /\
    verdict_class card = Some (B.verdictClass (get ev "verdict")) /\
    verdict_text card = (if plain shown then Some shown else None) /\
    (plain shown = true ->
     llm_ready_flag card
     = Some ("LLM-ready: " ++ (if truthy (get ev "llm_ready") then "Yes" else "No"))).
Proof.
  intros He Hev H.
  destruct (B_renderEvaluation_normal ev p p' e He Hev H) as (card & T & M).
  destruct (B_evaluation_template_normal ev card T)
    as (pill & hd & tl & P & _ & ->).
  destruct (B_verdict_pill_normal _ _ _ P) as (shown & S & ->).
  eexists. exists shown. split; [exact M|]. split; [exact S|].
  destruct (pill_first (B.verdictClass (get ev "verdict")) shown
              (if truthy (get ev "llm_ready") then "Yes" else "No")
              (hd ++ B.score_bars (oror (get ev "scores") (Obj []))
                       (get ev "canonical_score") ++ tl)%list
              (B_verdictClass_cases _)) as (C & V & F).
  split; [exact C|]. split; [exact V|].
  intros Ps. apply F; [exact Ps|apply answer_plain].
Qed.

End Evaluation.

(** ** What the card shows before its score bars *)

Section BeforeBars.

Variable fault_message : fault -> string.
Variable StringToNumber : string -> number.

Lemma A_when_normal (cond : bool) (markup : completion fragment) (x : fragment) :
  A.when cond markup = Normal x ->
  (cond = true /\ markup = Normal x) \/ (cond = false /\ x = []).
Proof. destruct cond; cbn; intros H; [now left|right]. split; congruence. Qed.

Lemma A_bullet_section_normal (callee : string) (xs : val)
    (heading fx : fragment) :
  A.bullet_section fault_message callee xs heading = Normal fx ->
  fx = [] \/
  exists items,
    Template.map_join fault_message callee xs (Template.bullet fault_message)
    = Normal items /\
    fx = (heading ++ [el "ul" "list" items])%list.
Proof.
  unfold A.bullet_section. intros H. invert_bind H.
  apply A_when_normal in H as [[_ H]|[_ ->]]; [|now left].
  invert_bind H. right. exists a0. split; [exact Ha0|congruence].
Qed.

Lemma A_bullet_section_clean (callee : string) (xs : val)
    (heading fx : fragment) :
  plain_value xs = true -> forallb clean heading = true ->
  A.bullet_section fault_message callee xs heading = Normal fx ->
  forallb clean fx = true.
Proof.
  intros P C H.
  apply A_bullet_section_normal in H as [->|(items & I & ->)]; [reflexivity|].
  rewrite clean_app, C. cbn [forallb clean el snd andb].
  now rewrite (bullets_clean fault_message callee xs items P I).
Qed.

Lemma A_bullet_section_none (callee : string) (xs : val)
    (heading fx : fragment) (c : string) :
  String.eqb c "list" = false -> select_all (has_class c) heading = [] ->
  A.bullet_section fault_message callee xs heading = Normal fx ->
  select_all (has_class c) fx = [].
Proof.
  intros Hc N H.
  apply A_bullet_section_normal in H as [->|(items & I & ->)]; [reflexivity|].
  rewrite select_all_app, N. unfold select_all at 1. cbn [flat_map app].
  unfold el. rewrite select_class_element, Hc. cbn [app].
  rewrite app_nil_r. exact (bullets_classless fault_message callee xs items c I).
Qed.

Lemma A_toFixed_or_self_clean (callee : string) (x : val) (n : node) :
  plain_value x = true ->
  A.toFixed_or_self fault_message callee x = Normal n -> clean n = true.
Proof.
  intros P. unfold A.toFixed_or_self.
  destruct x; try discriminate; try (now apply text_clean).
  - intros H. injection H as <-. apply toFixed_plain.
  - destruct (truthy _); [discriminate|now apply text_clean].
Qed.

Lemma A_toFixed_or_self_normal (callee : string) (x : val) (n : node) :
  A.toFixed_or_self fault_message callee x = Normal n -> exists s, n = Subst s.
Proof.
  unfold A.toFixed_or_self. intros H.
  assert (T : forall v, Template.text fault_message v = Normal n ->
                        exists s, n = Subst s).
  { intros v Hv. destruct (text_normal _ _ _ Hv) as (s & _ & ->). eauto. }
  destruct x; try discriminate; eauto.
  - injection H as <-. eauto.
  - destruct (truthy _); [discriminate|eauto].
Qed.

(** The head of the card of the current script, when what it shows carries
    no markup: it is clean, and the container of the score bars is not in
    it. *)
Lemma A_evaluation_head_clean
    (url main_issue top_3_fixes overall coverage eeat : val) (head : fragment) :
  plain_value url = true -> plain_value main_issue = true ->
  plain_value top_3_fixes = true -> plain_value overall = true ->
  plain_value coverage = true -> plain_value eeat = true ->
  A.evaluation_head fault_message url main_issue top_3_fixes overall coverage eeat
  = Normal head ->
  forallb clean head = true /\ select_all (has_class "score-bars") head = [].
Proof.
  intros P1 P2 P3 P4 P5 P6 H. unfold A.evaluation_head in H.
  apply bind_normal in H as (w & Hw & H).
  apply bind_normal in H as (issue & Hi & H).
  apply bind_normal in H as (fixes & Hf & H).
  apply bind_normal in H as (o & Ho & H).
  apply bind_normal in H as (c & Hc & H).
  apply bind_normal in H as (t & Ht & H).
  injection H as <-.
  assert (Cw : clean w = true).
  { eapply text_clean; [|exact Hw]. plain_values. }
  assert (Co : clean o = true) by apply (text_clean fault_message _ _ P4 Ho).
  assert (Cc : clean c = true)
    by apply (A_toFixed_or_self_clean _ _ _ P5 Hc).
  assert (Ct : clean t = true) by apply (text_clean fault_message _ _ P6 Ht).
  assert (Ci : forallb clean issue = true /\
               select_all (has_class "score-bars") issue = []).
  { apply A_when_normal in Hi as [[_ Hi]|[_ ->]]; [|now split].
    apply bind_normal in Hi as (s & Hs & Hi). injection Hi as <-.
    split; [|now destruct (text_normal _ _ _ Hs) as (s' & _ & ->)].
    cbn [forallb clean el snd andb].
    now rewrite (text_clean fault_message _ _ P2 Hs). }
  destruct Ci as [Ci Ni].
  assert (Cf : forallb clean fixes = true)
    by (eapply A_bullet_section_clean; [exact P3| |exact Hf]; reflexivity).
  assert (Nf : select_all (has_class "score-bars") fixes = [])
    by (eapply A_bullet_section_none; [| |exact Hf]; reflexivity).
  destruct (text_normal _ _ _ Hw) as (sw & _ & ->).
  destruct (text_normal _ _ _ Ho) as (so & _ & ->).
  destruct (text_normal _ _ _ Ht) as (st & _ & ->).
  destruct (A_toFixed_or_self_normal _ _ _ Hc) as (sc & ->).
  split.
  - cbn [clean] in Cw, Co, Cc, Ct. cbn [forallb]. rewrite !clean_app, Ci, Cf.
    cbn [forallb clean el snd andb]. rewrite Cw, Co, Cc, Ct. reflexivity.
  - rewrite select_all_cons, !select_all_app, Ni, Nf. reflexivity.
Qed.

Lemma B_evaluation_head_clean (overall canonical_score : val) (head : fragment) :
  plain_value overall = true ->
  B.evaluation_head fault_message overall canonical_score = Normal head ->
  forallb clean head = true /\ select_all (has_class "score-bars") head = [].
Proof.
  intros P H. unfold B.evaluation_head in H.
  apply bind_normal in H as (o & Ho & H). injection H as <-.
  pose proof (text_clean fault_message _ _ P Ho) as Co.
  destruct (text_normal _ _ _ Ho) as (so & _ & ->). cbn [clean] in Co.
  split.
  - destruct canonical_score; cbn [forallb clean el snd andb app];
      rewrite Co, ?Number_toString_plain; reflexivity.
  - now destruct canonical_score.
Qed.

(** The pill, when the verdict it shows is text. *)
Lemma pill_clean (cls shown answer : string) :
  cls = good \/ cls = poor -> plain shown = true -> plain answer = true ->
  let pill :=
    [el "div" cls
       [Element "span" [] [Text "Verdict: "; Element "strong" [] [Subst shown]];
        Element "span"
          [("class", "llm-ready-flag");
           ("title", "If 'Yes', this page is in a decent state for AI-powered search.")]
          [Text "LLM-ready: "; Subst answer]]] in
  forallb clean pill = true /\ select_all (has_class "score-bars") pill = [].
Proof.
  intros Hc P Q pill. subst pill.
  destruct Hc as [-> | ->]; unfold good, poor;
    (split; [cbn [forallb clean el snd andb]; now rewrite P, Q|reflexivity]).
Qed.

(** The card of the current script, when what it shows before the score
    bars carries no markup: what is known of it begins with what is in the
    pill, the head and the bars. *)
Lemma A_card_bars (ctx : val) (p p' : page) (e : element) :
  p evaluationContent = Some e ->
  A.renderEvaluation fault_message StringToNumber ctx p = (Normal tt, p') ->
  forallb plain_value (shown_before_bars_A ctx) = true ->
  exists card before tail,
    markup evaluationContent p' = Some card /\
    card = (before ++ A.score_bars (with_default (get ctx "score_matrix") (Obj []))
            ++ tail)%list /\
    forallb clean before = true /\
    select_all (has_class "score-bars") before = [].
Proof.
  intros He H P.
  destruct (A_renderEvaluation_normal _ _ ctx p p' e He H) as (card & T & M).
  destruct (A_evaluation_template_normal _ _ ctx card T)
    as (pill & hd & tl & Hp & Hh & ->).
  destruct (A_verdict_pill_normal _ _ _ _ _ Hp) as (shown & ready & S & R & ->).
  unfold shown_before_bars_A in P. cbn [forallb] in P.
  repeat (apply andb_true_iff in P as [?P P]).
  assert (Ps : plain shown = true).
  { eapply ToString_plain; [|exact S]. plain_values. }
  destruct (pill_clean _ shown (if ready then "Yes" else "No")
              (A_verdictClass_cases
                 (with_default (get (get ctx "executive_summary") "verdict")
                    (Str EmptyString)))
              Ps (answer_plain ready)) as [Cp Np].
  assert (Hd : forallb clean hd = true /\
               select_all (has_class "score-bars") hd = []).
  { eapply A_evaluation_head_clean; [| | | | | |exact Hh]; plain_values. }
  destruct Hd as [Ch Nh].
  eexists. eexists. exists tl. split; [exact M|].
  split; [now rewrite <- app_assoc|].
  split; [now rewrite clean_app, Cp, Ch|].
  now rewrite select_all_app, Np, Nh.
Qed.

Lemma B_card_bars (ev : val) (p p' : page) (e : element) :
  p evaluationContent = Some e -> truthy ev = true ->
  B.renderEvaluation fault_message ev p = (Normal tt, p') ->
  forallb plain_value (shown_before_bars_B ev) = true ->
  exists card before tail,
    markup evaluationContent p' = Some card /\
    card = (before ++
            B.score_bars (oror (get ev "scores") (Obj [])) (get ev "canonical_score")
            ++ tail)%list /\
    forallb clean before = true /\
    select_all (has_class "score-bars") before = [].
Proof.
  intros He Hev H P.
  destruct (B_renderEvaluation_normal _ ev p p' e He Hev H) as (card & T & M).
  destruct (B_evaluation_template_normal _ ev card T)
    as (pill & hd & tl & Hp & Hh & ->).
  destruct (B_verdict_pill_normal _ _ _ _ Hp) as (shown & S & ->).
  unfold shown_before_bars_B in P. cbn [forallb] in P.
  repeat (apply andb_true_iff in P as [?P P]).
  assert (Ps : plain shown = true).
  { eapply ToString_plain; [|exact S]. plain_values. }
  destruct (pill_clean _ shown (if truthy (get ev "llm_ready") then "Yes" else "No")
              (B_verdictClass_cases (get ev "verdict")) Ps (answer_plain _))
    as [Cp Np].
  assert (Hd : forallb clean hd = true /\
               select_all (has_class "score-bars") hd = []).
  { eapply B_evaluation_head_clean; [|exact Hh]; plain_values. }
  destruct Hd as [Ch Nh].
  eexists. eexists. exists tl. split; [exact M|].
  split; [now rewrite <- app_assoc|].
  split; [now rewrite clean_app, Cp, Ch|].
  now rewrite select_all_app, Np, Nh.
Qed.

(** In such a card the container of the score bars is known, with its
    bars. *)
Lemma bars_known (before tail rows : fragment) :
  forallb clean before = true ->
  select_all (has_class "score-bars") before = [] ->
  forallb clean [el "div" "score-bars" rows] = true ->
  score_bars_of (before ++ [el "div" "score-bars" rows] ++ tail)%list
  = Some (el "div" "score-bars" rows).
Proof.
  intros C N Cb. unfold score_bars_of, first_node.
  rewrite (known_app_clean _ _ _ C), N.
  rewrite (known_app_clean _ _ _ Cb). cbn [app].
  unfold select_all at 1. cbn [flat_map]. unfold el at 1.
  rewrite select_class_element. cbn [String.eqb Ascii.eqb Bool.eqb app].
  cbn [forallb] in Cb. apply andb_true_iff in Cb as [Cb _].
  unfold el in Cb. now rewrite Cb.
Qed.

End BeforeBars.

Section Bars.

Variable fault_message : fault -> string.
Variable StringToNumber : string -> number.

(** C3.  Whenever the evaluation card is rendered and what it shows before
    its score bars carries no markup, the card holds the container of the
    score bars, and the bars in it are those of the scores that are numbers,
    in the order of the rows, each as wide as [clamp(v, 0, 10) * 10]
    percent: the product as the script computes it, in binary64, written as
    the script writes numbers.  A score below 0 gives 0%, one above 10 gives
    100%.  The scores are the eight fields of [score_matrix] in the current
    script, and the six fields of [scores] and [canonical_score] in the one
    under backup/. *)
Theorem bar_width_is_clamped (ctx ev : val) (p p' q q' : page) (e e' : element) :
  p evaluationContent = Some e ->
  A.renderEvaluation fault_message StringToNumber ctx p = (Normal tt, p') ->
  forallb plain_value (shown_before_bars_A ctx) = true ->
  q evaluationContent = Some e' ->
  truthy ev = true ->
  B.renderEvaluation fault_message ev q = (Normal tt, q') ->
  forallb plain_value (shown_before_bars_B ev) = true ->
  exists card bars cardb barsb,
    markup evaluationContent p' = Some card /\
    score_bars_of card = Some bars /\
    bar_styles [bars] = bar_widths (bar_scores_A (get ctx "score_matrix")) /\
    markup evaluationContent q' = Some cardb /\
    score_bars_of cardb = Some barsb /\
    bar_styles [barsb] = bar_widths (bar_scores_B ev).
Proof.
  intros He H P He' Hev H' P'.
  destruct (A_card_bars fault_message StringToNumber ctx p p' e He H P)
    as (card & before & tl & M & -> & C & N).
  destruct (B_card_bars fault_message ev q q' e' He' Hev H' P')
    as (cardb & beforeb & tlb & Mb & -> & Cb & Nb).
  eexists. eexists. eexists. eexists.
  split; [exact M|].
  split; [apply (bars_known _ _ _ C N), A_score_bars_clean|].
  split.
  { change (bar_styles (A.score_bars (with_default (get ctx "score_matrix") (Obj [])))
            = bar_widths (bar_scores_A (get ctx "score_matrix"))).
    rewrite A_score_bars_widths. unfold bar_scores_A. cbn [map].
    now rewrite !get_with_default_object. }
  split; [exact Mb|].
  split; [apply (bars_known _ _ _ Cb Nb), B_score_bars_clean|].
  apply (B_score_bars_widths ev).
Qed.

End Bars.

Section Verdict.

Variable fault_message : fault -> string.
Variable StringToNumber : string -> number.

(** C4.  Whenever the evaluation card is rendered: a verdict in the
    positive set ([Ready], [Partially Ready] in the current script;
    [excellent], [good] in the one under backup/) gives the pill the positive
    class and is shown as it is; any other string gives the negative class;
    an absent verdict gives the negative class and is shown as a dash. *)
Theorem verdict_styling (ctx ev : val) (p p' q q' : page) (e e' : element) :
  p evaluationContent = Some e ->
  A.renderEvaluation fault_message StringToNumber ctx p = (Normal tt, p') ->
  q evaluationContent = Some e' ->
  truthy ev = true ->
  B.renderEvaluation fault_message ev q = (Normal tt, q') ->
  exists card cardb,
    markup evaluationContent p' = Some card /\
    markup evaluationContent q' = Some cardb /\
    (forall v, get (get ctx "executive_summary") "verdict" = Str v ->
       (In v positive_A ->
          verdict_class card = Some good /\ verdict_text card = Some v) /\
       (~ In v positive_A -> verdict_class card = Some poor)) /\
    (get (get ctx "executive_summary") "verdict" = Undefined ->
       verdict_class card = Some poor /\ verdict_text card = Some "—") /\
    (forall v, get ev "verdict" = Str v ->
       (In v positive_B ->
          verdict_class cardb = Some good /\ verdict_text cardb = Some v) /\
       (~ In v positive_B -> verdict_class cardb = Some poor)) /\
    (get ev "verdict" = Undefined ->
       verdict_class cardb = Some poor /\ verdict_text cardb = Some "—").
Proof.
  intros He H He' Hev H'.
  destruct (A_card_pill fault_message StringToNumber ctx p p' e He H)
    as (card & shown & ready & M & S & _ & C & T & _).
  destruct (B_card_pill fault_message ev q q' e' He' Hev H')
    as (cardb & shownb & Mb & Sb & Cb & Tb & _).
  exists card, cardb. split; [exact M|]. split; [exact Mb|].
  rewrite C, T, Cb, Tb. clear C T Cb Tb M Mb.
  split.
  { intros v Hv. rewrite Hv in *. cbn [with_default] in *.
    rewrite A_verdictClass_string. split.
    - intros I. destruct (in_dec string_dec v positive_A); [|contradiction].
      split; [reflexivity|].
      destruct I as [<-|[<-|[]]]; cbn in S; injection S as <-; reflexivity.
    - intros N. now destruct (in_dec string_dec v positive_A). }
  split.
  { intros Hv. rewrite Hv in *. cbn in S. injection S as <-.
    split; reflexivity. }
  split.
  { intros v Hv. rewrite Hv in *. rewrite B_verdictClass_string. split.
    - intros I. destruct (in_dec string_dec v positive_B); [|contradiction].
      split; [reflexivity|].
      destruct I as [<-|[<-|[]]]; cbn in Sb; injection Sb as <-; reflexivity.
    - intros N. now destruct (in_dec string_dec v positive_B). }
  intros Hv. rewrite Hv in *. cbn in Sb. injection Sb as <-.
  split; reflexivity.
Qed.

(** C6.  Whenever the evaluation card is rendered and the verdict, which the
    pill shows before the flag, carries no markup, the LLM-ready flag is
    decided without regard to the verdict.  In the current script it reads
    [Yes] exactly when [score_matrix.final_score], a number, is at least 60,
    and [No] when the score is absent.  In the script under backup/ it reads
    [Yes] exactly when the boolean [llm_ready] is true. *)
Theorem llm_ready_flag_policy (ctx ev : val) (p p' q q' : page) (e e' : element) :
  p evaluationContent = Some e ->
  A.renderEvaluation fault_message StringToNumber ctx p = (Normal tt, p') ->
  plain_value (get (get ctx "executive_summary") "verdict") = true ->
  q evaluationContent = Some e' ->
  truthy ev = true ->
  B.renderEvaluation fault_message ev q = (Normal tt, q') ->
  plain_value (get ev "verdict") = true ->
  exists card cardb,
    markup evaluationContent p' = Some card /\
    markup evaluationContent q' = Some cardb /\
    (forall x, get (get ctx "score_matrix") "final_score" = Num x ->
       llm_ready_flag card
       = Some ("LLM-ready: " ++ (if PrimFloat.leb 60%float x then "Yes" else "No"))) /\
    (get (get ctx "score_matrix") "final_score" = Undefined ->
       llm_ready_flag card = Some "LLM-ready: No") /\
    (forall b, get ev "llm_ready" = Bool b ->
       llm_ready_flag cardb
       = Some ("LLM-ready: " ++ (if b then "Yes" else "No"))).
Proof.
  intros He H P He' Hev H' P'.
  destruct (A_card_pill fault_message StringToNumber ctx p p' e He H)
    as (card & shown & ready & M & S & R & _ & _ & F).
  destruct (B_card_pill fault_message ev q q' e' He' Hev H')
    as (cardb & shownb & Mb & Sb & _ & _ & Fb).
  exists card, cardb. split; [exact M|]. split; [exact Mb|].
  rewrite F, Fb; clear F Fb M Mb.
  - split.
    { intros x Hx. rewrite Hx in R. cbn in R. injection R as <-. reflexivity. }
    split.
    { intros Hx. rewrite Hx in R. cbn in R. injection R as <-. reflexivity. }
    intros b Hb. now rewrite Hb.
  - eapply ToString_plain; [|exact Sb]. plain_values.
  - eapply ToString_plain; [|exact S]. plain_values.
Qed.

End Verdict.

(** C3 on scores of -3, 12, 7.3 and 0.5, on one that is absent and on one
    that is not a number: the bars are 0%, 100%, 73% and 5% wide, the bar
    of the absent score is 0% wide, and the last has no bar. *)
Lemma bar_width_is_clamped_witness :
  exists card bars cardb barsb,
    markup evaluationContent
      (snd (A.renderEvaluation example_message example_StringToNumber
              bars_context sample_page)) = Some card /\
    score_bars_of card = Some bars /\
    bar_styles [bars]
    = [Some "width:0%;"; Some "width:0%;"; Some "width:0%;"; Some "width:0%;";
       Some "width:0%;"; Some "width:100%;"; Some "width:73%;"] /\
    markup evaluationContent
      (snd (B.renderEvaluation example_message bars_evaluation sample_page))
    = Some cardb /\
    score_bars_of cardb = Some barsb /\
    bar_styles [barsb]
    = [Some "width:0%;"; Some "width:100%;"; Some "width:0%;"; Some "width:0%;";
       Some "width:0%;"; Some "width:5%;"; Some "width:40%;"].
Proof.
  destruct (bar_width_is_clamped example_message example_StringToNumber
              bars_context bars_evaluation
              sample_page
              (snd (A.renderEvaluation example_message example_StringToNumber
                      bars_context sample_page))
              sample_page
              (snd (B.renderEvaluation example_message bars_evaluation
                      sample_page))
              empty_element empty_element)
    as (card & bars & cardb & barsb & M & S & W & Mb & Sb & Wb).
  - reflexivity.
  - vm_compute. reflexivity.
  - reflexivity.
  - reflexivity.
  - reflexivity.
  - vm_compute. reflexivity.
  - reflexivity.
  - exists card, bars, cardb, barsb.
    split; [exact M|]. split; [exact S|].
    split; [rewrite W; vm_compute; reflexivity|].
    split; [exact Mb|]. split; [exact Sb|].
    rewrite Wb. vm_compute. reflexivity.
Defined.

(** C4 on a verdict [Ready] and C6 on a score of 82, with [good] and
    [llm_ready: true] for the script under backup/. *)
Lemma verdict_styling_witness :
  option_map verdict_class
    (markup evaluationContent
       (snd (A.renderEvaluation example_message example_StringToNumber
               sample_context sample_page)))
  = Some (Some good) /\
  option_map verdict_class
    (markup evaluationContent
       (snd (B.renderEvaluation example_message sample_evaluation sample_page)))
  = Some (Some good).
Proof.
  destruct (verdict_styling example_message example_StringToNumber
              sample_context sample_evaluation
              sample_page
              (snd (A.renderEvaluation example_message example_StringToNumber
                      sample_context sample_page))
              sample_page
              (snd (B.renderEvaluation example_message sample_evaluation
                      sample_page))
              empty_element empty_element)
    as (card & cardb & M & Mb & Ha & _ & Hb & _).
  - reflexivity.
  - vm_compute. reflexivity.
  - reflexivity.
  - reflexivity.
  - vm_compute. reflexivity.
  - rewrite M, Mb. cbn [option_map]. split; f_equal.
    + apply (Ha "Ready"); [reflexivity|now left].
    + apply (Hb "good"); [reflexivity|right; now left].
Defined.

Lemma llm_ready_flag_policy_witness :
  option_map llm_ready_flag
    (markup evaluationContent
       (snd (A.renderEvaluation example_message example_StringToNumber
               sample_context sample_page)))
  = Some (Some "LLM-ready: Yes") /\
  option_map llm_ready_flag
    (markup evaluationContent
       (snd (B.renderEvaluation example_message sample_evaluation sample_page)))
  = Some (Some "LLM-ready: Yes").
Proof.
  destruct (llm_ready_flag_policy example_message example_StringToNumber
              sample_context sample_evaluation
              sample_page
              (snd (A.renderEvaluation example_message example_StringToNumber
                      sample_context sample_page))
              sample_page
              (snd (B.renderEvaluation example_message sample_evaluation
                      sample_page))
              empty_element empty_element)
    as (card & cardb & M & Mb & Ha & _ & Hb).
  - reflexivity.
  - vm_compute. reflexivity.
  - reflexivity.
  - reflexivity.
  - reflexivity.
  - vm_compute. reflexivity.
  - reflexivity.
  - rewrite M, Mb. cbn [option_map]. split; f_equal.
    + apply (Ha 82%float). reflexivity.
    + apply (Hb true). reflexivity.
Defined.
(** ** End to end *)



Lemma get_number_object (v : val) (k : string) (x : number) :
  String.eqb k "length" = false -> get v k = Num x -> exists fields, v = Obj fields.
Proof.
  intros Hk. destruct v; cbn [get]; rewrite ?Hk; try discriminate. eauto.
Qed.

Lemma get_array_object (v : val) (k : string) (l : list val) :
  get v k = Arr l -> exists fields, v = Obj fields.
Proof.
  destruct v; cbn [get]; try discriminate; eauto;
    destruct (String.eqb k "length"); discriminate.
Qed.

Lemma select_self (sel : node -> bool) (t : string)
    (attrs : list (string * string)) (children : fragment) :
  sel (Element t attrs children) = true ->
  In (Element t attrs children) (select sel (Element t attrs children)).
Proof. intros H. cbn [select]. rewrite H. now left. Qed.

Lemma select_child (sel : node -> bool) (t : string)
    (attrs : list (string * string)) (children : fragment) (n : node) :
  In n (select_all sel children) -> In n (select sel (Element t attrs children)).
Proof. intros H. cbn [select]. apply in_or_app. now right. Qed.

Lemma select_all_member (sel : node -> bool) (f : fragment) (t : string)
    (attrs : list (string * string)) (children : fragment) :
  In (Element t attrs children) f -> sel (Element t attrs children) = true ->
  In (Element t attrs children) (select_all sel f).
Proof.
  intros I S. unfold select_all. apply in_flat_map.
  exists (Element t attrs children). split; [exact I|now apply select_self].
Qed.

(** What is found in a clean node that follows clean nodes is known. *)
Lemma known_member (sel : node -> bool) (before after : fragment) (m n : node) :
  forallb clean before = true -> clean m = true -> In n (select sel m) ->
  In n (known sel (before ++ m :: after)%list).
Proof.
  intros C Cm I. rewrite (known_app_clean _ _ _ C). apply in_or_app. right.
  unfold known. rewrite scan_all_cons, (scan_clean sel m Cm).
  unfold then_. cbn [fst snd]. apply in_or_app. now left.
Qed.

(** What is known of the children of an element is known of the element. *)
Lemma known_child (sel : node -> bool) (t : string)
    (attrs : list (string * string)) (children : fragment) (n : node) :
  forallb (fun a => plain_attribute (snd a)) attrs = true ->
  In n (known sel children) ->
  In n (known sel [Element t attrs children]).
Proof.
  intros A I. unfold known in *. rewrite scan_all_cons, scan_element, A.
  unfold then_ at 2. cbn [fst snd].
  destruct (scan_all sel children) as [found whole]. cbn [fst] in I.
  unfold then_. cbn [fst snd scan_all fold_right].
  destruct whole; cbn [fst]; rewrite ?app_nil_r; apply in_or_app; now right.
Qed.

(** The row of the score named [clarity] is among the bars. *)
Lemma A_clarity_row (score_matrix : val) (x : number) :
  get score_matrix "clarity" = Num x ->
  In (hd (Text EmptyString)
        (A.scoreRow ("Clarity / readability", Num x,
                     "Language clarity, flow, and examples.")))
     (select (has_class "score-row")
        (el "div" "score-bars"
           (flat_map A.scoreRow (A.scoreRows score_matrix)))).
Proof.
  intros H. unfold el at 1. apply select_child.
  unfold A.scoreRow at 1. cbn [hd]. unfold el at 1.
  apply select_all_member; [|reflexivity].
  unfold A.scoreRows. cbn [flat_map]. rewrite H. cbn [with_default].
  do 6 (apply in_or_app; right). apply in_or_app. left. now left.
Qed.

Lemma A_score_bars_node_clean (score_matrix : val) :
  clean (el "div" "score-bars"
           (flat_map A.scoreRow (A.scoreRows score_matrix))) = true.
Proof.
  pose proof (A_score_bars_clean score_matrix) as C. unfold A.score_bars in C.
  cbn [forallb] in C. now apply andb_true_iff in C as [C _].
Qed.

Section EndToEnd.

Variable fault_message : fault -> string.
Variable StringToNumber : string -> number.

Lemma A_renderLlmView_preserves (r : ref) (view : val) :
  ref_eqb llmViewContent r = false ->
  preserves r (A.renderLlmView fault_message view).
Proof. intros H. unfold A.renderLlmView. apply preserves_guard. now apply preserves_fill. Qed.

Lemma A_renderEvaluation_preserves (r : ref) (ctx : val) :
  ref_eqb evaluationContent r = false ->
  preserves r (A.renderEvaluation fault_message StringToNumber ctx).
Proof. intros H. unfold A.renderEvaluation. now apply preserves_fill. Qed.

Lemma A_renderBlocks_preserves (r : ref) (s d f c : val) :
  ref_eqb summaryBlockEl r = false -> ref_eqb definitionsBlockEl r = false ->
  ref_eqb faqBlockEl r = false -> ref_eqb canonicalBlockEl r = false ->
  preserves r (A.renderBlocks fault_message s d f c).
Proof.
  intros H1 H2 H3 H4. unfold A.renderBlocks.
  repeat apply preserves_seq; now apply preserves_fill.
Qed.

(** The four renderers, one after the other. *)
Lemma A_renderResults_normal (data : val) (p p' : page) :
  truthy data = true ->
  A.renderResults fault_message StringToNumber data p = (Normal tt, p') ->
  exists p1 p2 p3,
    A.renderArcRank (get data "score_matrix") (get data "clarity_readability")
      (get data "faq_block") (get data "fanout_query_analysis") p
      = (Normal tt, p1) /\
    A.renderLlmView fault_message (get data "llm_interpretation") p1
      = (Normal tt, p2) /\
    A.renderEvaluation fault_message StringToNumber
      (Obj [("page_metadata", get data "page_metadata");
            ("executive_summary", get data "executive_summary");
            ("score_matrix", get data "score_matrix");
            ("fanout_query_analysis", get data "fanout_query_analysis");
            ("clarity_readability", get data "clarity_readability");
            ("eeat_block", get data "eeat_block");
            ("fix_roadmap", get data "fix_roadmap")]) p2
      = (Normal tt, p3) /\
    A.renderBlocks fault_message (get data "summary_block")
      (get data "definitions_block") (get data "faq_block")
      (get data "canonical_resources_block") p3
      = (Normal tt, p').
Proof.
  intros T H. unfold A.renderResults in H. rewrite T in H. cbn [negb] in H.
  apply seq_normal in H as (p1 & H1 & H).
  apply seq_normal in H as (p2 & H2 & H).
  apply seq_normal in H as (p3 & H3 & H).
  exists p1, p2, p3. auto.
Qed.

(** The FAQ region after [renderBlocks]. *)
Lemma A_renderBlocks_faq (s d f c : val) (p p' : page) (e : element) :
  p faqBlockEl = Some e ->
  A.renderBlocks fault_message s d f c p = (Normal tt, p') ->
  exists html,
    A.faq_template fault_message f = Normal html /\
    markup faqBlockEl p' = Some html.
Proof.
  intros He H. unfold A.renderBlocks in H.
  apply seq_normal in H as (p1 & H1 & H).
  apply seq_normal in H as (p2 & H2 & H).
  apply seq_normal in H as (p3 & H3 & H).
  assert (E2 : p2 faqBlockEl = Some e).
  { rewrite (preserved faqBlockEl _ _ _ _
               (preserves_fill faqBlockEl definitionsBlockEl _ eq_refl) H2).
    now rewrite (preserved faqBlockEl _ _ _ _
                   (preserves_fill faqBlockEl summaryBlockEl _ eq_refl) H1). }
  destruct (fill_normal _ _ _ _ _ E2 H3) as (html & T & _ & M).
  exists html. split; [exact T|].
  unfold markup in *.
  now rewrite (preserved faqBlockEl _ _ _ _
                 (preserves_fill faqBlockEl canonicalBlockEl _ eq_refl) H).
Qed.

Lemma A_faq_template_empty (f : val) (html : fragment) :
  get f "recommended_faqs" = Arr [] ->
  A.faq_template fault_message f = Normal html ->
  first_text (has_tag "p") html = Some "No FAQ suggestions generated.".
Proof.
  intros E. destruct (get_array_object _ _ _ E) as [fields ->].
  unfold A.faq_template, A.block_array. rewrite E. cbn.
  intros H. injection H as <-.
  unfold first_text, first_node, known. rewrite scan_all_cons.
  unfold el. rewrite scan_element. cbn [forallb snd].
  change (plain_attribute "block-section") with true. cbn [andb].
  rewrite scan_all_cons, scan_element. cbn [forallb].
  cbn [has_tag String.eqb Ascii.eqb Bool.eqb then_ fst snd app scan_all
         fold_right scan].
  rewrite Number_toString_plain. reflexivity.
Qed.


(** C7, as amended.  End to end, on every result that [renderResults]
    renders completely, on a page that has the four regions:
    [score_matrix.final_score = 82] shows [82] in the score header; with
    [score_matrix] present, [clarity_readability.score = 7.3] shows [7.3] as
    the AIO score, which has no bar; [score_matrix.clarity = 7.3] gives the
    row [Clarity / readability] the value [7.3] and a bar 73% wide, when
    what the card shows before its score bars carries no markup;
    [faq_block.recommended_faqs = []] puts the text
    [No FAQ suggestions generated.] in the FAQ region. *)
Theorem end_to_end_rendering (data : val) (p p' : page)
    (e1 e2 e3 e4 : element) :
  p arcScoreEl = Some e1 -> p scoreAioEl = Some e2 ->
  p evaluationContent = Some e3 -> p faqBlockEl = Some e4 ->
  A.renderResults fault_message StringToNumber data p = (Normal tt, p') ->
  (get (get data "score_matrix") "final_score" = Num 82%float ->
     shown arcScoreEl p' = Some "82") /\
  (truthy (get data "score_matrix") = true ->
   get (get data "clarity_readability") "score" = Num 7.3%float ->
     shown scoreAioEl p' = Some "7.3") /\
  (get (get data "score_matrix") "clarity" = Num 7.3%float ->
   forallb plain_value (shown_before_bars_A data) = true ->
     exists card row,
       markup evaluationContent p' = Some card /\
       In row (known (has_class "score-row") card) /\
       first_text (has_class "score-label") [row] = Some "Clarity / readability" /\
       bar_styles [row] = [Some "width:73%;"] /\
       bar_values [row] = ["7.3"]) /\
  (get (get data "faq_block") "recommended_faqs" = Arr [] ->
     exists faq,
       markup faqBlockEl p' = Some faq /\
       first_text (has_tag "p") faq = Some "No FAQ suggestions generated.").
Proof.
  intros E1 E2 E3 E4 H.
  assert (Steps : truthy data = true ->
    exists p1 p2 p3,
      A.renderArcRank (get data "score_matrix") (get data "clarity_readability")
        (get data "faq_block") (get data "fanout_query_analysis") p
        = (Normal tt, p1) /\
      (forall r, header r = true -> p' r = p1 r) /\
      p2 evaluationContent = Some e3 /\
      A.renderEvaluation fault_message StringToNumber
        (Obj [("page_metadata", get data "page_metadata");
              ("executive_summary", get data "executive_summary");
              ("score_matrix", get data "score_matrix");
              ("fanout_query_analysis", get data "fanout_query_analysis");
              ("clarity_readability", get data "clarity_readability");
              ("eeat_block", get data "eeat_block");
              ("fix_roadmap", get data "fix_roadmap")]) p2
        = (Normal tt, p3) /\
      p' evaluationContent = p3 evaluationContent /\
      p3 faqBlockEl = Some e4 /\
      A.renderBlocks fault_message (get data "summary_block")
        (get data "definitions_block") (get data "faq_block")
        (get data "canonical_resources_block") p3
        = (Normal tt, p')).
  { intros T.
    destruct (A_renderResults_normal data p p' T H) as (p1 & p2 & p3 & R1 & R2 & R3 & R4).
    exists p1, p2, p3. split; [exact R1|].
    split.
    { intros r Hr.
      rewrite (preserved r _ _ _ _ (A_renderBlocks_preserves r _ _ _ _
                 ltac:(now destruct r) ltac:(now destruct r)
                 ltac:(now destruct r) ltac:(now destruct r)) R4).
      rewrite (preserved r _ _ _ _ (A_renderEvaluation_preserves r _
                 ltac:(now destruct r)) R3).
      now rewrite (preserved r _ _ _ _ (A_renderLlmView_preserves r _
                 ltac:(now destruct r)) R2). }
    split.
    { rewrite (preserved evaluationContent _ _ _ _
                 (A_renderLlmView_preserves evaluationContent _ eq_refl) R2).
      rewrite (preserved evaluationContent _ _ _ _
                 (A_renderArcRank_preserves evaluationContent _ _ _ _
                    eq_refl eq_refl eq_refl eq_refl) R1).
      exact E3. }
    split; [exact R3|].
    split.
    { apply (preserved evaluationContent _ _ _ _
               (A_renderBlocks_preserves evaluationContent _ _ _ _
                  eq_refl eq_refl eq_refl eq_refl) R4). }
    split; [|exact R4].
    rewrite (preserved faqBlockEl _ _ _ _
               (A_renderEvaluation_preserves faqBlockEl _ eq_refl) R3).
    rewrite (preserved faqBlockEl _ _ _ _
               (A_renderLlmView_preserves faqBlockEl _ eq_refl) R2).
    rewrite (preserved faqBlockEl _ _ _ _
               (A_renderArcRank_preserves faqBlockEl _ _ _ _
                  eq_refl eq_refl eq_refl eq_refl) R1).
    exact E4. }
  assert (Truthy : forall k k' x,
            String.eqb k' "length" = false ->
            get (get data k) k' = x -> x <> Undefined -> truthy data = true).
  { intros k k' x Hk G N. destruct data; try reflexivity;
      cbn [get] in G; try (cbn [get] in G; congruence);
      destruct (String.eqb k "length"); cbn [get] in G; try congruence;
      rewrite Hk in G; congruence. }
  split.
  { intros F.
    destruct (Steps (Truthy "score_matrix" "final_score" _ eq_refl F ltac:(discriminate)))
      as (p1 & p2 & p3 & R1 & Hd & _).
    destruct (get_number_object (get data "score_matrix") "final_score" _ eq_refl F) as [fields Sm].
    pose proof (A_renderArcRank_writes (get data "score_matrix")
                  (get data "clarity_readability") (get data "faq_block")
                  (get data "fanout_query_analysis") p
                  ltac:(now rewrite Sm)) as W.
    rewrite R1 in W. cbn [snd] in W. destruct W as (W & _).
    unfold shown in *. rewrite (Hd arcScoreEl eq_refl), W, E1, F.
    reflexivity. }
  split.
  { intros Tsm F.
    destruct (Steps (Truthy "clarity_readability" "score" _ eq_refl F ltac:(discriminate)))
      as (p1 & p2 & p3 & R1 & Hd & _).
    destruct (get_number_object (get data "clarity_readability") "score" _ eq_refl F) as [fields Cb].
    pose proof (A_renderArcRank_writes (get data "score_matrix")
                  (get data "clarity_readability") (get data "faq_block")
                  (get data "fanout_query_analysis") p Tsm) as W.
    rewrite R1 in W. cbn [snd] in W. destruct W as (_ & W & _).
    unfold shown in *. rewrite (Hd scoreAioEl eq_refl), W, E2, F, Cb.
    reflexivity. }
  split.
  { intros F P.
    destruct (Steps (Truthy "score_matrix" "clarity" _ eq_refl F ltac:(discriminate)))
      as (p1 & p2 & p3 & _ & _ & Ev & R3 & Keep & _).
    destruct (A_card_bars _ _ _ _ _ _ Ev R3 P)
      as (card & before & tl & M & -> & C & _).
    eexists. eexists. split.
    { unfold markup in *. rewrite Keep. exact M. }
    split.
    { unfold A.score_bars. cbn [app].
      apply (known_member _ before tl _ _ C (A_score_bars_node_clean _)).
      apply A_clarity_row. rewrite get_with_default_object. exact F. }
    repeat split; reflexivity. }
  intros F.
  destruct (Steps (Truthy "faq_block" "recommended_faqs" _ eq_refl F ltac:(discriminate)))
    as (p1 & p2 & p3 & _ & _ & _ & _ & _ & Fq & R4).
  destruct (A_renderBlocks_faq _ _ _ _ _ _ _ Fq R4) as (html & T & M).
  exists html. split; [exact M|].
  now apply (A_faq_template_empty (get data "faq_block")).
Qed.

End EndToEnd.

(** C7, as amended, on the result with [final_score = 82], [clarity = 7.3],
    [clarity_readability.score = 7.3] and no FAQ. *)
Lemma end_to_end_rendering_witness :
  let p' := snd (A.renderResults example_message example_StringToNumber
                   end_to_end_result_with_clarity sample_page) in
  shown arcScoreEl p' = Some "82" /\
  shown scoreAioEl p' = Some "7.3" /\
  (exists card row,
     markup evaluationContent p' = Some card /\
     In row (known (has_class "score-row") card) /\
     first_text (has_class "score-label") [row] = Some "Clarity / readability" /\
     bar_styles [row] = [Some "width:73%;"] /\
     bar_values [row] = ["7.3"]) /\
  (exists faq,
     markup faqBlockEl p' = Some faq /\
     first_text (has_tag "p") faq = Some "No FAQ suggestions generated.").
Proof.
  destruct (end_to_end_rendering example_message example_StringToNumber
              end_to_end_result_with_clarity sample_page
              (snd (A.renderResults example_message example_StringToNumber
                      end_to_end_result_with_clarity sample_page))
              empty_element empty_element empty_element empty_element)
    as (H1 & H2 & H3 & H4).
  - reflexivity.
  - reflexivity.
  - reflexivity.
  - reflexivity.
  - vm_compute. reflexivity.
  - split; [apply H1; reflexivity|].
    split; [apply H2; reflexivity|].
    split; [apply H3; reflexivity|apply H4; reflexivity].
Defined.

(** C7 as stated fails on the result it names: with
    [score_matrix.final_score = 82], [clarity_readability.score = 7.3] and
    [faq_block.recommended_faqs = []], every bar of the card is 0% wide, and
    with no engine is any bar 73% wide. *)
Lemma clarity_bar_counterexample :
  get (get end_to_end_result "score_matrix") "final_score" = Num 82%float /\
  get (get end_to_end_result "clarity_readability") "score" = Num 7.3%float /\
  get (get end_to_end_result "faq_block") "recommended_faqs" = Arr [] /\
  option_map bar_styles
    (markup evaluationContent
       (snd (A.renderResults example_message example_StringToNumber
               end_to_end_result sample_page)))
  = Some (List.repeat (Some "width:0%;") 8) /\
  ~ (exists fault_message StringToNumber card,
       markup evaluationContent
         (snd (A.renderResults fault_message StringToNumber
                 end_to_end_result sample_page)) = Some card /\
       In (Some "width:73%;") (bar_styles card)).
Proof.
  split; [reflexivity|]. split; [reflexivity|]. split; [reflexivity|].
  split; [vm_compute; reflexivity|].
  intros (fm & s2n & card & M & I).
  vm_compute in M. injection M as <-.
  vm_compute in I.
  repeat (destruct I as [I|I]; [discriminate I|]). exact I.
Qed.

(** ** The blocks *)

Lemma mapM_normal {A B : Type} (f : A -> completion B) (l : list A) :
  (forall x, In x l -> exists y, f x = Normal y) ->
  exists ys, mapM f l = Normal ys.
Proof.
  induction l as [|x l IH]; intros H; [now exists []|].
  destruct (H x (or_introl eq_refl)) as [y Hy].
  destruct IH as [ys Hys]; [intros z Hz; apply H; now right|].
  exists (y :: ys). cbn [mapM bind]. now rewrite Hy, Hys.
Qed.

(** A line of a block that is clean and follows clean markup is among the
    lines known, with its text. *)
Lemma meta_text_shown (line before after : fragment) :
  forallb clean before = true -> forallb clean line = true ->
  In (text_of (el "p" "block-meta" line))
     (meta_texts
        [el "div" "block-section"
           (before ++ el "p" "block-meta" line :: after)%list]).
Proof.
  intros C L. unfold meta_texts, texts.
  assert (Cm : clean (el "p" "block-meta" line) = true).
  { cbn [clean el forallb snd]. now rewrite L. }
  apply in_map, filter_In. split; [|exact Cm].
  unfold el at 2. apply known_child; [reflexivity|].
  apply (known_member _ before after _ _ C Cm).
  unfold el. now apply select_self.
Qed.

Section Blocks.

Variable fault_message : fault -> string.

(** *** The blocks complete on what is absent or of the expected types *)

Lemma text_string (v : val) :
  absent_or is_string v = true -> exists n, Template.text fault_message v = Normal n.
Proof. destruct v; try discriminate; cbn; eauto. Qed.

Lemma ToString_string (v : val) :
  absent_or is_string v = true -> exists s, ToString fault_message v = Normal s.
Proof. destruct v; try discriminate; cbn; eauto. Qed.

Lemma text_string_or (v : val) (d : string) :
  absent_or is_string v = true ->
  exists n, Template.text fault_message (oror v (Str d)) = Normal n.
Proof.
  intros H. unfold oror. destruct (truthy v); [now apply text_string|].
  cbn. eauto.
Qed.

Lemma join_strings (sep : string) (l : list val) :
  forallb is_string l = true -> exists s, join fault_message sep l = Normal s.
Proof.
  induction l as [|x l IH]; intros H; [cbn; eauto|].
  cbn [forallb] in H. apply andb_true_iff in H as [Hx Hl].
  destruct (IH Hl) as [s Hs]. destruct x; try discriminate.
  cbn [join ToString bind]. destruct l; [eauto|].
  rewrite Hs. cbn [bind]. eauto.
Qed.

Lemma record_is_object (fields : list (string * (val -> bool))) (v : val) :
  record_of fields v = true -> exists fs, v = Obj fs.
Proof. destruct v; try discriminate. eauto. Qed.

Lemma A_summary_template_typed (summary : val) :
  absent_or summary_block_type summary = true ->
  exists html, A.summary_template fault_message summary = Normal html.
Proof.
  intros H. unfold A.summary_template.
  destruct summary; try discriminate.
  - cbn. eauto.
  - cbn. eauto.
  - cbn [absent_or summary_block_type record_of forallb fst snd] in H.
    apply andb_true_iff in H as [Hq H].
    apply andb_true_iff in H as [Hr _].
    unfold A.block_field, andand. cbn [truthy].
    assert (Q : exists q, Template.text fault_message
                (if truthy (get (Obj fields) "quality")
                 then get (Obj fields) "quality" else Str "not_applicable")
                = Normal q).
    { destruct (truthy _); [now apply text_string|cbn; eauto]. }
    destruct Q as [q Q].
    destruct (text_string_or (get (Obj fields) "recommended_summary_block")
                "No recommended summary. Add a concise 120–150 word summary at the top of the page that clearly states what the page is about, who it is for, and the main outcome."
                Hr) as [s S].
    rewrite S. cbn [bind]. rewrite Q. cbn [bind]. eauto.
Qed.

(** A list of typed items, when there is one. *)
Lemma block_array_typed (b : val) (k : string) (ty : val -> bool) :
  absent_or (list_of ty) (get b k) = true ->
  exists l, A.block_array b k = Arr l /\ forallb ty l = true.
Proof.
  intros H. unfold A.block_array.
  destruct (truthy b); cbn [andb]; [|now exists []].
  destruct (get b k); cbn [isArray]; try (now exists []).
  exists elems. split; [reflexivity|exact H].
Qed.

Lemma has_length_array (l : list val) :
  exists b, Template.has_length fault_message (Arr l) = Normal b.
Proof. unfold Template.has_length. cbn. eauto. Qed.

Lemma map_join_typed (callee : string) (l : list val) (ty : val -> bool)
    (f : val -> completion fragment) :
  forallb ty l = true ->
  (forall x, ty x = true -> exists y, f x = Normal y) ->
  exists items, Template.map_join fault_message callee (Arr l) f = Normal items.
Proof.
  intros Hl Hf. unfold Template.map_join.
  destruct (mapM_normal f l) as [ys Hys].
  { intros x Hx. apply Hf. rewrite forallb_forall in Hl. now apply Hl. }
  rewrite Hys. cbn [bind]. eauto.
Qed.

(** The list of a block: the items, or the text shown when there is none. *)
Lemma listed_typed (callee : string) (l : list val) (ty : val -> bool)
    (f : val -> completion fragment) (none : string) :
  forallb ty l = true ->
  (forall x, ty x = true -> exists y, f x = Normal y) ->
  exists listed,
    bind (Template.has_length fault_message (Arr l)) (fun has =>
      if has
      then bind (Template.map_join fault_message callee (Arr l) f)
             (fun items => Normal [el "ul" "list" items])
      else Normal [Element "p" [] [Text none]])
    = Normal listed.
Proof.
  intros Hl Hf. destruct (has_length_array l) as [b ->]. cbn [bind].
  destruct b; [|eauto].
  destruct (map_join_typed callee l ty f Hl Hf) as [items ->]. cbn [bind]. eauto.
Qed.

Lemma A_definition_item_typed (d : val) :
  record_of [("term", is_string); ("definition", is_string)] d = true ->
  exists y, A.definition_item fault_message d = Normal y.
Proof.
  intros H. destruct (record_is_object _ _ H) as [fs ->].
  cbn [record_of forallb fst snd] in H.
  apply andb_true_iff in H as [H1 H].
  apply andb_true_iff in H as [H2 _].
  unfold A.definition_item, read. cbn [bind].
  destruct (text_string _ H1) as [s1 ->]. cbn [bind].
  destruct (text_string _ H2) as [s2 ->]. cbn [bind]. eauto.
Qed.

Lemma A_faq_item_typed (f : val) :
  record_of [("q", is_string); ("a", is_string)] f = true ->
  exists y, A.faq_item fault_message f = Normal y.
Proof.
  intros H. destruct (record_is_object _ _ H) as [fs ->].
  cbn [record_of forallb fst snd] in H.
  apply andb_true_iff in H as [H1 H].
  apply andb_true_iff in H as [H2 _].
  unfold A.faq_item, read. cbn [bind].
  destruct (text_string _ H1) as [s1 ->]. cbn [bind].
  destruct (text_string _ H2) as [s2 ->]. cbn [bind]. eauto.
Qed.

Lemma A_resource_item_typed (c : val) :
  record_of [("url", is_string); ("title", is_string)] c = true ->
  exists y, A.resource_item fault_message c = Normal y.
Proof.
  intros H. destruct (record_is_object _ _ H) as [fs ->].
  cbn [record_of forallb fst snd] in H.
  apply andb_true_iff in H as [H1 H].
  apply andb_true_iff in H as [H2 _].
  unfold A.resource_item, read. cbn [bind].
  destruct (ToString_string _ H1) as [s1 ->]. cbn [bind].
  assert (T : exists n, Template.text fault_message
                (oror (get (Obj fs) "title") (get (Obj fs) "url")) = Normal n).
  { unfold oror. destruct (truthy _); now apply text_string. }
  destruct T as [s2 ->]. cbn [bind]. eauto.
Qed.

Lemma A_faq_template_typed (faq : val) :
  absent_or faq_block_type faq = true ->
  exists html, A.faq_template fault_message faq = Normal html.
Proof.
  intros H. unfold A.faq_template.
  destruct (block_array_typed faq "recommended_faqs"
              (record_of [("q", is_string); ("a", is_string)])) as (l & -> & Hl).
  { destruct faq; try discriminate; try reflexivity.
    cbn [absent_or faq_block_type record_of forallb fst snd] in H.
    now apply andb_true_iff in H as [H _]. }
  destruct (listed_typed "recFaqs.map" l _ (A.faq_item fault_message)
              "No FAQ suggestions generated." Hl A_faq_item_typed)
    as [listed L].
  apply bind_normal in L as (has & L1 & L2). rewrite L1. cbn [bind].
  rewrite L2. cbn [bind]. eauto.
Qed.

Lemma A_canonical_template_typed (canon : val) :
  absent_or canonical_resources_block_type canon = true ->
  exists html, A.canonical_template fault_message canon = Normal html.
Proof.
  intros H. unfold A.canonical_template.
  destruct (block_array_typed canon "recommended_resources"
              (record_of [("url", is_string); ("title", is_string)]))
    as (l & -> & Hl).
  { destruct canon; try discriminate; try reflexivity.
    cbn [absent_or canonical_resources_block_type record_of forallb fst snd] in H.
    now apply andb_true_iff in H as [H _]. }
  destruct (listed_typed "recRes.map" l _ (A.resource_item fault_message)
              "No canonical resources recommended." Hl A_resource_item_typed)
    as [listed L].
  apply bind_normal in L as (has & L1 & L2). rewrite L1. cbn [bind].
  rewrite L2. cbn [bind].
  assert (W : exists n, Template.text fault_message
                (oror (A.block_field canon "why_it_matters" (Str EmptyString))
                   (Str "Canonical resources help AI models place your page in a trusted context. Include core internal pillar pages and 1–2 authoritative external sources where relevant."))
                = Normal n).
  { apply text_string_or. unfold A.block_field.
    destruct (truthy (andand canon (get canon "why_it_matters"))); [|reflexivity].
    destruct canon; try discriminate; try reflexivity.
    cbn [absent_or canonical_resources_block_type record_of forallb fst snd] in H.
    apply andb_true_iff in H as [_ H].
    now apply andb_true_iff in H as [H _]. }
  destruct W as [s ->]. cbn [bind]. eauto.
Qed.

Lemma A_definitions_template_typed (defs : val) :
  absent_or definitions_block_type defs = true ->
  exists html, A.definitions_template fault_message defs = Normal html.
Proof.
  intros H. unfold A.definitions_template.
  destruct (block_array_typed defs "recommended_definitions"
              (record_of [("term", is_string); ("definition", is_string)]))
    as (l & -> & Hl).
  { destruct defs; try discriminate; try reflexivity.
    cbn [absent_or definitions_block_type record_of forallb fst snd] in H.
    now apply andb_true_iff in H as [H _]. }
  destruct (listed_typed "recDefs.map" l _ (A.definition_item fault_message)
              "No recommended definitions." Hl A_definition_item_typed)
    as [listed L].
  apply bind_normal in L as (has & L1 & L2). rewrite L1. cbn [bind].
  rewrite L2. cbn [bind].
  assert (M : exists lacking,
            bind (A.nonempty fault_message
                    (A.block_field defs "missing_critical_terms" (Arr [])))
              (fun has_missing =>
                 A.when has_missing
                   (bind (call_join fault_message "missing.join"
                            (A.block_field defs "missing_critical_terms" (Arr []))
                            ", ")
                      (fun s =>
                         Normal [el "p" "block-meta"
                                   [Text "Missing critical terms: "; Subst s]])))
            = Normal lacking).
  { assert (T : exists ms, A.block_field defs "missing_critical_terms" (Arr [])
                           = Arr ms /\ forallb is_string ms = true).
    { unfold A.block_field.
      destruct (truthy (andand defs (get defs "missing_critical_terms"))) eqn:T;
        [|now exists []].
      destruct defs; try discriminate.
      cbn [absent_or definitions_block_type record_of forallb fst snd] in H.
      apply andb_true_iff in H as [_ H].
      apply andb_true_iff in H as [H _].
      unfold andand in T. cbn [truthy] in T.
      destruct (get (Obj fields) "missing_critical_terms"); try discriminate.
      exists elems. split; [reflexivity|exact H]. }
    destruct T as (ms & -> & Hms).
    unfold A.nonempty. cbn [truthy].
    destruct (has_length_array ms) as [b ->]. cbn [bind].
    destruct b; cbn [A.when]; [|eauto].
    cbn [call_join]. destruct (join_strings ", " ms Hms) as [s ->].
    cbn [bind]. eauto. }
  destruct M as [lacking M].
  apply bind_normal in M as (hm & M1 & M2). rewrite M1. cbn [bind].
  rewrite M2. cbn [bind]. eauto.
Qed.

Lemma fill_complete (r : ref) (html : fragment) (p : page) :
  exists p', fill r (Normal html) p = (Normal tt, p').
Proof. unfold fill, write_innerHTML. destruct (p r); eauto. Qed.

(** [renderBlocks] on typed blocks completes. *)
Lemma A_renderBlocks_typed (summary defs faq canon : val) (p : page) :
  absent_or summary_block_type summary = true ->
  absent_or definitions_block_type defs = true ->
  absent_or faq_block_type faq = true ->
  absent_or canonical_resources_block_type canon = true ->
  fst (A.renderBlocks fault_message summary defs faq canon p) = Normal tt.
Proof.
  intros T1 T2 T3 T4.
  destruct (A_summary_template_typed summary T1) as (h1 & E1).
  destruct (A_definitions_template_typed defs T2) as (h2 & E2).
  destruct (A_faq_template_typed faq T3) as (h3 & E3).
  destruct (A_canonical_template_typed canon T4) as (h4 & E4).
  unfold A.renderBlocks. rewrite E1, E2, E3, E4. unfold seq.
  destruct (fill_complete summaryBlockEl h1 p) as [p1 ->].
  destruct (fill_complete definitionsBlockEl h2 p1) as [p2 ->].
  destruct (fill_complete faqBlockEl h3 p2) as [p3 ->].
  destruct (fill_complete canonicalBlockEl h4 p3) as [p4 ->].
  reflexivity.
Qed.

(** *** What a region holds when [renderBlocks] completes *)

Lemma A_renderBlocks_regions (s d f c : val) (p p' : page) :
  A.renderBlocks fault_message s d f c p = (Normal tt, p') ->
  (forall e, p summaryBlockEl = Some e ->
     exists html, A.summary_template fault_message s = Normal html /\
                  markup summaryBlockEl p' = Some html) /\
  (forall e, p definitionsBlockEl = Some e ->
     exists html, A.definitions_template fault_message d = Normal html /\
                  markup definitionsBlockEl p' = Some html) /\
  (forall e, p faqBlockEl = Some e ->
     exists html, A.faq_template fault_message f = Normal html /\
                  markup faqBlockEl p' = Some html) /\
  (forall e, p canonicalBlockEl = Some e ->
     exists html, A.canonical_template fault_message c = Normal html /\
                  markup canonicalBlockEl p' = Some html).
Proof.
  intros H. unfold A.renderBlocks in H.
  apply seq_normal in H as (p1 & H1 & H).
  apply seq_normal in H as (p2 & H2 & H).
  apply seq_normal in H as (p3 & H3 & H).
  pose proof (fun r Hr => preserved r _ _ _ _
                (preserves_fill r summaryBlockEl _ Hr) H1) as K1.
  pose proof (fun r Hr => preserved r _ _ _ _
                (preserves_fill r definitionsBlockEl _ Hr) H2) as K2.
  pose proof (fun r Hr => preserved r _ _ _ _
                (preserves_fill r faqBlockEl _ Hr) H3) as K3.
  pose proof (fun r Hr => preserved r _ _ _ _
                (preserves_fill r canonicalBlockEl _ Hr) H) as K4.
  repeat split; intros e E.
  - destruct (fill_normal _ _ _ _ _ E H1) as (html & T & _ & M).
    exists html. split; [exact T|]. unfold markup in *.
    now rewrite (K4 summaryBlockEl eq_refl), (K3 summaryBlockEl eq_refl),
      (K2 summaryBlockEl eq_refl).
  - rewrite <- (K1 definitionsBlockEl eq_refl) in E.
    destruct (fill_normal _ _ _ _ _ E H2) as (html & T & _ & M).
    exists html. split; [exact T|]. unfold markup in *.
    now rewrite (K4 definitionsBlockEl eq_refl), (K3 definitionsBlockEl eq_refl).
  - rewrite <- (K1 faqBlockEl eq_refl), <- (K2 faqBlockEl eq_refl) in E.
    destruct (fill_normal _ _ _ _ _ E H3) as (html & T & _ & M).
    exists html. split; [exact T|]. unfold markup in *.
    now rewrite (K4 faqBlockEl eq_refl).
  - rewrite <- (K1 canonicalBlockEl eq_refl), <- (K2 canonicalBlockEl eq_refl),
      <- (K3 canonicalBlockEl eq_refl) in E.
    destruct (fill_normal _ _ _ _ _ E H) as (html & T & _ & M).
    exists html. split; [exact T|exact M].
Qed.

(** *** The score line of a block whose texts carry no markup *)

Lemma plain_block_field (b : val) (k : string) (d : val) :
  plain_value b = true -> plain_value d = true ->
  plain_value (A.block_field b k d) = true.
Proof.
  intros P D. unfold A.block_field. destruct (truthy _); [|exact D].
  now apply plain_value_get.
Qed.

Lemma plain_block_array (b : val) (k : string) :
  plain_value b = true -> plain_value (A.block_array b k) = true.
Proof.
  intros P. unfold A.block_array. destruct (_ && _); [|reflexivity].
  now apply plain_value_get.
Qed.

Lemma join_plain (sep : string) (l : list val) (s : string) :
  plain sep = true -> plain_value (Arr l) = true ->
  join fault_message sep l = Normal s -> plain s = true.
Proof.
  intros Hs P. apply (join_every fault_message text_char sep l s Hs).
  apply Forall_forall. intros x Hx t Ht.
  apply (ToString_plain fault_message x t); [|exact Ht].
  now apply (plain_array_item l).
Qed.

(** The list of a block: clean when its items are. *)
Lemma listed_clean (callee : string) (xs : val)
    (f : val -> completion fragment) (none : string) (listed : fragment) :
  (forall elems x y, xs = Arr elems -> In x elems -> f x = Normal y ->
                     forallb clean y = true) ->
  bind (Template.has_length fault_message xs) (fun has =>
    if has
    then bind (Template.map_join fault_message callee xs f)
           (fun items => Normal [el "ul" "list" items])
    else Normal [Element "p" [] [Text none]])
  = Normal listed ->
  forallb clean listed = true.
Proof.
  intros Hf H. apply bind_normal in H as (has & _ & H).
  destruct has; [|now injection H as <-].
  apply bind_normal in H as (items & I & H). injection H as <-.
  cbn [forallb clean el snd andb].
  rewrite (map_join_parts fault_message callee xs f items
             (fun y => forallb clean y = true)
             (proj1 clean_parts) (proj2 clean_parts) Hf I).
  reflexivity.
Qed.

Lemma A_summary_score_line (summary : val) (html : fragment) :
  plain_value summary = true ->
  A.summary_template fault_message summary = Normal html ->
  exists q,
    In ("Summary score: " ++ Number_toString (A.block_score summary) ++
        "/10 · Current summary quality: " ++ q) (meta_texts html).
Proof.
  intros P H. unfold A.summary_template in H.
  apply bind_normal in H as (shown & Hs & H).
  apply bind_normal in H as (q & Hq & H). injection H as <-.
  assert (Cs : clean shown = true).
  { eapply text_clean; [|exact Hs]. plain_values. }
  assert (Cq : clean q = true).
  { eapply text_clean; [|exact Hq]. now apply plain_block_field. }
  destruct (text_normal _ _ _ Hq) as (sq & _ & ->). exists sq.
  pose proof (meta_text_shown
                [Text "Summary score: ";
                 Subst (Number_toString (A.block_score summary));
                 Text "/10 · Current summary quality: "; Subst sq]
                [Element "p" []
                   [Element "strong" []
                      [Text "Recommended LLM summary (place near the top of the page):"]];
                 Element "p" [] [shown]]
                [el "p" "block-help-text"
                   [Text "This summary is designed for fast LLM consumption. Keep it concise, specific, and placed high on the page."]])
    as M.
  cbn [text_of el fold_right] in M. rewrite append_empty in M.
  apply M.
  - cbn [forallb clean snd andb]. now rewrite Cs.
  - cbn [forallb clean andb] in *. now rewrite Number_toString_plain, Cq.
Qed.

Lemma A_definition_item_clean (d : val) (y : fragment) :
  plain_value d = true -> A.definition_item fault_message d = Normal y ->
  forallb clean y = true.
Proof.
  intros P H. unfold A.definition_item in H.
  apply bind_normal in H as (t & Ht & H). apply read_normal in Ht. subst t.
  apply bind_normal in H as (term & Hterm & H).
  apply bind_normal in H as (d' & Hd & H). apply read_normal in Hd. subst d'.
  apply bind_normal in H as (def & Hdef & H). injection H as <-.
  cbn [forallb clean snd andb].
  rewrite (text_clean fault_message _ _ (plain_value_get d "term" P) Hterm).
  now rewrite (text_clean fault_message _ _ (plain_value_get d "definition" P) Hdef).
Qed.

Lemma A_faq_item_clean (f : val) (y : fragment) :
  plain_value f = true -> A.faq_item fault_message f = Normal y ->
  forallb clean y = true.
Proof.
  intros P H. unfold A.faq_item in H.
  apply bind_normal in H as (t & Ht & H). apply read_normal in Ht. subst t.
  apply bind_normal in H as (q & Hq & H).
  apply bind_normal in H as (d' & Hd & H). apply read_normal in Hd. subst d'.
  apply bind_normal in H as (a & Ha & H). injection H as <-.
  cbn [forallb clean snd andb].
  rewrite (text_clean fault_message _ _ (plain_value_get f "q" P) Hq).
  now rewrite (text_clean fault_message _ _ (plain_value_get f "a" P) Ha).
Qed.

Lemma plain_link_item (elems : list val) (x : val) :
  plain_link (Arr elems) = true -> In x elems -> plain_link x = true.
Proof.
  unfold plain_link. cbn [strings_all]. intros H I.
  apply andb_true_iff in H as [H1 H2]. rewrite forallb_forall in H1, H2.
  now rewrite (H1 x I), (H2 x I).
Qed.

Lemma plain_link_get (v : val) (k : string) :
  plain_link v = true -> plain_link (get v k) = true.
Proof.
  unfold plain_link. intros H. apply andb_true_iff in H as [H1 H2].
  now rewrite !get_strings_all.
Qed.

Lemma A_resource_item_clean (c : val) (y : fragment) :
  plain_link c = true -> A.resource_item fault_message c = Normal y ->
  forallb clean y = true.
Proof.
  intros P H. unfold A.resource_item in H.
  pose proof (plain_link_get c "url" P) as Pu.
  pose proof (plain_link_get c "title" P) as Pt.
  unfold plain_link in Pu, Pt.
  apply andb_true_iff in Pu as [Pu Au]. apply andb_true_iff in Pt as [Pt _].
  apply bind_normal in H as (u & Hu & H). apply read_normal in Hu. subst u.
  apply bind_normal in H as (href & Hh & H).
  apply bind_normal in H as (t & Ht & H). apply read_normal in Ht. subst t.
  apply bind_normal in H as (u & Hu & H). apply read_normal in Hu. subst u.
  apply bind_normal in H as (label & Hl & H). injection H as <-.
  cbn [forallb clean snd andb].
  change (plain_attribute "_blank") with true.
  change (plain_attribute "noopener noreferrer") with true.
  unfold plain_attribute.
  rewrite (ToString_every fault_message value_char value_char_engine _ _ Au Hh).
  rewrite (text_clean fault_message _ _ (plain_value_oror _ _ Pt Pu) Hl).
  reflexivity.
Qed.

Lemma A_definitions_score_line (defs : val) (html : fragment) :
  plain_value defs = true ->
  A.definitions_template fault_message defs = Normal html ->
  In ("Definitions score: " ++ Number_toString (A.block_score defs) ++ "/10")
     (meta_texts html).
Proof.
  intros P H. unfold A.definitions_template in H.
  apply bind_normal in H as (has & Hhas & H).
  apply bind_normal in H as (listed & L & H).
  apply bind_normal in H as (hm & Hm & H).
  apply bind_normal in H as (lacking & K & H). injection H as <-.
  assert (Cl : forallb clean listed = true).
  { apply (listed_clean "recDefs.map"
             (A.block_array defs "recommended_definitions")
             (A.definition_item fault_message) "No recommended definitions.").
    - intros elems x y E I Y. apply (A_definition_item_clean x y); [|exact Y].
      apply (plain_array_item elems); [|exact I].
      rewrite <- E. now apply plain_block_array.
    - rewrite Hhas. cbn [bind]. exact L. }
  assert (Ck : forallb clean lacking = true).
  { apply A_when_normal in K as [[_ K]|[_ ->]]; [|reflexivity].
    apply bind_normal in K as (s & Hs & K). injection K as <-.
    cbn [forallb clean el snd andb].
    pose proof (plain_block_field defs "missing_critical_terms" (Arr []) P eq_refl)
      as Pm.
    destruct (A.block_field defs "missing_critical_terms" (Arr []));
      try discriminate.
    cbn [call_join] in Hs.
    now rewrite (join_plain ", " elems s eq_refl Pm Hs). }
  pose proof (meta_text_shown
                [Text "Definitions score: ";
                 Subst (Number_toString (A.block_score defs)); Text "/10"]
                (listed ++ lacking)%list
                [el "p" "block-help-text"
                   [Text "Add these definitions near the first mention of each term so AI systems clearly understand your key concepts."]])
    as M.
  cbn [text_of el fold_right] in M. rewrite <- app_assoc in M.
  apply M.
  - now rewrite clean_app, Cl, Ck.
  - cbn [forallb clean andb]. now rewrite Number_toString_plain.
Qed.

Lemma A_faq_score_line (faq : val) (html : fragment) :
  plain_value faq = true ->
  A.faq_template fault_message faq = Normal html ->
  In ("FAQ score: " ++ Number_toString (A.block_score faq) ++ "/10")
     (meta_texts html).
Proof.
  intros P H. unfold A.faq_template in H.
  apply bind_normal in H as (has & Hhas & H).
  apply bind_normal in H as (listed & L & H). injection H as <-.
  assert (Cl : forallb clean listed = true).
  { apply (listed_clean "recFaqs.map" (A.block_array faq "recommended_faqs")
             (A.faq_item fault_message) "No FAQ suggestions generated.").
    - intros elems x y E I Y. apply (A_faq_item_clean x y); [|exact Y].
      apply (plain_array_item elems); [|exact I].
      rewrite <- E. now apply plain_block_array.
    - rewrite Hhas. cbn [bind]. exact L. }
  pose proof (meta_text_shown
                [Text "FAQ score: ";
                 Subst (Number_toString (A.block_score faq)); Text "/10"]
                listed
                [el "p" "block-help-text"
                   [Text "Use these FAQs to improve answerability and capture long-tail questions asked in AI chat and search."]])
    as M.
  cbn [text_of el fold_right] in M.
  apply M; [exact Cl|].
  cbn [forallb clean andb]. now rewrite Number_toString_plain.
Qed.

Lemma plain_link_block_array (b : val) (k : string) :
  plain_link b = true -> plain_link (A.block_array b k) = true.
Proof.
  intros P. unfold A.block_array. destruct (_ && _); [|reflexivity].
  now apply plain_link_get.
Qed.

Lemma A_canonical_score_line (canon : val) (html : fragment) :
  plain_link canon = true ->
  A.canonical_template fault_message canon = Normal html ->
  In ("Canonical resources score: " ++
      Number_toString (A.block_score canon) ++ "/10") (meta_texts html).
Proof.
  intros P H. unfold A.canonical_template in H.
  apply bind_normal in H as (has & Hhas & H).
  apply bind_normal in H as (listed & L & H).
  apply bind_normal in H as (reason & R & H). injection H as <-.
  assert (Cl : forallb clean listed = true).
  { apply (listed_clean "recRes.map"
             (A.block_array canon "recommended_resources")
             (A.resource_item fault_message)
             "No canonical resources recommended.").
    - intros elems x y E I Y. apply (A_resource_item_clean x y); [|exact Y].
      apply (plain_link_item elems); [|exact I].
      rewrite <- E. now apply plain_link_block_array.
    - rewrite Hhas. cbn [bind]. exact L. }
  pose proof (meta_text_shown
                [Text "Canonical resources score: ";
                 Subst (Number_toString (A.block_score canon)); Text "/10"]
                listed
                [el "p" "block-help-text" [reason]])
    as M.
  cbn [text_of el fold_right] in M.
  apply M; [exact Cl|].
  cbn [forallb clean andb]. now rewrite Number_toString_plain.
Qed.

Lemma block_score_missing (b : val) :
  is_number (get b "score") = false -> Number_toString (A.block_score b) = "0".
Proof.
  intros H. unfold A.block_score. rewrite (number_or_zero_missing _ H).
  now destruct (truthy b).
Qed.

(** C2, as amended.  [renderArcRank] never throws, whatever the result.
    With [score_matrix] present, a [final_score] that is missing, or is not
    a number, is shown as [0], and a sub-score that is missing, or whose
    block is missing, is shown as a dash; none is shown as [NaN].  With
    [score_matrix] absent the page is left as it was.  [renderBlocks] does
    not throw on blocks that are absent or of the expected types.  Whenever
    it completes, a block whose texts carry no markup and whose [score] is
    missing, or is not a number, shows a score of [0] in its score line; for
    the block of canonical resources the texts must also be fit for an
    attribute value, as the URLs are written into one. *)
Theorem missing_scores_show_placeholders (data : val) (p : page) :
  let sm := get data "score_matrix" in
  let cb := get data "clarity_readability" in
  let fb := get data "faq_block" in
  let fo := get data "fanout_query_analysis" in
  let sb := get data "summary_block" in
  let db := get data "definitions_block" in
  let cr := get data "canonical_resources_block" in
  let ph := A.renderArcRank sm cb fb fo p in
  let pb := A.renderBlocks fault_message sb db fb cr p in
  fst ph = Normal tt /\
  (truthy sm = true ->
     (is_number (get sm "final_score") = false ->
        shown arcScoreEl (snd ph) = option_map (fun _ => "0") (p arcScoreEl)) /\
     (truthy cb = false \/ is_number (get cb "score") = false ->
        shown scoreAioEl (snd ph) = option_map (fun _ => "—") (p scoreAioEl)) /\
     (truthy fb = false \/ is_number (get fb "score") = false ->
        shown scoreAeoEl (snd ph) = option_map (fun _ => "—") (p scoreAeoEl)) /\
     (truthy fo = false \/ is_number (get fo "coverage_score") = false ->
        shown scoreGeoEl (snd ph) = option_map (fun _ => "—") (p scoreGeoEl))) /\
  (truthy sm = false -> snd ph = p) /\
  (absent_or summary_block_type sb = true ->
   absent_or definitions_block_type db = true ->
   absent_or faq_block_type fb = true ->
   absent_or canonical_resources_block_type cr = true ->
     fst pb = Normal tt) /\
  (fst pb = Normal tt ->
     (plain_value sb = true -> is_number (get sb "score") = false ->
      forall e, p summaryBlockEl = Some e ->
      exists html q,
        markup summaryBlockEl (snd pb) = Some html /\
        In ("Summary score: 0/10 · Current summary quality: " ++ q)
           (meta_texts html)) /\
     (plain_value db = true -> is_number (get db "score") = false ->
      forall e, p definitionsBlockEl = Some e ->
      exists html,
        markup definitionsBlockEl (snd pb) = Some html /\
        In "Definitions score: 0/10" (meta_texts html)) /\
     (plain_value fb = true -> is_number (get fb "score") = false ->
      forall e, p faqBlockEl = Some e ->
      exists html,
        markup faqBlockEl (snd pb) = Some html /\
        In "FAQ score: 0/10" (meta_texts html)) /\
     (plain_link cr = true -> is_number (get cr "score") = false ->
      forall e, p canonicalBlockEl = Some e ->
      exists html,
        markup canonicalBlockEl (snd pb) = Some html /\
        In "Canonical resources score: 0/10" (meta_texts html))).
Proof.
  intros sm cb fb fo sb db cr ph pb. subst ph pb.
  split; [apply A_renderArcRank_normal|].
  split.
  { intros Tsm.
    destruct (A_renderArcRank_writes sm cb fb fo p Tsm) as (W1 & W2 & W3 & W4).
    split.
    { intros N. rewrite W1, (number_or_zero_missing _ N). reflexivity. }
    split.
    { intros N. rewrite W2, (block_number_missing _ _ N). reflexivity. }
    split.
    { intros N. rewrite W3, (block_number_missing _ _ N). reflexivity. }
    intros N. rewrite W4, (block_number_missing _ _ N). reflexivity. }
  split.
  { intros F. unfold A.renderArcRank. now rewrite F. }
  split; [apply A_renderBlocks_typed|].
  intros C.
  destruct (A.renderBlocks fault_message sb db fb cr p) as [o p'] eqn:R.
  cbn [fst snd] in *. subst o.
  destruct (A_renderBlocks_regions _ _ _ _ _ _ R) as (R1 & R2 & R3 & R4).
  split.
  { intros P N e E. destruct (R1 e E) as (html & T & M).
    destruct (A_summary_score_line sb html P T) as [q S].
    exists html, q. split; [exact M|].
    now rewrite (block_score_missing _ N) in S. }
  split.
  { intros P N e E. destruct (R2 e E) as (html & T & M).
    exists html. split; [exact M|].
    pose proof (A_definitions_score_line db html P T) as S.
    now rewrite (block_score_missing _ N) in S. }
  split.
  { intros P N e E. destruct (R3 e E) as (html & T & M).
    exists html. split; [exact M|].
    pose proof (A_faq_score_line fb html P T) as S.
    now rewrite (block_score_missing _ N) in S. }
  intros P N e E. destruct (R4 e E) as (html & T & M).
  exists html. split; [exact M|].
  pose proof (A_canonical_score_line cr html P T) as S.
  now rewrite (block_score_missing _ N) in S.
Qed.

End Blocks.

(** C2, as amended, on a result with an empty [score_matrix] and no other
    field: the header shows [0] and dashes, the blocks complete, and the FAQ
    region has the score line [FAQ score: 0/10]. *)
Lemma missing_scores_show_placeholders_witness :
  let ph := snd (A.renderArcRank (get bare_result "score_matrix")
                   (get bare_result "clarity_readability")
                   (get bare_result "faq_block")
                   (get bare_result "fanout_query_analysis") stale_page) in
  let pb := A.renderBlocks example_message (get bare_result "summary_block")
              (get bare_result "definitions_block") (get bare_result "faq_block")
              (get bare_result "canonical_resources_block") stale_page in
  shown arcScoreEl ph = Some "0" /\
  shown scoreAioEl ph = Some "—" /\
  shown scoreAeoEl ph = Some "—" /\
  shown scoreGeoEl ph = Some "—" /\
  fst pb = Normal tt /\
  exists html,
    markup faqBlockEl (snd pb) = Some html /\
    In "FAQ score: 0/10" (meta_texts html).
Proof.
  destruct (missing_scores_show_placeholders example_message bare_result
              stale_page)
    as (_ & H & _ & B & L).
  destruct (H eq_refl) as (H1 & H2 & H3 & H4).
  pose proof (B eq_refl eq_refl eq_refl eq_refl) as C.
  destruct (L C) as (_ & _ & F & _).
  split; [exact (H1 eq_refl)|].
  split; [exact (H2 (or_introl eq_refl))|].
  split; [exact (H3 (or_introl eq_refl))|].
  split; [exact (H4 (or_introl eq_refl))|].
  split; [exact C|].
  exact (F eq_refl eq_refl (stale_element EmptyString) eq_refl).
Defined.

(** C2 as stated fails when [score_matrix] is absent: on a page that shows
    [82] from an earlier analysis, a result with no field at all leaves [82]
    in the score header, and with no engine does the header then show [0] or
    a dash. *)
Lemma absent_score_matrix_counterexample :
  get empty_result "score_matrix" = Undefined /\
  shown arcScoreEl
    (snd (A.renderArcRank (get empty_result "score_matrix")
            (get empty_result "clarity_readability")
            (get empty_result "faq_block")
            (get empty_result "fanout_query_analysis") stale_page))
  = Some "82" /\
  ~ (exists fault_message StringToNumber,
       shown arcScoreEl
         (snd (A.renderResults fault_message StringToNumber empty_result
                 stale_page)) = Some "0" \/
       shown arcScoreEl
         (snd (A.renderResults fault_message StringToNumber empty_result
                 stale_page)) = Some "—").
Proof.
  split; [reflexivity|]. split; [reflexivity|].
  intros (fm & s2n & H). unfold shown in H.
  rewrite (A_renderResults_keeps_header fm s2n empty_result stale_page
             arcScoreEl eq_refl eq_refl) in H.
  destruct H as [H|H]; discriminate H.
Qed.

(** C9, as amended, on a result whose three sub-scores are zero, for each
    script. *)
Lemma zero_sub_score_shows_dash_witness :
  let p' := snd (A.renderArcRank (Obj [])
                   (Obj [("score", Num 0%float)])
                   (Obj [("score", Num 0%float)])
                   (Obj [("coverage_score", Num 0%float)]) stale_page) in
  let q' := snd (B.renderArcRank example_message example_StringToNumber
                   zero_evaluation stale_page) in
  shown scoreAioEl p' = Some "—" /\
  shown scoreAeoEl p' = Some "—" /\
  shown scoreGeoEl p' = Some "—" /\
  shown scoreAioEl q' = Some "—" /\
  shown scoreAeoEl q' = Some "—" /\
  shown scoreGeoEl q' = Some "—".
Proof.
  destruct (zero_sub_score_shows_dash example_message example_StringToNumber
              (Obj [])
              (Obj [("score", Num 0%float)])
              (Obj [("score", Num 0%float)])
              (Obj [("coverage_score", Num 0%float)]) zero_evaluation
              0%float stale_page stale_page
              (snd (B.renderArcRank example_message example_StringToNumber
                      zero_evaluation stale_page))
              eq_refl eq_refl eq_refl eq_refl)
    as (H1 & H2 & H3 & _ & H4 & H5 & H6).
  - vm_compute. reflexivity.
  - split; [exact (H1 eq_refl)|].
    split; [exact (H2 eq_refl)|].
    split; [exact (H3 eq_refl)|].
    split; [exact (H4 eq_refl)|].
    split; [exact (H5 eq_refl)|exact (H6 eq_refl)].
Defined.

(** C9 as stated fails when [score_matrix] is absent: on a page that shows
    an AIO score of [7.3] from an earlier analysis, a result whose
    [clarity_readability.score] is zero leaves [7.3] there, and with no engine
    does the AIO element then show a dash. *)
Lemma zero_sub_score_counterexample :
  get (get zero_clarity_result "clarity_readability") "score" = Num 0%float /\
  shown scoreAioEl
    (snd (A.renderArcRank (get zero_clarity_result "score_matrix")
            (get zero_clarity_result "clarity_readability")
            (get zero_clarity_result "faq_block")
            (get zero_clarity_result "fanout_query_analysis") stale_page))
  = Some "7.3" /\
  ~ (exists fault_message StringToNumber,
       shown scoreAioEl
         (snd (A.renderResults fault_message StringToNumber
                 zero_clarity_result stale_page)) = Some "—").
Proof.
  split; [reflexivity|]. split; [reflexivity|].
  intros (fm & s2n & H). unfold shown in H.
  rewrite (A_renderResults_keeps_header fm s2n zero_clarity_result stale_page
             scoreAioEl eq_refl eq_refl) in H.
  discriminate H.
Qed.

(** C10 on a result with no field, on a page that shows earlier scores. *)
Lemma header_untouched_without_scores_witness :
  A.renderArcRank (get empty_result "score_matrix")
    (get empty_result "clarity_readability") (get empty_result "faq_block")
    (get empty_result "fanout_query_analysis") stale_page
  = (Normal tt, stale_page) /\
  B.renderArcRank example_message example_StringToNumber
    (get (oror empty_result (Obj [])) "evaluation") stale_page
  = (Normal tt, stale_page).
Proof.
  destruct (header_untouched_without_scores example_message
              example_StringToNumber empty_result empty_result stale_page
              eq_refl (or_introl eq_refl))
    as (H1 & _ & H2 & _).
  split; [exact H1|exact H2].
Defined.

(** C1 on a URL field that holds three spaces. *)
Lemma blank_url_is_rejected_witness :
  sent (A.analyzeUrl example_message example_StringToNumber
          (fun _ => Rejected (Error "not reached")) (world_with_url "   "))
  = [] /\
  sent (B.analyzeUrl example_message example_StringToNumber
          (fun _ => Rejected (Error "not reached")) (world_with_url "   "))
  = [].
Proof.
  destruct (blank_url_is_rejected example_message example_StringToNumber
              (fun _ => Rejected (Error "not reached")) (world_with_url "   ")
              empty_element eq_refl eq_refl)
    as (H1 & _ & _ & H2 & _).
  split; [exact H1|exact H2].
Defined.

(** C8 on a request that the network rejects. *)
Lemma submission_ends_idle_witness :
  loading
    (dom (A.analyzeUrl example_message example_StringToNumber
            (fun _ => Rejected (mkError "TypeError" "Failed to fetch"))
            (world_with_url "https://example.com"))) = false /\
  loading
    (dom (B.analyzeUrl example_message example_StringToNumber
            (fun _ => Rejected (mkError "TypeError" "Failed to fetch"))
            (world_with_url "https://example.com"))) = false.
Proof.
  destruct (submission_ends_idle example_message example_StringToNumber
              (fun _ => Rejected (mkError "TypeError" "Failed to fetch"))
              (world_with_url "https://example.com")
              empty_element empty_element eq_refl eq_refl)
    as (_ & H1 & _ & H2).
  - vm_compute. discriminate.
  - split; [exact H1|exact H2].
Defined.
